(** * Shopify products scraper: flattening, schema discovery and row building

    A shallow embedding of [src/shopfiy_scraper.py].  JSON payloads are
    modelled by the inductive type [value]; Python dictionaries are
    association lists kept in insertion order, since the order in which
    [d.items()] is traversed decides which of two colliding compound keys
    survives [dict(items)].

    The script is dynamically typed, and so is the model: an operation
    applied to a value of the wrong kind raises the exception that the
    interpreter raises.  Network and file effects are threaded through an
    explicit run state, in a state-and-exception monad; the remote shop is a
    record of functions that answer the three kinds of request.  The
    [while] loop over the pages takes fuel.  Two things are left out: the
    interpreter's recursion limit, and a shop whose answer to one and the
    same request changes during the run. *)

From Stdlib Require Import String Ascii List ZArith Lia Bool.
From Stdlib Require Import DecimalString Sorted.
From Stdlib Require DecimalNat DecimalFacts.
Import ListNotations.
Local Open Scope string_scope.

(** ** Values *)

(** What [json.loads] can return.  A float is identified by its shortest
    round-trip representation, which is also what [str] prints for it.
    Strings are sequences of [ascii] characters. *)
#[warnings="-register-all"]
Inductive value : Type :=
| VNone
| VBool (b : bool)
| VInt (n : Z)
| VFloat (shortest : string)
| VStr (s : string)
| VList (elems : list value)
| VDict (entries : list (string * value)).

(** A dictionary with string keys, in insertion order, one entry per key. *)
Definition dict : Type := list (string * value).

(** Induction over [value] that reaches inside lists and dictionaries. *)
Section ValueInd.
Variable P : value -> Prop.
Hypothesis HNone : P VNone.
Hypothesis HBool : forall b, P (VBool b).
Hypothesis HInt : forall n, P (VInt n).
Hypothesis HFloat : forall r, P (VFloat r).
Hypothesis HStr : forall s, P (VStr s).
Hypothesis HList : forall l, Forall P l -> P (VList l).
Hypothesis HDict : forall d, Forall (fun kv => P (snd kv)) d -> P (VDict d).

Fixpoint value_nested_ind (v : value) : P v :=
  match v with
  | VNone => HNone
  | VBool b => HBool b
  | VInt n => HInt n
  | VFloat r => HFloat r
  | VStr s => HStr s
  | VList l =>
      HList l
        ((fix elems (l : list value) : Forall P l :=
            match l with
            | [] => Forall_nil _
            | x :: l' => Forall_cons x (value_nested_ind x) (elems l')
            end) l)
  | VDict d =>
      HDict d
        ((fix entries (d : list (string * value))
            : Forall (fun kv => P (snd kv)) d :=
            match d with
            | [] => Forall_nil _
            | kv :: d' =>
                Forall_cons kv (value_nested_ind (snd kv)) (entries d')
            end) d)
  end.
End ValueInd.

(** ** The Python built-ins the script relies on *)

(** [repr] of a string (quoting and escaping) belongs to the interpreter,
    not to the script; it is only reached when a list or a dictionary is
    printed with [str]. *)
Class PyRepr : Type := repr_str : string -> string.

(** Exceptions.  The first three are raised by the interpreter inside the
    script's own statements and nothing catches them; [Failure] is any
    [Exception] raised inside one of the script's [try] blocks, carried
    with its [str] text; [SystemExit] is what [exit(code)] raises. *)
Inductive exn : Type :=
| AttributeError
| TypeError
| KeyError (key : string)
| Failure (text : string)
| SystemExit (code : Z).

Inductive result (A : Type) : Type :=
| Ok (a : A)
| Raise (e : exn).
Arguments Ok {A} a.
Arguments Raise {A} e.

Module Py.

(** [bool(s)] for a string. *)
Definition str_truthy (s : string) : bool := negb (s =? "").

(** [bool(v)], as tested by [if v] and [while v]. *)
Definition truthy (v : value) : bool :=
  match v with
  | VNone => false
  | VBool b => b
  | VInt n => negb (n =? 0)%Z
  | VFloat r => negb ((r =? "0.0") || (r =? "-0.0"))
  | VStr s => str_truthy s
  | VList l => match l with [] => false | _ :: _ => true end
  | VDict d => match d with [] => false | _ :: _ => true end
  end.

Definition isinstance_dict (v : value) : bool :=
  match v with VDict _ => true | _ => false end.

(** [str(i)] for an integer and for an [enumerate] index. *)
Definition str_int (n : Z) : string := NilZero.string_of_int (Z.to_int n).
Definition str_nat (i : nat) : string := NilZero.string_of_uint (Nat.to_uint i).

Section Str.
Context {R : PyRepr}.

Fixpoint repr (v : value) : string :=
  match v with
  | VNone => "None"
  | VBool true => "True"
  | VBool false => "False"
  | VInt n => str_int n
  | VFloat r => r
  | VStr s => repr_str s
  | VList l => "[" ++ String.concat ", " (map repr l) ++ "]"
  | VDict d =>
      "{" ++ String.concat ", "
               (map (fun kv => repr_str (fst kv) ++ ": " ++ repr (snd kv)) d)
          ++ "}"
  end.

(** [str(v)]: a string is printed as itself, anything else as its [repr]. *)
Definition str (v : value) : string :=
  match v with
  | VStr s => s
  | _ => repr v
  end.
End Str.

(** [sep.join(parts)]. *)
Definition join (sep : string) (parts : list string) : string :=
  String.concat sep parts.

(** [d[k] = v] on an insertion-ordered dictionary: an existing key keeps
    its place and takes the new value, a new key goes last. *)
Fixpoint dict_set (d : dict) (k : string) (v : value) : dict :=
  match d with
  | [] => [(k, v)]
  | (k', v') :: d' =>
      if k =? k' then (k', v) :: d' else (k', v') :: dict_set d' k v
  end.

(** [dict(items)]. *)
Definition dict_of_items (items : list (string * value)) : dict :=
  fold_left (fun d kv => dict_set d (fst kv) (snd kv)) items [].

Fixpoint lookup (d : dict) (k : string) : option value :=
  match d with
  | [] => None
  | (k', v) :: d' => if k =? k' then Some v else lookup d' k
  end.

(** [d.get(k, default)]. *)
Definition get (d : dict) (k : string) (default : value) : value :=
  match lookup d k with
  | Some v => v
  | None => default
  end.

(** [d.keys()]. *)
Definition keys (d : dict) : list string := map fst d.

End Py.

(** ** [flatten_dict] (lines 24-43) *)

Section Flatten.
Context {R : PyRepr}.

(** Line 28. *)
Definition new_key_of (parent_key sep k : string) : string :=
  if Py.str_truthy parent_key then parent_key ++ sep ++ k else k.

(** Line 40. *)
Definition join_simple_list (l : list value) : value :=
  VStr (if Py.truthy (VList l) then Py.join "|" (map Py.str l) else "").

(** Line 31: [isinstance(v, list) and v and isinstance(v[0], dict)],
    for [v] the list [l]. *)
Definition first_is_dict (l : list value) : bool :=
  match l with
  | VDict _ :: _ => true
  | _ => false
  end.

(** Lines 35 and 37: the f-string that appends [_i] to the key; the
    underscore is written out there, whatever [sep] is. *)
Definition index_key (new_key : string) (i : nat) : string :=
  new_key ++ "_" ++ Py.str_nat i.

(** The pairs that one iteration of the loop of line 27 adds to [items],
    for the entry [(k, v)] of the dictionary being flattened. *)
Fixpoint flatten_entry (parent_key sep k : string) (v : value) {struct v}
  : list (string * value) :=
  let new_key := new_key_of parent_key sep k in
  match v with
  | VDict d =>
      Py.dict_of_items
        (flat_map (fun kv => flatten_entry new_key sep (fst kv) (snd kv)) d)
  | VList l =>
      if first_is_dict l then
        (fix enumerate (l : list value) (i : nat) : list (string * value) :=
           match l with
           | [] => []
           | item :: l' =>
               ((match item with
                 | VDict d =>
                     Py.dict_of_items
                       (flat_map
                          (fun kv =>
                             flatten_entry (index_key new_key i) sep
                               (fst kv) (snd kv)) d)
                 | _ => [(index_key new_key i, item)]
                 end) ++ enumerate l' (S i))%list
           end) l 0
      else [(new_key, join_simple_list l)]
  | _ => [(new_key, v)]
  end.

(** [flatten_dict(d, parent_key, sep)] for a dictionary [d]. *)
Definition flatten_dict (d : dict) (parent_key sep : string) : dict :=
  Py.dict_of_items
    (flat_map (fun kv => flatten_entry parent_key sep (fst kv) (snd kv)) d).

(** Lines 33-37: the loop over [enumerate(v)], started at index [i]. *)
Fixpoint flatten_enumerate (new_key sep : string) (l : list value) (i : nat)
  : list (string * value) :=
  match l with
  | [] => []
  | item :: l' =>
      ((match item with
        | VDict d => flatten_dict d (index_key new_key i) sep
        | _ => [(index_key new_key i, item)]
        end) ++ flatten_enumerate new_key sep l' (S i))%list
  end.

(** The call [flatten_dict(v)] on a value that need not be a dictionary:
    [v.items()] raises on anything else. *)
Definition flatten_dict_call (v : value) : result dict :=
  match v with
  | VDict d => Ok (flatten_dict d "" "_")
  | _ => Raise AttributeError
  end.

End Flatten.

(** ** More built-ins: the dynamic operations of the main script *)

Module PyDyn.

(** [v[key]] for a string [key]: only a dictionary can be subscripted by
    a string. *)
Definition getitem (v : value) (key : string) : result value :=
  match v with
  | VDict d =>
      match Py.lookup d key with
      | Some x => Ok x
      | None => Raise (KeyError key)
      end
  | _ => Raise TypeError
  end.

(** [key in v] for a string [key]: key membership in a dictionary,
    element membership in a list, substring test in a string. *)
Definition contains (key : string) (v : value) : result bool :=
  match v with
  | VDict d => Ok (existsb (String.eqb key) (Py.keys d))
  | VList l =>
      Ok (existsb (fun x => match x with VStr s => s =? key | _ => false end) l)
  | VStr s =>
      Ok (match String.index 0 key s with Some _ => true | None => false end)
  | _ => Raise TypeError
  end.

(** The elements that [for x in v] goes through. *)
Definition iter (v : value) : result (list value) :=
  match v with
  | VList l => Ok l
  | VDict d => Ok (map VStr (Py.keys d))
  | VStr s => Ok (map (fun c => VStr (String c "")) (list_ascii_of_string s))
  | _ => Raise TypeError
  end.

(** [v[:n]]. *)
Definition slice_to (n : nat) (v : value) : result value :=
  match v with
  | VList l => Ok (VList (firstn n l))
  | VStr s => Ok (VStr (String.substring 0 n s))
  | _ => Raise TypeError
  end.

(** [set.add]; a set is kept as a list without repetition, in no
    particular order. *)
Definition set_add (s : list string) (k : string) : list string :=
  if existsb (String.eqb k) s then s else k :: s.

(** [set.update]. *)
Definition set_update (s ks : list string) : list string :=
  fold_left set_add ks s.

(** [sorted] on strings: ascending in the character-wise order. *)
Fixpoint insert_sorted (k : string) (l : list string) : list string :=
  match l with
  | [] => [k]
  | x :: l' => if String.leb k x then k :: l else x :: insert_sorted k l'
  end.

Definition sorted (l : list string) : list string :=
  fold_right insert_sorted [] l.

End PyDyn.

(** Sequencing of computations that may raise. *)
Definition rbind {A B : Type} (r : result A) (k : A -> result B) : result B :=
  match r with
  | Ok a => k a
  | Raise e => Raise e
  end.

(** ** Field discovery (lines 45-60) *)

Section Discovery.
Context {R : PyRepr}.

(** The loop of lines 48-50, from the set [all_fields]. *)
Fixpoint collect_product_fields (products_sample : list value)
  (all_fields : list string) : result (list string) :=
  match products_sample with
  | [] => Ok all_fields
  | product :: rest =>
      rbind (flatten_dict_call product) (fun flattened =>
      collect_product_fields rest
        (PyDyn.set_update all_fields (Py.keys flattened)))
  end.

Definition get_all_product_fields (products_sample : list value)
  : result (list string) :=
  rbind (collect_product_fields products_sample []) (fun all_fields =>
  Ok (PyDyn.sorted all_fields)).

(** The loop of lines 56-59: what is not a dictionary is passed over. *)
Fixpoint collect_variant_fields (variants_sample : list value)
  (all_fields : list string) : list string :=
  match variants_sample with
  | [] => all_fields
  | variant :: rest =>
      match variant with
      | VDict d =>
          collect_variant_fields rest
            (PyDyn.set_update all_fields (Py.keys (flatten_dict d "" "_")))
      | _ => collect_variant_fields rest all_fields
      end
  end.

Definition get_all_variant_fields (variants_sample : list value)
  : list string :=
  PyDyn.sorted (collect_variant_fields variants_sample []).

End Discovery.

(** ** The store, the run state and the script's monad *)

(** The outcome of the statements inside a [try] block: either they went
    through, or some [Exception] was raised, with its text. *)
Inductive fetched (A : Type) : Type :=
| Fetched (a : A)
| Failed (text : string).
Arguments Fetched {A} a.
Arguments Failed {A} text.

(** The remote shop, as the script sees it:
    - [products_json page] is lines 64-65, the ['products'] member of the
      JSON body of [base_url/products.json?page=page];
    - [product_html url] is lines 73-85, the title and the meta description
      found in the page at [url];
    - [product_json url] is lines 93-95, the ['product'] member of the JSON
      body of [url.json]. *)
Record store : Type := {
  products_json : nat -> fetched value;
  product_html : string -> fetched (value * value);
  product_json : string -> fetched value
}.

Inductive request : Type :=
| GetPage (page : nat)
| GetHtml (product_url : string)
| GetJson (product_url : string).

(** Command line (lines 10-14). *)
Record arguments : Type := {
  website_url : option string;
  variants : bool;
  debug : bool
}.

(** What a run has done so far: the lines printed, the requests sent, the
    rows written to [products_complete.csv] once it has been created, and
    the two counters of lines 151-152. *)
Record state : Type := {
  stdout : list string;
  requests : list request;
  csv_created : bool;
  csv_rows : list (list value);
  total_products : nat;
  total_variants : nat
}.

Definition initial_state : state :=
  {| stdout := []; requests := []; csv_created := false; csv_rows := [];
     total_products := 0; total_variants := 0 |}.

Definition M (A : Type) : Type := state -> result A * state.

Definition ret {A : Type} (a : A) : M A := fun st => (Ok a, st).

Definition raise {A : Type} (e : exn) : M A := fun st => (Raise e, st).

Definition bind {A B : Type} (m : M A) (k : A -> M B) : M B :=
  fun st =>
    match m st with
    | (Ok a, st') => k a st'
    | (Raise e, st') => (Raise e, st')
    end.

Definition lift {A : Type} (r : result A) : M A := fun st => (r, st).

Declare Scope script_scope.
Delimit Scope script_scope with script.
Notation "x <- m ;; k" := (bind m (fun x => k))
  (at level 61, m at next level, right associativity) : script_scope.
Notation "m ;; k" := (bind m (fun _ => k))
  (at level 61, right associativity) : script_scope.
Local Open Scope script_scope.

Definition print (line : string) : M unit :=
  fun st =>
    (Ok tt,
     {| stdout := stdout st ++ [line]; requests := requests st;
        csv_created := csv_created st; csv_rows := csv_rows st;
        total_products := total_products st;
        total_variants := total_variants st |}).

Definition send (r : request) : M unit :=
  fun st =>
    (Ok tt,
     {| stdout := stdout st; requests := requests st ++ [r];
        csv_created := csv_created st; csv_rows := csv_rows st;
        total_products := total_products st;
        total_variants := total_variants st |}).

(** Line 135: the file is created, empty. *)
Definition open_csv : M unit :=
  fun st =>
    (Ok tt,
     {| stdout := stdout st; requests := requests st;
        csv_created := true; csv_rows := [];
        total_products := total_products st;
        total_variants := total_variants st |}).

Definition writerow (row : list value) : M unit :=
  fun st =>
    (Ok tt,
     {| stdout := stdout st; requests := requests st;
        csv_created := csv_created st; csv_rows := csv_rows st ++ [row];
        total_products := total_products st;
        total_variants := total_variants st |}).

(** Lines 151-152. *)
Definition reset_totals : M unit :=
  fun st =>
    (Ok tt,
     {| stdout := stdout st; requests := requests st;
        csv_created := csv_created st; csv_rows := csv_rows st;
        total_products := 0; total_variants := 0 |}).

(** Line 197. *)
Definition count_product : M unit :=
  fun st =>
    (Ok tt,
     {| stdout := stdout st; requests := requests st;
        csv_created := csv_created st; csv_rows := csv_rows st;
        total_products := total_products st + 1;
        total_variants := total_variants st |}).

(** Line 186. *)
Definition count_variant : M unit :=
  fun st =>
    (Ok tt,
     {| stdout := stdout st; requests := requests st;
        csv_created := csv_created st; csv_rows := csv_rows st;
        total_products := total_products st;
        total_variants := total_variants st + 1 |}).

(** A [for] loop whose body may [continue] (by returning) or raise. *)
Fixpoint for_each {A : Type} (l : list A) (body : A -> M unit) : M unit :=
  match l with
  | [] => ret tt
  | x :: l' => body x ;; for_each l' body
  end.

(** ** The script *)

Definition nl : string := String "010"%char "".

Section Script.
Context {R : PyRepr}.
Variable shop : store.
(** Lines 20 and 22. *)
Variable base_url : string.
Variable with_variants : bool.

(** Lines 62-69; the page is [url + '?page=' + str(page)]. *)
Definition get_page (page : nat) : M value :=
  send (GetPage page) ;;
  match products_json shop page with
  | Fetched products => ret products
  | Failed e =>
      print ("Error fetching page " ++ Py.str_nat page ++ ": " ++ e) ;;
      ret (VList [])
  end.

(** Lines 71-88. *)
Definition get_tags_from_product (product_url : string) : M (value * value) :=
  send (GetHtml product_url) ;;
  match product_html shop product_url with
  | Fetched tags => ret tags
  | Failed e =>
      print ("Error getting tags from " ++ product_url ++ ": " ++ e) ;;
      ret (VStr "", VStr "")
  end.

(** Lines 90-98. *)
Definition get_complete_product_data (product_url : string) : M value :=
  send (GetJson product_url) ;;
  match product_json shop product_url with
  | Fetched product => ret product
  | Failed e =>
      print ("Error getting complete product data from " ++ product_url
             ++ ": " ++ e) ;;
      ret VNone
  end.

(** Lines 112 and 157: [base_url + '/products/' + product['handle']]. *)
Definition product_url_of (product : value) : result string :=
  rbind (PyDyn.getitem product "handle") (fun handle =>
  match handle with
  | VStr h => Ok (base_url ++ "/products/" ++ h)
  | _ => Raise TypeError
  end).

(** One turn of the loop of lines 111-117, on the two sample lists. *)
Definition sample_product (samples : list value * list value)
  (product : value) : M (list value * list value) :=
  product_url <- lift (product_url_of product) ;;
  complete_product <- get_complete_product_data product_url ;;
  if Py.truthy complete_product then
    let sample_complete_products := (fst samples ++ [complete_product])%list in
    has_variants <- lift (PyDyn.contains "variants" complete_product) ;;
    if has_variants : bool then
      product_variants <- lift (PyDyn.getitem complete_product "variants") ;;
      if Py.truthy product_variants then
        more <- lift (PyDyn.iter product_variants) ;;
        ret (sample_complete_products, (snd samples ++ more)%list)
      else ret (sample_complete_products, snd samples)
    else ret (sample_complete_products, snd samples)
  else ret samples.

Fixpoint sample_loop (products : list value)
  (samples : list value * list value) : M (list value * list value) :=
  match products with
  | [] => ret samples
  | product :: rest =>
      samples' <- sample_product samples product ;;
      sample_loop rest samples'
  end.

Section Rows.
(** Lines 120-121. *)
Variable product_fields : list string.
Variable variant_fields : list string.

(** Line 143: the name of a variant column. *)
Definition variant_column (field : string) : string := "variant_" ++ field.

(** Lines 139-143. *)
Definition header : list string :=
  (["scraped_url"; "meta_title"; "meta_description"]
     ++ product_fields
     ++ (if with_variants then map variant_column variant_fields else []))%list.

(** Lines 174-178 and 189-193: the leading values and one value per
    product field. *)
Definition product_row (product_url : string) (title description : value)
  (flattened_product : dict) : list value :=
  ([VStr product_url; title; description]
     ++ map (fun field => Py.get flattened_product field (VStr ""))
          product_fields)%list.

(** Lines 173-186: the body of the loop over the variants. *)
Definition write_variant (product_url : string) (title description : value)
  (flattened_product : dict) (variant : value) : M unit :=
  let row := product_row product_url title description flattened_product in
  flattened_variant <- lift (flatten_dict_call variant) ;;
  writerow
    (row ++ map (fun field => Py.get flattened_variant field (VStr ""))
              variant_fields)%list ;;
  count_variant.

(** Lines 168-197: what is done with a product once its complete data
    is there. *)
Definition write_product (product_url : string) (title description : value)
  (complete_product : value) : M unit :=
  flattened_product <- lift (flatten_dict_call complete_product) ;;
  in_variant_mode <-
    (if with_variants
     then lift (PyDyn.contains "variants" complete_product)
     else ret false) ;;
  (if in_variant_mode : bool then
     product_variants <- lift (PyDyn.getitem complete_product "variants") ;;
     each <- lift (PyDyn.iter product_variants) ;;
     for_each each
       (write_variant product_url title description flattened_product)
   else
     writerow
       (product_row product_url title description flattened_product)) ;;
  count_product.

(** Lines 157-197: the body of the loop over the products of a page. *)
Definition scrape_product (product : value) : M unit :=
  product_url <- lift (product_url_of product) ;;
  print (" ├ Scraping: " ++ product_url) ;;
  tags <- get_tags_from_product product_url ;;
  complete_product <- get_complete_product_data product_url ;;
  if negb (Py.truthy complete_product) then ret tt
  else write_product product_url (fst tags) (snd tags) complete_product.

(** Lines 156-200: the body of the [while] loop; it returns the next
    page. *)
Definition scrape_page (page : nat) (products : value) : M value :=
  each <- lift (PyDyn.iter products) ;;
  for_each each scrape_product ;;
  get_page (page + 1).

(** Lines 155-200.  The loop goes on for as long as pages have
    products; [None] stands for a run that is still going when the
    fuel is used up. *)
Fixpoint scrape_pages (fuel : nat) (page : nat) (products : value)
  (st : state) : option (result unit * state) :=
  match fuel with
  | 0 => None
  | S fuel' =>
      if Py.truthy products then
        match scrape_page page products st with
        | (Ok products', st') => scrape_pages fuel' (page + 1) products' st'
        | (Raise e, st') => Some (Raise e, st')
        end
      else Some (Ok tt, st)
  end.

(** Lines 123-132. *)
Definition debug_report : M unit :=
  print (nl ++ "[DEBUG] Available product fields ("
         ++ Py.str_nat (List.length product_fields) ++ "):") ;;
  for_each product_fields (fun field => print ("  - " ++ field)) ;;
  (if with_variants && Py.truthy (VList (map VStr variant_fields)) then
     print (nl ++ "[DEBUG] Available variant fields ("
            ++ Py.str_nat (List.length variant_fields) ++ "):") ;;
     for_each variant_fields (fun field => print ("  - " ++ field))
   else ret tt) ;;
  print "".

(** Lines 150-200: the first fetch and the loop. *)
Definition paginate (fuel : nat) (st : state)
  : option (result unit * state) :=
  match get_page 1 st with
  | (Ok products, st') => scrape_pages fuel 1 products st'
  | (Raise e, st') => Some (Raise e, st')
  end.

(** Lines 135-152. *)
Definition start_csv : M unit :=
  open_csv ;;
  writerow (map VStr header) ;;
  print ("[+] Created CSV with " ++ Py.str_nat (List.length header)
         ++ " columns") ;;
  print "[+] Starting complete data extraction..." ;;
  reset_totals.

(** Lines 202-207. *)
Definition final_report : M unit :=
  fun st =>
    (print (nl ++ "[+] Scraping completed!") ;;
     print ("[+] Total products: " ++ Py.str_nat (total_products st)) ;;
     (if with_variants
      then print ("[+] Total variants: " ++ Py.str_nat (total_variants st))
      else ret tt) ;;
     print "[+] Data saved to: products_complete.csv" ;;
     print ("[+] Total columns: " ++ Py.str_nat (List.length header))) st.

(** Lines 123-207. *)
Definition export (debug_flag : bool) (fuel : nat) (st : state)
  : option (result unit * state) :=
  match ((if debug_flag then debug_report else ret tt) ;; start_csv) st with
  | (Ok _, st') =>
      match paginate fuel st' with
      | Some (Ok _, st'') => Some (final_report st'')
      | other => other
      end
  | (Raise e, st') => Some (Raise e, st')
  end.

End Rows.

(** Lines 100-121: the first page, the three sampled products, and the two
    lists of fields. *)
Definition discover : M (list string * list string) :=
  print "[+] Analyzing available fields..." ;;
  sample_products <- get_page 1 ;;
  if negb (Py.truthy sample_products) then
    print "[-] No products found or error accessing the store" ;;
    raise (SystemExit 1)
  else
    first_three <- lift (PyDyn.slice_to 3 sample_products) ;;
    each <- lift (PyDyn.iter first_three) ;;
    samples <- sample_loop each ([], []) ;;
    product_fields <- lift (get_all_product_fields (fst samples)) ;;
    ret (product_fields,
         if with_variants then get_all_variant_fields (snd samples) else []).

End Script.

(** The whole script, from the command line. *)
Definition main {R : PyRepr} (shop : store) (args : arguments) (fuel : nat)
  : option (result unit * state) :=
  match website_url args with
  | Some base_url =>
      if Py.str_truthy base_url then
        match discover shop base_url (variants args) initial_state with
        | (Ok fields, st) =>
            export shop base_url (variants args) (fst fields) (snd fields)
              (debug args) fuel st
        | (Raise e, st) => Some (Raise e, st)
        end
      else
        Some ((print "usage: shopify_scraper.py [-h] [-t WEBSITE_URL] [-v] [--debug]" ;;
               raise (SystemExit 0)) initial_state)
  | None =>
      Some ((print "usage: shopify_scraper.py [-h] [-t WEBSITE_URL] [-v] [--debug]" ;;
             raise (SystemExit 0)) initial_state)
  end.

(** ** Vocabulary of the specification *)

(** A scalar: neither a list nor a dictionary. *)
Definition is_scalar (v : value) : bool :=
  match v with
  | VList _ | VDict _ => false
  | _ => true
  end.

Section Leaves.
Context {R : PyRepr}.

(** The leaves found below a value, each with the path of key fragments
    and list positions that leads to it.  A dictionary contributes the
    leaves of its entries under their keys; a list that starts with a
    dictionary contributes, at each position, the leaves of the element
    found there; a list of any other kind is a single leaf, joined; a
    scalar is a leaf. *)
Fixpoint leaves_below (v : value) : list (list string * value) :=
  match v with
  | VDict d =>
      flat_map
        (fun kv =>
           map (fun leaf => (fst kv :: fst leaf, snd leaf))
             (leaves_below (snd kv))) d
  | VList l =>
      if first_is_dict l then
        (fix enumerate (l : list value) (i : nat)
           : list (list string * value) :=
           match l with
           | [] => []
           | item :: l' =>
               ((if Py.isinstance_dict item
                 then map (fun leaf => (Py.str_nat i :: fst leaf, snd leaf))
                        (leaves_below item)
                 else [([Py.str_nat i], item)])
                  ++ enumerate l' (S i))%list
           end) l 0
      else [([], join_simple_list l)]
  | _ => [([], v)]
  end.

(** The leaves of a record. *)
Definition leaves (d : dict) : list (list string * value) :=
  leaves_below (VDict d).

(** The same enumeration, as a function of its own. *)
Fixpoint leaves_enumerate (l : list value) (i : nat)
  : list (list string * value) :=
  match l with
  | [] => []
  | item :: l' =>
      ((if Py.isinstance_dict item
        then map (fun leaf => (Py.str_nat i :: fst leaf, snd leaf))
               (leaves_below item)
        else [([Py.str_nat i], item)])
         ++ leaves_enumerate l' (S i))%list
  end.

(** What an entry contributes to [items], read off the leaves below its
    value: each pair is a leaf under the key that joins the entry's own
    key and the leaf's path, and each leaf has its key among the pairs. *)
Definition entry_agrees (v : value) : Prop :=
  forall p k,
    new_key_of p "_" k <> "" ->
    (forall key val,
        In (key, val) (flatten_entry p "_" k v) ->
        exists tail,
          In (tail, val) (leaves_below v) /\
          key = Py.join "_" (new_key_of p "_" k :: tail))
    /\
    (forall tail val,
        In (tail, val) (leaves_below v) ->
        In (Py.join "_" (new_key_of p "_" k :: tail))
          (map fst (flatten_entry p "_" k v))).

(** Another entry of the record [d] than the one under [k] flattens to a
    pair whose compound key is [key]. *)
Definition collides (d : dict) (k key : string) : Prop :=
  exists k2 v2,
    In (k2, v2) d /\ k2 <> k /\
    In key (map fst (flatten_entry "" "_" k2 v2)).

End Leaves.

(** The compound key of a path: its fragments joined by the separator. *)
Definition compound_key (path : list string) : string := Py.join "_" path.

(** Strictly ascending order of names, character by character. *)
Definition str_lt (a b : string) : Prop := String.ltb a b = true.

(** [repr] on a string of printable characters other than quotes and
    backslashes: the string between single quotes. *)
Definition repr_plain : PyRepr := fun s => "'" ++ s ++ "'".

(** What [get_page] hands to the loop for a page: the products fetched, or
    the empty list when the fetch failed. *)
Definition page_products (shop : store) (page : nat) : value :=
  match products_json shop page with
  | Fetched products => products
  | Failed _ => VList []
  end.

(** The page numbers requested so far, in order. *)
Definition pages_requested (st : state) : list nat :=
  flat_map (fun r => match r with GetPage p => [p] | _ => [] end) (requests st).

(** A computation that requests no page. *)
Definition keeps_pages {A : Type} (m : M A) : Prop :=
  forall st r st', m st = (r, st') -> pages_requested st' = pages_requested st.

Section BoundedRun.
Context {R : PyRepr}.
Variable shop : store.
Variable base_url : string.
Variable with_variants : bool.
Variables product_fields variant_fields : list string.

(** The products of page [page] are scraped, then the next page is
    fetched. *)
Definition scrape_then_fetch (page : nat) : M unit :=
  scrape_page shop base_url with_variants product_fields variant_fields
    page (page_products shop page) ;;
  ret tt.


End BoundedRun.

(** ** Well-formed answers *)

(** A summary record, as a page lists them: a dictionary with a string
    under [handle]. *)
Definition is_summary (product : value) : Prop :=
  exists d h, product = VDict d /\ Py.lookup d "handle" = Some (VStr h).

(** A complete product, as the detail endpoint is meant to return it: a
    dictionary whose [variants] entry, if it has one, is a list of
    dictionaries.  A falsy answer is passed over by the loop, whatever it
    is. *)
Definition is_complete_product (v : value) : Prop :=
  Py.truthy v = false
  \/ exists d,
      v = VDict d
      /\ forall product_variants,
          Py.lookup d "variants" = Some product_variants ->
          exists vs, product_variants = VList (map VDict vs).

(** A shop whose pages up to [n] list summary records and whose detail
    endpoint returns complete products, when it returns anything. *)
Definition well_formed_shop (shop : store) (n : nat) : Prop :=
  (forall p, 1 <= p <= n ->
             exists items,
               page_products shop p = VList items /\ Forall is_summary items)
  /\ (forall url v, product_json shop url = Fetched v -> is_complete_product v).

(** ** Shops and records used as examples *)

(** A shop with one page of one product, which has one variant. *)
Definition small_shop : store := {|
  products_json := fun page =>
    match page with
    | 1 => Fetched (VList [VDict [("handle", VStr "a")]])
    | _ => Fetched (VList [])
    end;
  product_html := fun _ => Fetched (VStr "A - Shop", VStr "The product A");
  product_json := fun _ =>
    Fetched (VDict [("id", VInt 1); ("title", VStr "A");
                    ("variants",
                     VList [VDict [("id", VInt 10); ("price", VStr "9.99")]])])
|}.

(** A shop that answers no request. *)
Definition silent_shop : store := {|
  products_json := fun _ => Failed "timed out";
  product_html := fun _ => Failed "timed out";
  product_json := fun _ => Failed "timed out"
|}.

(** A shop with two products on its only page: [a] has one variant, [b]
    comes without a [variants] entry. *)
Definition uneven_shop : store := {|
  products_json := fun page =>
    match page with
    | 1 => Fetched (VList [VDict [("handle", VStr "a")];
                           VDict [("handle", VStr "b")]])
    | _ => Fetched (VList [])
    end;
  product_html := fun _ => Fetched (VStr "Shop", VStr "");
  product_json := fun product_url =>
    if product_url =? "https://shop.example/products/a"
    then Fetched (VDict [("id", VInt 1);
                         ("variants", VList [VDict [("price", VStr "9.99")]])])
    else Fetched (VDict [("id", VInt 2)])
|}.

Definition shop_example_args (with_variants : bool) : arguments :=
  {| website_url := Some "https://shop.example";
     variants := with_variants;
     debug := false |}.

(** The records of the specification's examples, and some others. *)
Definition nested_record : dict :=
  [("a", VDict [("b", VInt 1); ("c", VInt 2)])].

Definition tagged_record : dict :=
  [("tags", VList [VStr "x"; VStr "y"]); ("id", VInt 7)].

Definition images_record : dict :=
  [("images", VList [VDict [("src", VStr "u1")]; VDict [("src", VStr "u2")]])].


Definition product_with_variants : dict :=
  [("id", VInt 1);
   ("variants", VList (map VDict [[("price", VStr "9.99")];
                                  [("price", VStr "12.50")]]))].

(** Records in which two entries flatten to the same compound key, and one
    whose only key is empty. *)
Definition clashing_nested_record : dict :=
  [("a_b", VDict [("c", VInt 1)]); ("a_b_c", VDict [("x", VInt 1)])].

Definition empty_key_record : dict := [("", VDict [("b", VInt 1)])].

Definition clashing_tags_record : dict :=
  [("tags_x", VList [VStr "a"]); ("tags", VDict [("x", VInt 1)])].



(** ** Further vocabulary: shapes of records and effects of computations *)

(** A value in which every list holds either scalars only or dictionaries
    only, at every depth. *)
Fixpoint uniform_lists (v : value) : bool :=
  match v with
  | VDict d => forallb (fun kv => uniform_lists (snd kv)) d
  | VList l =>
      forallb is_scalar l
      || forallb (fun x => Py.isinstance_dict x && uniform_lists x) l
  | _ => true
  end.

Section FlattenYields.
Context {R : PyRepr}.

(** What flattening never yields: a dictionary as a value. *)
Definition yields_no_dict (v : value) : Prop :=
  forall p sep k key val,
    In (key, val) (flatten_entry p sep k v) -> Py.isinstance_dict val = false.

(** With uniform lists, every value that flattening yields is a scalar. *)
Definition yields_scalars (v : value) : Prop :=
  uniform_lists v = true ->
  forall p sep k key val,
    In (key, val) (flatten_entry p sep k v) -> is_scalar val = true.

(** Every key that an entry yields starts with the entry's own key. *)
Definition yields_extensions (v : value) : Prop :=
  forall p sep k key,
    In key (map fst (flatten_entry p sep k v)) ->
    exists rest, key = new_key_of p sep k ++ rest.

End FlattenYields.

(** What a computation returns, when it returns. *)
Definition returns {A : Type} (m : M A) (Q : A -> Prop) : Prop :=
  forall st a st', m st = (Ok a, st') -> Q a.

(** Between two states of a run, the file is as created as it was and has
    only gained rows, each of [width] values, with one product counted per
    row. *)
Definition ledger_extends (width : nat) (st st' : state) : Prop :=
  csv_created st' = csv_created st
  /\ exists rows,
      csv_rows st' = (csv_rows st ++ rows)%list
      /\ Forall (fun row => List.length row = width) rows
      /\ total_products st' = total_products st + List.length rows.

(** A computation that keeps to that, however it ends. *)
Definition appends_product_rows {A : Type} (width : nat) (m : M A) : Prop :=
  forall st r st', m st = (r, st') -> ledger_extends width st st'.

(** Two states of a run that differ in what has been printed at most. *)
Definition same_but_stdout (s1 s2 : state) : Prop :=
  requests s1 = requests s2
  /\ csv_created s1 = csv_created s2
  /\ csv_rows s1 = csv_rows s2
  /\ total_products s1 = total_products s2
  /\ total_variants s1 = total_variants s2.

(** A computation on which what has been printed has no bearing. *)
Definition blind_to_stdout {A : Type} (m : M A) : Prop :=
  forall s1 s2,
    same_but_stdout s1 s2 ->
    fst (m s1) = fst (m s2) /\ same_but_stdout (snd (m s1)) (snd (m s2)).

(** The same, for a run that may still be going when the fuel is used up. *)
Definition same_outcome {A : Type} (o1 o2 : option (result A * state)) : Prop :=
  match o1, o2 with
  | Some (r1, s1), Some (r2, s2) => r1 = r2 /\ same_but_stdout s1 s2
  | None, None => True
  | _, _ => False
  end.

(** A computation that only prints. *)
Definition only_prints (m : M unit) : Prop :=
  forall st,
    exists st',
      m st = (Ok tt, st')
      /\ csv_created st' = csv_created st
      /\ csv_rows st' = csv_rows st
      /\ total_products st' = total_products st
      /\ total_variants st' = total_variants st
      /\ requests st' = requests st.

(** A computation that writes nothing and sends only requests for the
    detail JSON of products, [budget] of them at most. *)
Definition sends_details_only {A : Type} (budget : nat) (m : M A) : Prop :=
  forall st r st',
    m st = (r, st') ->
    csv_created st' = csv_created st
    /\ csv_rows st' = csv_rows st
    /\ exists urls,
        requests st' = (requests st ++ map GetJson urls)%list
        /\ List.length urls <= budget.

(** A shop whose every page lists the same product. *)
Definition endless_shop : store := {|
  products_json := fun _ => Fetched (VList [VDict [("handle", VStr "a")]]);
  product_html := fun _ => Fetched (VStr "A", VStr "");
  product_json := fun _ => Fetched (VDict [("id", VInt 1)])
|}.

(** A shop whose listing works and whose detail endpoint does not. *)
Definition listing_only_shop : store := {|
  products_json := fun page =>
    match page with
    | 1 => Fetched (VList [VDict [("handle", VStr "a")];
                           VDict [("handle", VStr "b")]])
    | _ => Fetched (VList [])
    end;
  product_html := fun _ => Fetched (VStr "Shop", VStr "");
  product_json := fun _ => Failed "404"
|}.

(** A shop whose first page lists an item without a handle. *)
Definition nameless_shop : store := {|
  products_json := fun _ => Fetched (VList [VDict [("id", VInt 3)]]);
  product_html := fun _ => Fetched (VStr "Shop", VStr "");
  product_json := fun _ => Fetched (VDict [("id", VInt 3)])
|}.

(** A shop whose pages have no title and whose detail endpoint answers
    with an empty object. *)
Definition hollow_shop : store := {|
  products_json := fun page =>
    match page with
    | 1 => Fetched (VList [VDict [("handle", VStr "a")]])
    | _ => Fetched (VList [])
    end;
  product_html := fun _ => Failed "500";
  product_json := fun _ => Fetched (VDict [])
|}.

(** A shop without HTML pages. *)
Definition headless_shop : store := {|
  products_json := fun page =>
    match page with
    | 1 => Fetched (VList [VDict [("handle", VStr "a")]])
    | _ => Fetched (VList [])
    end;
  product_html := fun _ => Failed "500";
  product_json := fun _ => Fetched (VDict [("id", VInt 1); ("title", VStr "A")])
|}.

Definition flat_record : dict :=
  [("id", VInt 1); ("title", VStr "A"); ("price", VFloat "9.5")].

Definition overridden_record : dict :=
  [("a", VDict [("b", VInt 1)]); ("a_b", VInt 2); ("c", VNone)].

Definition product_with_bad_variant : dict :=
  [("id", VInt 1);
   ("variants", VList (map VDict [[("price", VStr "9.99")]]
                         ++ [VInt 5; VDict [("price", VStr "1")]]))].

Definition dotted_record : dict :=
  [("a", VDict [("b", VInt 1)]);
   ("images", VList [VDict [("src", VStr "u1")]; VDict [("src", VStr "u2")]])].

(** * Properties *)
(** ** Strings *)

Lemma append_assoc (a b c : string) : (a ++ b) ++ c = a ++ b ++ c.
Proof.
  induction a as [|x a IH]; simpl; [reflexivity | now rewrite IH].
Qed.

Lemma append_inv_head (a b c : string) : a ++ b = a ++ c -> b = c.
Proof.
  induction a as [|x a IH]; simpl; intros H; [exact H|].
  injection H as H. auto.
Qed.

Lemma length_append (a b : string) :
  String.length (a ++ b) = String.length a + String.length b.
Proof.
  induction a as [|x a IH]; simpl; [reflexivity | now rewrite IH].
Qed.

Lemma append_longer (a b : string) : b <> "" -> a ++ b <> a.
Proof.
  intros Hb H. apply (f_equal String.length) in H.
  rewrite length_append in H. destruct b; [congruence | simpl in H; lia].
Qed.

Lemma prefix_append (a b : string) : String.prefix a (a ++ b) = true.
Proof.
  induction a as [|x a IH]; simpl.
  - now destruct b.
  - destruct (ascii_dec x x); [exact IH | congruence].
Qed.

Lemma str_truthy_true (s : string) : Py.str_truthy s = true <-> s <> "".
Proof.
  unfold Py.str_truthy. rewrite negb_true_iff. apply String.eqb_neq.
Qed.

Lemma new_key_of_nested (p sep k : string) :
  p <> "" -> new_key_of p sep k = p ++ sep ++ k.
Proof.
  intros Hp. unfold new_key_of.
  now rewrite (proj2 (str_truthy_true p) Hp).
Qed.

Lemma new_key_of_nonempty (p sep k : string) :
  k <> "" \/ (p <> "" /\ sep <> "") -> new_key_of p sep k <> "".
Proof.
  unfold new_key_of. destruct p as [|c p]; simpl.
  - intros [H | [H _]]; congruence.
  - discriminate.
Qed.

(** The decimal form of a position has no underscore in it. *)
Lemma string_of_uint_no_underscore (d : Decimal.uint) (a b : string) :
  NilEmpty.string_of_uint d <> a ++ "_" ++ b.
Proof.
  revert a.
  induction d; intros a H; simpl in H;
    destruct a as [|x a]; simpl in H; try discriminate;
    injection H as _ H; eapply IHd; exact H.
Qed.

Lemma str_nat_no_underscore (i : nat) (a b : string) :
  Py.str_nat i <> a ++ "_" ++ b.
Proof.
  unfold Py.str_nat, NilZero.string_of_uint.
  destruct (Nat.to_uint i) eqn:E; try apply string_of_uint_no_underscore.
  destruct a as [|x a]; simpl; try discriminate.
  destruct a; discriminate.
Qed.

Lemma to_uint_nonnil (i : nat) : Nat.to_uint i <> Decimal.Nil.
Proof.
  rewrite <- (DecimalNat.Unsigned.of_to i) at 1.
  rewrite DecimalNat.Unsigned.to_of. apply DecimalFacts.unorm_nonnil.
Qed.

Lemma str_nat_inj (i j : nat) : Py.str_nat i = Py.str_nat j -> i = j.
Proof.
  unfold Py.str_nat. intros H.
  apply (f_equal NilZero.uint_of_string) in H.
  rewrite !NilZero.usu in H by apply to_uint_nonnil.
  apply DecimalNat.Unsigned.to_uint_inj. congruence.
Qed.

(** ** Dictionaries *)

Section DictFacts.

Lemma keys_dict_set (d : dict) (k : string) (v : value) (k' : string) :
  In k' (Py.keys (Py.dict_set d k v)) <-> k' = k \/ In k' (Py.keys d).
Proof.
  induction d as [|[k0 v0] d IH]; simpl.
  - intuition congruence.
  - destruct (String.eqb_spec k k0) as [->|Hne]; simpl.
    + intuition congruence.
    + rewrite IH. intuition congruence.
Qed.

Lemma in_dict_set (d : dict) (k : string) (v : value) (kv : string * value) :
  In kv (Py.dict_set d k v) -> kv = (k, v) \/ In kv d.
Proof.
  induction d as [|[k0 v0] d IH]; simpl.
  - intuition congruence.
  - destruct (String.eqb_spec k k0) as [->|Hne]; simpl.
    + intuition congruence.
    + intros [H|H]; [auto | destruct (IH H); auto].
Qed.

Lemma NoDup_dict_set (d : dict) (k : string) (v : value) :
  NoDup (Py.keys d) -> NoDup (Py.keys (Py.dict_set d k v)).
Proof.
  induction d as [|[k0 v0] d IH]; simpl; intros H.
  - constructor; [intros [] | constructor].
  - inversion H as [|? ? Hnotin Hnd]; subst.
    destruct (String.eqb_spec k k0) as [->|Hne]; simpl.
    + constructor; assumption.
    + constructor; [|auto].
      change (~ In k0 (Py.keys (Py.dict_set d k v))).
      rewrite keys_dict_set. intuition congruence.
Qed.

Let step (d : dict) (kv : string * value) : dict :=
  Py.dict_set d (fst kv) (snd kv).

Lemma keys_fold_set (items : list (string * value)) (acc : dict) (k : string) :
  In k (Py.keys (fold_left step items acc))
  <-> In k (Py.keys acc) \/ In k (map fst items).
Proof.
  revert acc. induction items as [|[k0 v0] items IH]; intros acc; simpl.
  - tauto.
  - rewrite IH. unfold step. simpl. rewrite keys_dict_set. intuition congruence.
Qed.

Lemma in_fold_set (items : list (string * value)) (acc : dict)
  (kv : string * value) :
  In kv (fold_left step items acc) -> In kv acc \/ In kv items.
Proof.
  revert acc. induction items as [|[k0 v0] items IH]; intros acc; simpl.
  - tauto.
  - intros H. destruct (IH _ H) as [H'|H']; [|tauto].
    destruct (in_dict_set _ _ _ _ H'); auto.
Qed.

Lemma NoDup_fold_set (items : list (string * value)) (acc : dict) :
  NoDup (Py.keys acc) -> NoDup (Py.keys (fold_left step items acc)).
Proof.
  revert acc. induction items as [|kv items IH]; intros acc H; simpl.
  - exact H.
  - apply IH. now apply NoDup_dict_set.
Qed.

Lemma keys_dict_of_items (items : list (string * value)) (k : string) :
  In k (Py.keys (Py.dict_of_items items)) <-> In k (map fst items).
Proof.
  unfold Py.dict_of_items. fold step. rewrite keys_fold_set. simpl. tauto.
Qed.

Lemma in_dict_of_items (items : list (string * value)) (kv : string * value) :
  In kv (Py.dict_of_items items) -> In kv items.
Proof.
  unfold Py.dict_of_items. fold step. intros H.
  destruct (in_fold_set _ _ _ H) as [[]|H']; exact H'.
Qed.

Lemma NoDup_dict_of_items (items : list (string * value)) :
  NoDup (Py.keys (Py.dict_of_items items)).
Proof.
  unfold Py.dict_of_items. fold step. apply NoDup_fold_set. constructor.
Qed.

Lemma lookup_in (d : dict) (k : string) (v : value) :
  Py.lookup d k = Some v -> In (k, v) d.
Proof.
  induction d as [|[k0 v0] d IH]; simpl; [discriminate|].
  destruct (String.eqb_spec k k0) as [->|Hne].
  - intros [= ->]. now left.
  - auto.
Qed.

Lemma lookup_of_key (d : dict) (k : string) :
  In k (Py.keys d) -> exists v, Py.lookup d k = Some v.
Proof.
  induction d as [|[k0 v0] d IH]; simpl; [intros []|].
  destruct (String.eqb_spec k k0) as [->|Hne].
  - eauto.
  - intros [H|H]; [congruence | auto].
Qed.

Lemma in_lookup (d : dict) (k : string) (v : value) :
  NoDup (Py.keys d) -> In (k, v) d -> Py.lookup d k = Some v.
Proof.
  induction d as [|[k0 v0] d IH]; simpl; [intros _ []|].
  intros Hnd [H|H].
  - injection H as -> ->. now rewrite String.eqb_refl.
  - inversion Hnd as [|? ? Hnotin Hnd']; subst.
    destruct (String.eqb_spec k k0) as [->|Hne]; [|auto].
    exfalso. apply Hnotin. apply (in_map fst) in H. exact H.
Qed.

(** When every pair of [items] under [k] carries the same value, that is
    the value [dict(items)] binds to [k]. *)
Lemma lookup_dict_of_items (items : list (string * value)) (k : string)
  (v : value) :
  In (k, v) items ->
  (forall v', In (k, v') items -> v' = v) ->
  Py.lookup (Py.dict_of_items items) k = Some v.
Proof.
  intros Hin Huniq.
  destruct (lookup_of_key (Py.dict_of_items items) k) as [v' Hv'].
  - apply keys_dict_of_items. apply (in_map fst) in Hin. exact Hin.
  - rewrite Hv'. f_equal. apply Huniq.
    apply in_dict_of_items. now apply lookup_in.
Qed.

End DictFacts.

(** ** Equations of [flatten_dict] *)

Section FlattenFacts.
Context {R : PyRepr}.

Lemma flatten_entry_dict (p sep k : string) (d : dict) :
  flatten_entry p sep k (VDict d) = flatten_dict d (new_key_of p sep k) sep.
Proof. reflexivity. Qed.

Lemma flatten_entry_list (p sep k : string) (l : list value) :
  flatten_entry p sep k (VList l) =
  if first_is_dict l
  then flatten_enumerate (new_key_of p sep k) sep l 0
  else [(new_key_of p sep k, join_simple_list l)].
Proof.
  simpl. destruct (first_is_dict l); [|reflexivity].
  generalize 0. induction l as [|item l IH]; intros i; simpl.
  - reflexivity.
  - rewrite IH. destruct item; reflexivity.
Qed.

Lemma flatten_entry_scalar (p sep k : string) (v : value) :
  is_scalar v = true -> flatten_entry p sep k v = [(new_key_of p sep k, v)].
Proof. destruct v; simpl; intros H; try reflexivity; discriminate. Qed.

Lemma leaves_below_list (l : list value) :
  leaves_below (VList l) =
  if first_is_dict l then leaves_enumerate l 0
  else [([], join_simple_list l)].
Proof.
  simpl. destruct (first_is_dict l); [|reflexivity].
  generalize 0. induction l as [|item l IH]; intros i; simpl.
  - reflexivity.
  - now rewrite IH.
Qed.

Lemma in_leaves (d : dict) (path : list string) (val : value) :
  In (path, val) (leaves d) <->
  exists k v tail,
    In (k, v) d /\ In (tail, val) (leaves_below v) /\ path = k :: tail.
Proof.
  unfold leaves. simpl. rewrite in_flat_map. split.
  - intros [[k v] [Hin H]]. rewrite in_map_iff in H.
    destruct H as [[tail val'] [Heq Htail]]. simpl in Heq.
    injection Heq as <- <-. eauto 6.
  - intros (k & v & tail & Hin & Htail & ->).
    exists (k, v). split; [exact Hin|]. rewrite in_map_iff.
    exists (tail, val). auto.
Qed.

(** The keys and the pairs of [flatten_dict] are those of its entries. *)
Lemma keys_flatten_dict (d : dict) (p sep key : string) :
  In key (Py.keys (flatten_dict d p sep)) <->
  exists k v, In (k, v) d /\ In key (map fst (flatten_entry p sep k v)).
Proof.
  unfold flatten_dict. rewrite keys_dict_of_items, in_map_iff. split.
  - intros [[key' val] [Heq Hin]]. simpl in Heq. subst key'.
    rewrite in_flat_map in Hin. destruct Hin as [[k v] [Hd Hin]].
    exists k, v. split; [exact Hd|]. simpl in Hin.
    apply (in_map fst) in Hin. exact Hin.
  - intros (k & v & Hd & Hin). rewrite in_map_iff in Hin.
    destruct Hin as [[key' val] [Heq Hin]]. simpl in Heq. subst key'.
    exists (key, val). split; [reflexivity|]. rewrite in_flat_map.
    exists (k, v). auto.
Qed.

Lemma in_flatten_dict (d : dict) (p sep key : string) (val : value) :
  In (key, val) (flatten_dict d p sep) ->
  exists k v, In (k, v) d /\ In (key, val) (flatten_entry p sep k v).
Proof.
  unfold flatten_dict. intros H. apply in_dict_of_items in H.
  rewrite in_flat_map in H. destruct H as [[k v] [Hd Hin]]. eauto.
Qed.

Lemma NoDup_flatten_dict (d : dict) (p sep : string) :
  NoDup (Py.keys (flatten_dict d p sep)).
Proof. apply NoDup_dict_of_items. Qed.

(** ** Compound keys are joined paths *)

Lemma join_cons (sep x y : string) (l : list string) :
  Py.join sep (x :: y :: l) = x ++ sep ++ Py.join sep (y :: l).
Proof. reflexivity. Qed.

Lemma join_merge_head (sep a b : string) (tail : list string) :
  Py.join sep ((a ++ sep ++ b) :: tail) = Py.join sep (a :: b :: tail).
Proof.
  destruct tail as [|t tail].
  - reflexivity.
  - rewrite (join_cons sep a b), !(join_cons sep _ t), !append_assoc.
    reflexivity.
Qed.

Lemma entry_agrees_dict (d : dict) :
  Forall (fun kv => entry_agrees (snd kv)) d -> entry_agrees (VDict d).
Proof.
  intros IH p k Hnk. rewrite Forall_forall in IH.
  set (nk := new_key_of p "_" k) in *.
  rewrite flatten_entry_dict. fold nk. split.
  - intros key val Hin. apply in_flatten_dict in Hin.
    destruct Hin as (k' & v' & Hd & Hin).
    destruct (IH (k', v') Hd nk k') as [Hpairs _].
    { apply new_key_of_nonempty. right. split; [exact Hnk | discriminate]. }
    destruct (Hpairs key val Hin) as (tail & Htail & ->).
    exists (k' :: tail). split.
    + apply in_leaves. eauto 6.
    + rewrite new_key_of_nested by exact Hnk. apply join_merge_head.
  - intros tail val Hleaf. apply in_leaves in Hleaf.
    destruct Hleaf as (k' & v' & tail' & Hd & Htail & ->).
    change (In (Py.join "_" (nk :: k' :: tail'))
              (Py.keys (flatten_dict d nk "_"))).
    rewrite keys_flatten_dict. exists k', v'. split; [exact Hd|].
    destruct (IH (k', v') Hd nk k') as [_ Hkeys].
    { apply new_key_of_nonempty. right. split; [exact Hnk | discriminate]. }
    specialize (Hkeys tail' val Htail).
    rewrite new_key_of_nested in Hkeys by exact Hnk.
    rewrite join_merge_head in Hkeys. exact Hkeys.
Qed.

Lemma index_key_as_new_key (nk : string) (i : nat) :
  nk <> "" -> index_key nk i = new_key_of nk "_" (Py.str_nat i).
Proof. intros H. now rewrite new_key_of_nested. Qed.

Lemma enumerate_agrees (nk : string) (l : list value) :
  nk <> "" ->
  Forall entry_agrees l ->
  forall i,
    (forall key val,
        In (key, val) (flatten_enumerate nk "_" l i) ->
        exists tail,
          In (tail, val) (leaves_enumerate l i) /\
          key = Py.join "_" (nk :: tail))
    /\
    (forall tail val,
        In (tail, val) (leaves_enumerate l i) ->
        In (Py.join "_" (nk :: tail)) (map fst (flatten_enumerate nk "_" l i))).
Proof.
  intros Hnk IH. induction IH as [|item l Hitem _ IHl]; intros i; simpl.
  - split; intros ? ? [].
  - destruct (IHl (S i)) as [IHpairs IHkeys].
    pose proof (index_key_as_new_key nk i Hnk) as E.
    destruct (Hitem nk (Py.str_nat i)) as [Hpairs Hkeys].
    { rewrite <- E. unfold index_key. destruct nk; [congruence | discriminate]. }
    assert (J : forall tail,
               Py.join "_" (new_key_of nk "_" (Py.str_nat i) :: tail)
               = Py.join "_" (nk :: Py.str_nat i :: tail)).
    { intros tail. rewrite <- E. apply join_merge_head. }
    split.
    + intros key val Hin. apply in_app_or in Hin. destruct Hin as [Hin|Hin].
      * destruct item;
          try (destruct Hin as [Heq|[]]; injection Heq as <- <-;
               exists [Py.str_nat i]; split; [now left | reflexivity]).
        rewrite E in Hin.
        destruct (Hpairs key val Hin) as (tail & Htail & ->).
        exists (Py.str_nat i :: tail). split; [|apply J].
        apply in_or_app. left. apply in_map_iff. exists (tail, val). auto.
      * destruct (IHpairs key val Hin) as (tail & Htail & ->).
        exists tail. split; [apply in_or_app; now right | reflexivity].
    + intros tail val Hin. rewrite map_app. apply in_or_app.
      apply in_app_or in Hin. destruct Hin as [Hin|Hin]; [left | right; eauto].
      destruct item;
        try (destruct Hin as [Heq|[]]; injection Heq as <- <-; now left).
      simpl Py.isinstance_dict in Hin. cbv iota in Hin.
      rewrite in_map_iff in Hin. destruct Hin as [[tail' val'] [Heq Hin]].
      simpl in Heq. injection Heq as <- <-.
      rewrite E.
      change (In (Py.join "_" (nk :: Py.str_nat i :: tail'))
                (map fst (flatten_entry nk "_" (Py.str_nat i) (VDict entries)))).
      rewrite <- J. exact (Hkeys tail' val' Hin).
Qed.

Lemma flatten_entry_agrees (v : value) : entry_agrees v.
Proof.
  induction v using value_nested_ind;
    try (intros p k Hnk; split;
         [ intros key val [Heq|[]]; injection Heq as <- <-;
           exists []; split; [now left | reflexivity]
         | intros tail val [Heq|[]]; injection Heq as <- <-; now left ]).
  - intros p k Hnk. rewrite flatten_entry_list, leaves_below_list.
    destruct (first_is_dict l).
    + apply enumerate_agrees; assumption.
    + split.
      * intros key val [Heq|[]]. injection Heq as <- <-.
        exists []. split; [now left | reflexivity].
      * intros tail val [Heq|[]]. injection Heq as <- <-. now left.
  - now apply entry_agrees_dict.
Qed.

End FlattenFacts.

(** ** Flattening a record *)

Section FlattenClaims.
Context {R : PyRepr}.

Lemma flatten_dict_agrees (n : dict) (q : string) :
  q <> "" ->
  (forall key val,
      In (key, val) (flatten_dict n q "_") ->
      exists path,
        In (path, val) (leaves n) /\ key = compound_key (q :: path))
  /\
  (forall path val,
      In (path, val) (leaves n) ->
      In (compound_key (q :: path)) (Py.keys (flatten_dict n q "_"))).
Proof.
  intros Hq. exact (flatten_entry_agrees (VDict n) "" q Hq).
Qed.

Lemma entry_keys_in_output (d : dict) (p sep k key : string) (v : value) :
  In (k, v) d ->
  In key (map fst (flatten_entry p sep k v)) ->
  In key (Py.keys (flatten_dict d p sep)).
Proof. intros Hd Hin. apply keys_flatten_dict. eauto. Qed.

Lemma leaves_path_nonempty (n : dict) (path : list string) (val : value) :
  In (path, val) (leaves n) -> path <> [].
Proof.
  intros H. apply in_leaves in H.
  destruct H as (k & v & tail & _ & _ & ->). discriminate.
Qed.

Lemma compound_key_longer (q : string) (path : list string) :
  path <> [] ->
  exists rest, compound_key (q :: path) = q ++ "_" ++ rest.
Proof.
  destruct path as [|c path]; [congruence|]. intros _.
  exists (Py.join "_" (c :: path)). reflexivity.
Qed.

(** Every key that a nested record contributes extends its prefix. *)
Lemma nested_keys_extend (n : dict) (q key : string) :
  q <> "" ->
  In key (Py.keys (flatten_dict n q "_")) ->
  exists rest, key = q ++ "_" ++ rest.
Proof.
  intros Hq Hin. unfold Py.keys in Hin. rewrite in_map_iff in Hin.
  destruct Hin as [[key' val] [Heq Hin]]. simpl in Heq. subst key'.
  destruct (flatten_dict_agrees n q Hq) as [Hpairs _].
  destruct (Hpairs key val Hin) as (path & Hleaf & ->).
  apply compound_key_longer. eapply leaves_path_nonempty. exact Hleaf.
Qed.

(** Only an entry whose key is empty, is the compound key itself or,
    followed by an underscore, starts it can flatten to that key. *)
Lemma collides_shape (d : dict) (k key : string) :
  collides d k key ->
  exists k2 v2,
    In (k2, v2) d /\ k2 <> k /\
    (k2 = "" \/ key = k2 \/ String.prefix (k2 ++ "_") key = true).
Proof.
  intros (k2 & v2 & Hd & Hne & Hin). exists k2, v2.
  split; [exact Hd|]. split; [exact Hne|].
  destruct (string_dec k2 "") as [->|Hk2]; [now left | right].
  rewrite in_map_iff in Hin. destruct Hin as [[key' val] [Heq Hin]].
  simpl in Heq. subst key'.
  destruct (flatten_entry_agrees v2 "" k2 Hk2) as [Hpairs _].
  destruct (Hpairs key val Hin) as (tail & _ & ->).
  destruct tail as [|t tail]; [now left | right].
  change (String.prefix (k2 ++ "_")
            (k2 ++ "_" ++ Py.join "_" (t :: tail)) = true).
  rewrite <- append_assoc. apply prefix_append.
Qed.

Lemma entry_of_key (d : dict) (k : string) (v v' : value) :
  NoDup (Py.keys d) -> In (k, v) d -> In (k, v') d -> v' = v.
Proof.
  intros Hnd H H'. apply (in_lookup d k v Hnd) in H.
  apply (in_lookup d k v' Hnd) in H'. congruence.
Qed.

(** The value bound to a key that only the entry under [k] produces, and
    produces with one value. *)
Lemma lookup_own_key (d : dict) (k key : string) (v val : value) :
  NoDup (Py.keys d) ->
  In (k, v) d ->
  In (key, val) (flatten_entry "" "_" k v) ->
  (forall val', In (key, val') (flatten_entry "" "_" k v) -> val' = val) ->
  ~ collides d k key ->
  Py.lookup (flatten_dict d "" "_") key = Some val.
Proof.
  intros Hnd Hd Hin Hown Hfree. unfold flatten_dict.
  apply lookup_dict_of_items.
  - apply in_flat_map. exists (k, v). auto.
  - intros val' Hin'. apply in_flat_map in Hin'.
    destruct Hin' as [[k2 v2] [Hd2 Hin2]]. simpl in Hin2.
    destruct (string_dec k2 k) as [->|Hne].
    + rewrite (entry_of_key d k v v2 Hnd Hd Hd2) in Hin2. auto.
    + exfalso. apply Hfree. exists k2, v2. repeat split; try assumption.
      apply (in_map fst) in Hin2. exact Hin2.
Qed.

Lemma index_key_nonempty (nk : string) (i : nat) : index_key nk i <> "".
Proof. unfold index_key. destruct nk; discriminate. Qed.



Lemma compound_key_index (k : string) (i : nat) (path : list string) :
  compound_key (index_key k i :: path)
  = compound_key (k :: Py.str_nat i :: path).
Proof. apply join_merge_head. Qed.

(** The loop over [enumerate(v)], position by position. *)
Lemma enumerate_dict_item (nk sep : string) (l : list value) (j : nat)
  (n : dict) :
  nth_error l j = Some (VDict n) ->
  forall i0 key,
    In key (Py.keys (flatten_dict n (index_key nk (i0 + j)) sep)) ->
    In key (map fst (flatten_enumerate nk sep l i0)).
Proof.
  revert j. induction l as [|item l IH]; intros [|j] Hnth i0 key Hin;
    simpl in Hnth; try discriminate; simpl; rewrite map_app; apply in_or_app.
  - injection Hnth as ->. left. now rewrite Nat.add_0_r in Hin.
  - right. apply (IH j Hnth (S i0)).
    now replace (S i0 + j) with (i0 + S j) by lia.
Qed.



(** A key of the flattened record has one value. *)
Lemma flatten_pair_unique (n : dict) (q sep key : string) (v v' : value) :
  In (key, v) (flatten_dict n q sep) ->
  In (key, v') (flatten_dict n q sep) ->
  v' = v.
Proof.
  intros H H'.
  exact (entry_of_key _ key v v' (NoDup_flatten_dict n q sep) H H').
Qed.

(** The pair that a leaf gives, when no other leaf of the record has the
    same compound key with another value. *)
Lemma nested_leaf_pair (n : dict) (q : string) (path : list string)
  (val : value) :
  q <> "" ->
  In (path, val) (leaves n) ->
  (forall path' val',
      In (path', val') (leaves n) ->
      compound_key (q :: path') = compound_key (q :: path) ->
      val' = val) ->
  In (compound_key (q :: path), val) (flatten_dict n q "_").
Proof.
  intros Hq Hleaf Hown.
  destruct (flatten_dict_agrees n q Hq) as [Hpairs Hkeys].
  destruct (lookup_of_key _ _ (Hkeys path val Hleaf)) as [val' Hlookup].
  apply lookup_in in Hlookup.
  destruct (Hpairs _ _ Hlookup) as (path' & Hleaf' & Heq).
  now rewrite <- (Hown path' val' Hleaf' (eq_sym Heq)).
Qed.

(** Two strings without underscore that are followed by an underscore in
    the same string are the same. *)
Lemma first_underscore (a b r1 r2 : string) :
  (forall x y, a <> x ++ "_" ++ y) ->
  (forall x y, b <> x ++ "_" ++ y) ->
  a ++ "_" ++ r1 = b ++ "_" ++ r2 ->
  a = b.
Proof.
  revert b. induction a as [|c a IH]; intros [|c' b] Ha Hb H.
  - reflexivity.
  - exfalso. cbn in H. injection H as <- _. exact (Hb "" b eq_refl).
  - exfalso. cbn in H. injection H as -> _. exact (Ha "" a eq_refl).
  - cbn in H. injection H as <- H. f_equal. apply IH; try assumption.
    + intros x y ->. exact (Ha (String c x) y eq_refl).
    + intros x y ->. exact (Hb (String c x) y eq_refl).
Qed.

(** The families of two positions of a list do not meet. *)
Lemma index_family_inj (nk r1 r2 : string) (i j : nat) :
  index_key nk i ++ "_" ++ r1 = index_key nk j ++ "_" ++ r2 -> i = j.
Proof.
  unfold index_key. rewrite !append_assoc. intros H.
  apply append_inv_head in H. apply (append_inv_head "_") in H.
  apply str_nat_inj.
  apply (first_underscore _ _ r1 r2); try assumption;
    intros x y; apply str_nat_no_underscore.
Qed.

Lemma enumerate_dict_pair (nk sep : string) (l : list value) (j : nat)
  (n : dict) :
  nth_error l j = Some (VDict n) ->
  forall i0 key val,
    In (key, val) (flatten_dict n (index_key nk (i0 + j)) sep) ->
    In (key, val) (flatten_enumerate nk sep l i0).
Proof.
  revert j. induction l as [|item l IH]; intros [|j] Hnth i0 key val Hin;
    simpl in Hnth; try discriminate; simpl; apply in_or_app.
  - injection Hnth as ->. left. now rewrite Nat.add_0_r in Hin.
  - right. apply (IH j Hnth (S i0)).
    now replace (S i0 + j) with (i0 + S j) by lia.
Qed.

(** Where a pair of the enumeration comes from. *)
Lemma enumerate_pair_origin (nk sep : string) (l : list value) :
  forall i0 key val,
    In (key, val) (flatten_enumerate nk sep l i0) ->
    exists j item,
      nth_error l j = Some item
      /\ match item with
         | VDict m => In (key, val) (flatten_dict m (index_key nk (i0 + j)) sep)
         | _ => (key, val) = (index_key nk (i0 + j), item)
         end.
Proof.
  induction l as [|x l IH]; intros i0 key val Hin; simpl in Hin;
    [destruct Hin|].
  apply in_app_or in Hin. destruct Hin as [Hin|Hin].
  - exists 0, x. split; [reflexivity|]. rewrite Nat.add_0_r.
    destruct x; try (destruct Hin as [Heq|[]]; now symmetry).
    exact Hin.
  - destruct (IH (S i0) key val Hin) as (j & item & Hnth & Hitem).
    exists (S j), item. split; [exact Hnth|].
    now replace (i0 + S j) with (S i0 + j) by lia.
Qed.

(** In a list of dictionaries, the pair that the element at position [i]
    yields for a key is the only pair of the enumeration with that key. *)
Lemma enumerate_pair_unique (nk : string) (l : list value) (i : nat)
  (n : dict) (key : string) (val val' : value) :
  forallb Py.isinstance_dict l = true ->
  nth_error l i = Some (VDict n) ->
  In (key, val) (flatten_dict n (index_key nk i) "_") ->
  In (key, val') (flatten_enumerate nk "_" l 0) ->
  val' = val.
Proof.
  intros Hall Hnth Hin Hin'.
  destruct (enumerate_pair_origin nk "_" l 0 key val' Hin')
    as (j & item & Hnth' & Hitem).
  assert (Hdict : Py.isinstance_dict item = true).
  { rewrite forallb_forall in Hall. apply Hall.
    eapply nth_error_In. exact Hnth'. }
  destruct item as [| | | | | |m]; try discriminate. cbn [Nat.add] in Hitem.
  assert (Hij : i = j).
  { destruct (nested_keys_extend n _ key (index_key_nonempty nk i)
                (in_map fst _ _ Hin)) as [r1 H1].
    destruct (nested_keys_extend m _ key (index_key_nonempty nk j)
                (in_map fst _ _ Hitem)) as [r2 H2].
    apply (index_family_inj nk r1 r2). congruence. }
  subst j. rewrite Hnth in Hnth'. injection Hnth' as <-.
  exact (flatten_pair_unique _ _ _ _ _ _ Hin Hitem).
Qed.

(** C3 (as amended).  In a record where the non-empty key [k] is bound
    to a nested record [n]: every leaf of [n] gives the output key made
    of [k] and of the leaf's path, joined by underscores; every key that
    [n] contributes is of that form and differs from [k]; [k] is an
    output key exactly when some other entry of the record flattens to
    it; the output binds the key of a leaf to the value of that leaf,
    unless another leaf of [n] or another entry of the record flattens to
    the same key; and whatever the output binds a key to is the value of
    a leaf of [n] with that key, unless another entry of the record
    flattens to the key. *)
Theorem flatten_nested_record (d : dict) (k : string) (n : dict) :
  NoDup (Py.keys d) ->
  In (k, VDict n) d ->
  k <> "" ->
  (forall path val,
      In (path, val) (leaves n) ->
      In (compound_key (k :: path)) (Py.keys (flatten_dict d "" "_")))
  /\
  (forall key,
      In key (Py.keys (flatten_dict n k "_")) ->
      key <> k /\
      exists path val,
        In (path, val) (leaves n) /\ key = compound_key (k :: path))
  /\
  (In k (Py.keys (flatten_dict d "" "_")) <-> collides d k k)
  /\
  (forall path val,
      In (path, val) (leaves n) ->
      (forall path' val',
          In (path', val') (leaves n) ->
          compound_key (k :: path') = compound_key (k :: path) ->
          val' = val) ->
      ~ collides d k (compound_key (k :: path)) ->
      Py.lookup (flatten_dict d "" "_") (compound_key (k :: path)) = Some val)
  /\
  (forall key val,
      Py.lookup (flatten_dict d "" "_") key = Some val ->
      (exists path,
          In (path, val) (leaves n) /\ key = compound_key (k :: path))
      \/ collides d k key).
Proof.
  intros Hnd Hd Hk.
  destruct (flatten_dict_agrees n k Hk) as [Hpairs Hkeys].
  assert (Hother : forall key,
             In key (Py.keys (flatten_dict n k "_")) -> key <> k).
  { intros key Hin. destruct (nested_keys_extend n k key Hk Hin) as [rest ->].
    apply append_longer. discriminate. }
  assert (Hentry : flatten_entry "" "_" k (VDict n) = flatten_dict n k "_").
  { now rewrite flatten_entry_dict. }
  split; [|split; [|split; [|split]]].
  - intros path val Hleaf.
    apply (entry_keys_in_output d "" "_" k _ (VDict n) Hd).
    exact (Hkeys path val Hleaf).
  - intros key Hin. split; [now apply Hother|].
    unfold Py.keys in Hin. rewrite in_map_iff in Hin.
    destruct Hin as [[key' val] [Heq Hin]]. simpl in Heq. subst key'.
    destruct (Hpairs key val Hin) as (path & Hleaf & ->). eauto.
  - split.
    + intros Hin. apply keys_flatten_dict in Hin.
      destruct Hin as (k2 & v2 & Hd2 & Hin2).
      destruct (string_dec k2 k) as [->|Hne].
      * exfalso. rewrite (entry_of_key d k _ v2 Hnd Hd Hd2) in Hin2.
        exact (Hother k Hin2 eq_refl).
      * exists k2, v2. auto.
    + intros (k2 & v2 & Hd2 & _ & Hin2).
      eapply entry_keys_in_output; eassumption.
  - intros path val Hleaf Hown Hfree.
    pose proof (nested_leaf_pair n k path val Hk Hleaf Hown) as Hpair.
    apply (lookup_own_key d k _ (VDict n) val Hnd Hd);
      [now rewrite Hentry | | exact Hfree].
    rewrite Hentry. intros val' Hin'.
    exact (flatten_pair_unique _ _ _ _ _ _ Hpair Hin').
  - intros key val Hlookup. apply lookup_in in Hlookup.
    apply in_flatten_dict in Hlookup.
    destruct Hlookup as (k2 & v2 & Hd2 & Hin2).
    destruct (string_dec k2 k) as [->|Hne].
    + left. rewrite (entry_of_key d k _ v2 Hnd Hd Hd2), Hentry in Hin2.
      exact (Hpairs key val Hin2).
    + right. exists k2, v2. repeat split; try assumption.
      exact (in_map fst _ _ Hin2).
Qed.

(** C4 (as amended).  In a record where [k] is bound to a list of
    scalars, and to whose key [k] no other entry flattens, the output
    binds [k] to the elements' string forms joined by [|]; for the empty
    list that is the empty string. *)
Theorem flatten_scalar_list (d : dict) (k : string) (l : list value) :
  NoDup (Py.keys d) ->
  In (k, VList l) d ->
  forallb is_scalar l = true ->
  ~ collides d k k ->
  Py.lookup (flatten_dict d "" "_") k
  = Some (VStr (Py.join "|" (map Py.str l)))
  /\ (l = [] -> Py.lookup (flatten_dict d "" "_") k = Some (VStr "")).
Proof.
  intros Hnd Hd Hscalar Hfree.
  assert (Hentry : flatten_entry "" "_" k (VList l)
                   = [(k, VStr (Py.join "|" (map Py.str l)))]).
  { rewrite flatten_entry_list.
    destruct l as [|x l]; [reflexivity|].
    simpl in Hscalar. apply andb_true_iff in Hscalar.
    destruct Hscalar as [Hx _]. destruct x; try discriminate; reflexivity. }
  assert (Hlookup : Py.lookup (flatten_dict d "" "_") k
                    = Some (VStr (Py.join "|" (map Py.str l)))).
  { apply (lookup_own_key d k k (VList l)); try assumption.
    - rewrite Hentry. now left.
    - rewrite Hentry. intros val' [Heq|[]]. now injection Heq as <-. }
  split; [exact Hlookup|]. intros ->. exact Hlookup.
Qed.

(** C5.  In a record where [k] is bound to a list of records, all that
    flattening the element at position [i] under the prefix [k_i] yields
    is in the output, and each leaf of that element gives the output key
    made of [k], of [i] and of the leaf's path, joined by underscores.
    The pairs are merged as the pairs of any entry are: the output binds
    such a key to what the element yields for it, which is the value of
    the leaf when no other leaf of the element has the same key, unless
    another entry of the record flattens to the key; and whatever the
    output binds a key to is the value of a leaf of one of the elements,
    under the key made of [k], of the position and of the leaf's path,
    unless another entry of the record flattens to the key. *)
Theorem flatten_record_list (d : dict) (k : string) (l : list value)
  (i : nat) (n : dict) :
  NoDup (Py.keys d) ->
  In (k, VList l) d ->
  forallb Py.isinstance_dict l = true ->
  nth_error l i = Some (VDict n) ->
  (forall key,
      In key (Py.keys (flatten_dict n (index_key k i) "_")) ->
      In key (Py.keys (flatten_dict d "" "_")))
  /\
  (forall path val,
      In (path, val) (leaves n) ->
      In (compound_key (k :: Py.str_nat i :: path))
        (Py.keys (flatten_dict d "" "_")))
  /\
  (forall key val,
      Py.lookup (flatten_dict n (index_key k i) "_") key = Some val ->
      ~ collides d k key ->
      Py.lookup (flatten_dict d "" "_") key = Some val)
  /\
  (forall path val,
      In (path, val) (leaves n) ->
      (forall path' val',
          In (path', val') (leaves n) ->
          compound_key (k :: Py.str_nat i :: path')
          = compound_key (k :: Py.str_nat i :: path) ->
          val' = val) ->
      ~ collides d k (compound_key (k :: Py.str_nat i :: path)) ->
      Py.lookup (flatten_dict d "" "_")
        (compound_key (k :: Py.str_nat i :: path)) = Some val)
  /\
  (forall key val,
      Py.lookup (flatten_dict d "" "_") key = Some val ->
      (exists j m path,
          nth_error l j = Some (VDict m)
          /\ In (path, val) (leaves m)
          /\ key = compound_key (k :: Py.str_nat j :: path))
      \/ collides d k key).
Proof.
  intros Hnd Hd Hall Hnth.
  assert (Hfirst : first_is_dict l = true).
  { destruct l as [|x l]; [destruct i; discriminate|].
    simpl in Hall. apply andb_true_iff in Hall. destruct Hall as [Hx _].
    destruct x; try discriminate; reflexivity. }
  assert (Hentry : flatten_entry "" "_" k (VList l)
                   = flatten_enumerate k "_" l 0).
  { now rewrite flatten_entry_list, Hfirst. }
  assert (Hfamily : forall key,
             In key (Py.keys (flatten_dict n (index_key k i) "_")) ->
             In key (Py.keys (flatten_dict d "" "_"))).
  { intros key Hin. apply (entry_keys_in_output d "" "_" k key (VList l) Hd).
    rewrite Hentry. now apply (enumerate_dict_item k "_" l i n Hnth 0). }
  assert (Hmerged : forall key val,
             In (key, val) (flatten_dict n (index_key k i) "_") ->
             ~ collides d k key ->
             Py.lookup (flatten_dict d "" "_") key = Some val).
  { intros key val Hin Hfree.
    apply (lookup_own_key d k key (VList l) val Hnd Hd); [| | exact Hfree].
    - rewrite Hentry. now apply (enumerate_dict_pair k "_" l i n Hnth 0).
    - rewrite Hentry. intros val' Hin'.
      exact (enumerate_pair_unique k l i n key val val' Hall Hnth Hin Hin'). }
  split; [exact Hfamily|]. split; [|split; [|split]].
  - intros path val Hleaf. apply Hfamily.
    rewrite <- compound_key_index.
    destruct (flatten_dict_agrees n (index_key k i) (index_key_nonempty k i))
      as [_ Hkeys].
    exact (Hkeys path val Hleaf).
  - intros key val Hlookup. apply Hmerged. now apply lookup_in.
  - intros path val Hleaf Hown Hfree.
    rewrite <- compound_key_index in Hfree |- *. apply Hmerged; [|exact Hfree].
    apply nested_leaf_pair;
      [apply index_key_nonempty | exact Hleaf |].
    intros path' val' Hleaf' Heq. apply (Hown path' val' Hleaf').
    now rewrite <- !compound_key_index.
  - intros key val Hlookup. apply lookup_in in Hlookup.
    apply in_flatten_dict in Hlookup.
    destruct Hlookup as (k2 & v2 & Hd2 & Hin2).
    destruct (string_dec k2 k) as [->|Hne].
    + left. rewrite (entry_of_key d k _ v2 Hnd Hd Hd2), Hentry in Hin2.
      destruct (enumerate_pair_origin k "_" l 0 key val Hin2)
        as (j & item & Hnth' & Hitem).
      assert (Hdict : Py.isinstance_dict item = true).
      { rewrite forallb_forall in Hall. apply Hall.
        eapply nth_error_In. exact Hnth'. }
      destruct item as [| | | | | |m]; try discriminate.
      cbn [Nat.add] in Hitem.
      destruct (flatten_dict_agrees m (index_key k j)
                  (index_key_nonempty k j)) as [Hpairs _].
      destruct (Hpairs key val Hitem) as (path & Hleaf & ->).
      exists j, m, path. rewrite compound_key_index. auto.
    + right. exists k2, v2. repeat split; try assumption.
      exact (in_map fst _ _ Hin2).
Qed.


End FlattenClaims.

(** ** Sets of names and their sorting *)

Section OrderFacts.

Lemma ascii_compare_refl (a : ascii) : Ascii.compare a a = Eq.
Proof.
  pose proof (Ascii.compare_antisym a a) as H.
  destruct (Ascii.compare a a); simpl in H; congruence.
Qed.

Lemma ascii_compare_lt_trans (a b c : ascii) :
  Ascii.compare a b = Lt -> Ascii.compare b c = Lt -> Ascii.compare a c = Lt.
Proof.
  unfold Ascii.compare. rewrite !N.compare_lt_iff. apply N.lt_trans.
Qed.

Lemma string_compare_lt_trans (a b c : string) :
  String.compare a b = Lt -> String.compare b c = Lt ->
  String.compare a c = Lt.
Proof.
  revert b c. induction a as [|x a IH]; intros [|y b] [|z c]; simpl;
    try discriminate; try reflexivity.
  destruct (Ascii.compare x y) eqn:Exy; try discriminate;
    destruct (Ascii.compare y z) eqn:Eyz; try discriminate; intros Hab Hbc.
  - apply Ascii.compare_eq_iff in Exy, Eyz. subst.
    rewrite ascii_compare_refl. eauto.
  - apply Ascii.compare_eq_iff in Exy. subst. now rewrite Eyz.
  - apply Ascii.compare_eq_iff in Eyz. subst. now rewrite Exy.
  - now rewrite (ascii_compare_lt_trans x y z).
Qed.

Lemma str_lt_trans (a b c : string) : str_lt a b -> str_lt b c -> str_lt a c.
Proof.
  unfold str_lt, String.ltb. intros Hab Hbc.
  destruct (String.compare a b) eqn:Eab; try discriminate.
  destruct (String.compare b c) eqn:Ebc; try discriminate.
  now rewrite (string_compare_lt_trans a b c).
Qed.

Lemma str_lt_irrefl (a : string) : ~ str_lt a a.
Proof.
  unfold str_lt, String.ltb. intros H.
  pose proof (String.compare_antisym a a) as E.
  destruct (String.compare a a); simpl in E; congruence.
Qed.

Lemma leb_true_lt (a b : string) : String.leb a b = true -> a <> b -> str_lt a b.
Proof.
  unfold str_lt, String.leb, String.ltb. intros H Hne.
  destruct (String.compare a b) eqn:E; try discriminate; [|reflexivity].
  apply String.compare_eq_iff in E. contradiction.
Qed.

Lemma leb_false_lt (a b : string) : String.leb a b = false -> str_lt b a.
Proof.
  unfold str_lt, String.leb, String.ltb. intros H.
  rewrite String.compare_antisym.
  destruct (String.compare a b); simpl; congruence.
Qed.

Lemma in_insert_sorted (k x : string) (l : list string) :
  In x (PyDyn.insert_sorted k l) <-> x = k \/ In x l.
Proof.
  induction l as [|y l IH]; simpl.
  - intuition congruence.
  - destruct (String.leb k y); simpl; [|rewrite IH]; intuition congruence.
Qed.

Lemma insert_sorted_sorted (k : string) (l : list string) :
  StronglySorted str_lt l -> ~ In k l ->
  StronglySorted str_lt (PyDyn.insert_sorted k l).
Proof.
  induction l as [|y l IH]; simpl; intros Hs Hk.
  - repeat constructor.
  - inversion Hs as [|? ? Hs' Hall]; subst.
    destruct (String.leb k y) eqn:E.
    + assert (Hky : str_lt k y) by (apply leb_true_lt; intuition).
      constructor; [exact Hs|]. constructor; [exact Hky|].
      eapply Forall_impl; [|exact Hall].
      intros z Hz. eapply str_lt_trans; eassumption.
    + constructor; [apply IH; intuition|].
      rewrite Forall_forall in *. intros z Hz.
      apply in_insert_sorted in Hz. destruct Hz as [->|Hz]; [|auto].
      now apply leb_false_lt.
Qed.

Lemma in_sorted (x : string) (l : list string) :
  In x (PyDyn.sorted l) <-> In x l.
Proof.
  unfold PyDyn.sorted. induction l as [|y l IH]; simpl; [tauto|].
  rewrite in_insert_sorted, IH. intuition congruence.
Qed.

Lemma sorted_sorted (l : list string) :
  NoDup l -> StronglySorted str_lt (PyDyn.sorted l).
Proof.
  unfold PyDyn.sorted. induction 1 as [|y l Hy _ IH]; simpl.
  - constructor.
  - apply insert_sorted_sorted; [exact IH|].
    fold (PyDyn.sorted l). now rewrite in_sorted.
Qed.

Lemma sorted_NoDup (l : list string) : StronglySorted str_lt l -> NoDup l.
Proof.
  induction 1 as [|y l _ IH Hall]; constructor; [|exact IH].
  rewrite Forall_forall in Hall. intros Hin.
  exact (str_lt_irrefl y (Hall y Hin)).
Qed.

Lemma in_set_add (s : list string) (k x : string) :
  In x (PyDyn.set_add s k) <-> x = k \/ In x s.
Proof.
  unfold PyDyn.set_add. destruct (existsb (String.eqb k) s) eqn:E; simpl.
  - apply existsb_exists in E. destruct E as (y & Hy & Heq).
    apply String.eqb_eq in Heq. subst y. intuition congruence.
  - intuition congruence.
Qed.

Lemma NoDup_set_add (s : list string) (k : string) :
  NoDup s -> NoDup (PyDyn.set_add s k).
Proof.
  unfold PyDyn.set_add. intros H.
  destruct (existsb (String.eqb k) s) eqn:E; [exact H|].
  constructor; [|exact H]. intros Hin.
  assert (existsb (String.eqb k) s = true); [|congruence].
  apply existsb_exists. exists k. split; [exact Hin | apply String.eqb_refl].
Qed.

Lemma in_set_update (ks s : list string) (x : string) :
  In x (PyDyn.set_update s ks) <-> In x s \/ In x ks.
Proof.
  unfold PyDyn.set_update. revert s.
  induction ks as [|k ks IH]; intros s; simpl; [tauto|].
  rewrite IH, in_set_add. intuition congruence.
Qed.

Lemma NoDup_set_update (ks s : list string) :
  NoDup s -> NoDup (PyDyn.set_update s ks).
Proof.
  unfold PyDyn.set_update. revert s.
  induction ks as [|k ks IH]; intros s H; simpl; [exact H|].
  apply IH. now apply NoDup_set_add.
Qed.

End OrderFacts.

(** ** Field discovery *)

Section DiscoveryClaims.
Context {R : PyRepr}.

Lemma collect_product_fields_records (samples : list dict)
  (all_fields : list string) :
  NoDup all_fields ->
  exists fields,
    collect_product_fields (map VDict samples) all_fields = Ok fields
    /\ NoDup fields
    /\ (forall k,
           In k fields <->
           In k all_fields \/
           exists d, In d samples /\ In k (Py.keys (flatten_dict d "" "_"))).
Proof.
  revert all_fields.
  induction samples as [|d samples IH]; intros all_fields Hnd; simpl.
  - exists all_fields. split; [reflexivity|]. split; [exact Hnd|].
    intros k. split; [auto | intros [H|(d & [] & _)]; exact H].
  - destruct (IH (PyDyn.set_update all_fields (Py.keys (flatten_dict d "" "_"))))
      as (fields & Hrun & Hnd' & Hin).
    { now apply NoDup_set_update. }
    exists fields. split; [exact Hrun|]. split; [exact Hnd'|].
    intros k. rewrite Hin, in_set_update. split.
    + intros [[H|H]|(d' & Hd' & H)]; eauto.
    + intros [H|(d' & [<-|Hd'] & H)]; eauto.
Qed.

(** C6.  On any sequence of sample records, field discovery returns a
    list that holds exactly the keys of the flattened samples, each one
    once, in strictly ascending order; on the samples [{a: 1}] and
    [{b: 2}] that list is [a, b]. *)
Theorem field_discovery :
  (forall samples : list dict,
      exists columns,
        get_all_product_fields (map VDict samples) = Ok columns
        /\ (forall k,
               In k columns <->
               exists d,
                 In d samples /\ In k (Py.keys (flatten_dict d "" "_")))
        /\ NoDup columns
        /\ StronglySorted (fun a b => String.ltb a b = true) columns)
  /\ get_all_product_fields [VDict [("a", VInt 1)]; VDict [("b", VInt 2)]]
     = Ok ["a"; "b"].
Proof.
  split; [|reflexivity].
  intros samples. unfold get_all_product_fields.
  destruct (collect_product_fields_records samples [])
    as (fields & Hrun & Hnd & Hin); [constructor|].
  rewrite Hrun. simpl. exists (PyDyn.sorted fields).
  split; [reflexivity|].
  pose proof (sorted_sorted fields Hnd) as Hsorted.
  split; [|split].
  - intros k. rewrite in_sorted, Hin. split.
    + intros [[]|H]; exact H.
    + auto.
  - now apply sorted_NoDup.
  - exact Hsorted.
Qed.

End DiscoveryClaims.

(** ** Row building *)

(** One step of symbolic execution of a script. *)
Ltac run_script :=
  unfold bind, lift, ret, raise, flatten_dict_call, PyDyn.iter;
  cbv beta iota.

Section RowClaims.
Context {R : PyRepr}.

Lemma product_row_length (pf : list string) (url : string) (t dsc : value)
  (fp : dict) :
  List.length (product_row pf url t dsc fp) = 3 + List.length pf.
Proof. unfold product_row. simpl. now rewrite length_map. Qed.

Lemma header_length (wv : bool) (pf vf : list string) :
  List.length (header wv pf vf)
  = 3 + List.length pf + (if wv then List.length vf else 0).
Proof.
  unfold header. simpl. rewrite length_app.
  destruct wv; simpl; [rewrite length_map|]; lia.
Qed.

Lemma contains_key (d : dict) (k : string) (v : value) :
  Py.lookup d k = Some v -> PyDyn.contains k (VDict d) = Ok true.
Proof.
  intros H. apply lookup_in in H. simpl. f_equal.
  apply existsb_exists. exists k. split; [|apply String.eqb_refl].
  apply (in_map fst) in H. exact H.
Qed.

Lemma contains_no_key (d : dict) (k : string) :
  Py.lookup d k = None -> PyDyn.contains k (VDict d) = Ok false.
Proof.
  intros H. unfold PyDyn.contains. f_equal.
  apply not_true_is_false. intros E. apply existsb_exists in E.
  destruct E as (k' & Hin & Hk). apply String.eqb_eq in Hk. subst k'.
  destruct (lookup_of_key d k Hin) as [v Hv]. congruence.
Qed.

(** The loop over the variants, when all of them are records. *)
Lemma write_variants (pf vf : list string) (url : string) (t dsc : value)
  (fp : dict) (vs : list dict) (st : state) :
  exists st',
    for_each (map VDict vs) (write_variant pf vf url t dsc fp) st
    = (Ok tt, st')
    /\ csv_rows st'
       = (csv_rows st
            ++ map (fun v =>
                      product_row pf url t dsc fp
                        ++ map (fun field =>
                                  Py.get (flatten_dict v "" "_") field (VStr ""))
                             vf) vs)%list
    /\ total_variants st' = total_variants st + List.length vs
    /\ total_products st' = total_products st
    /\ stdout st' = stdout st
    /\ requests st' = requests st
    /\ csv_created st' = csv_created st.
Proof.
  revert st. induction vs as [|v vs IH]; intros st; simpl.
  - exists st. rewrite List.app_nil_r, Nat.add_0_r. repeat split; reflexivity.
  - unfold bind at 1. unfold write_variant at 1. simpl.
    match goal with |- context [for_each _ _ ?s] =>
      destruct (IH s) as (st' & Hrun & Hrows & Hv & Hp & Hout & Hreq & Hcsv)
    end.
    exists st'. rewrite Hrun, Hrows, Hv, Hp, Hout, Hreq, Hcsv. simpl.
    rewrite <- List.app_assoc. simpl.
    repeat split; try reflexivity; lia.
Qed.

(** C2.  In variant mode, a complete product record whose [variants]
    entry is a list of [N] records has [N] rows written for it, one per
    variant in order: the product's leading and product columns, the same
    in every row, followed by the variant's columns.  With no variant, no
    row is written.  The product is counted once and the variants [N]
    times. *)
Theorem variant_rows (pf vf : list string) (url : string)
  (title description : value) (d : dict) (vs : list dict) (st : state) :
  Py.lookup d "variants" = Some (VList (map VDict vs)) ->
  exists st' rows,
    write_product true pf vf url title description (VDict d) st
    = (Ok tt, st')
    /\ csv_rows st' = (csv_rows st ++ rows)%list
    /\ List.length rows = List.length vs
    /\ rows
       = map (fun v =>
                product_row pf url title description (flatten_dict d "" "_")
                  ++ map (fun field =>
                            Py.get (flatten_dict v "" "_") field (VStr ""))
                       vf)%list vs
    /\ Forall (fun row =>
                 firstn (3 + List.length pf) row
                 = product_row pf url title description
                     (flatten_dict d "" "_")) rows
    /\ (vs = [] -> csv_rows st' = csv_rows st)
    /\ total_variants st' = total_variants st + List.length vs
    /\ total_products st' = total_products st + 1.
Proof.
  intros Hvariants.
  destruct (write_variants pf vf url title description
              (flatten_dict d "" "_") vs st)
    as (st1 & Hrun & Hrows & Hv & Hp & _).
  unfold write_product. run_script.
  rewrite (contains_key d "variants" _ Hvariants). run_script.
  unfold PyDyn.getitem. rewrite Hvariants. run_script.
  rewrite Hrun. run_script. unfold count_product.
  eexists. eexists. split; [reflexivity|].
  cbn [csv_rows total_variants total_products].
  split; [exact Hrows|]. split; [apply length_map|].
  split; [reflexivity|]. split; [|split; [|split]].
  - apply Forall_forall. intros row Hin. apply in_map_iff in Hin.
    destruct Hin as (v & <- & _).
    rewrite <- (product_row_length pf url title description
                  (flatten_dict d "" "_")).
    rewrite firstn_app, Nat.sub_diag, firstn_all. apply List.app_nil_r.
  - intros ->. rewrite Hrows. apply List.app_nil_r.
  - exact Hv.
  - now rewrite Hp.
Qed.

(** Rows written by the loop over the variants, however it ends. *)
Lemma write_variants_width (pf vf : list string) (url : string)
  (t dsc : value) (fp : dict) (each : list value) :
  forall st r st',
    for_each each (write_variant pf vf url t dsc fp) st = (r, st') ->
    exists rows,
      csv_rows st' = (csv_rows st ++ rows)%list
      /\ Forall (fun row =>
                   List.length row = 3 + List.length pf + List.length vf)
           rows.
Proof.
  induction each as [|variant each IH]; intros st r st'; simpl.
  - run_script. intros [= _ <-]. exists []. now rewrite List.app_nil_r.
  - unfold write_variant at 1. run_script.
    destruct variant;
      try (intros [= _ <-]; exists []; now rewrite List.app_nil_r).
    unfold writerow, count_variant. cbv beta iota. intros Hrun.
    apply IH in Hrun. destruct Hrun as (rows & Hrows & Hall).
    cbn [csv_rows] in Hrows. rewrite <- List.app_assoc in Hrows.
    eexists. split; [exact Hrows|]. constructor; [|exact Hall].
    rewrite length_app, product_row_length, length_map. reflexivity.
Qed.

(** Outside variant mode, and in variant mode for a product that has a
    [variants] entry, every row written is as wide as the header. *)
Lemma write_product_width (wv : bool) (pf vf : list string) (url : string)
  (t dsc complete_product : value) (st : state) (r : result unit)
  (st' : state) :
  write_product wv pf vf url t dsc complete_product st = (r, st') ->
  wv = false \/ PyDyn.contains "variants" complete_product = Ok true ->
  exists rows,
    csv_rows st' = (csv_rows st ++ rows)%list
    /\ Forall (fun row => List.length row = List.length (header wv pf vf))
         rows.
Proof.
  unfold write_product. run_script.
  destruct complete_product as [| | | | | |d];
    try (intros [= _ <-] _; exists []; now rewrite List.app_nil_r).
  intros Hrun Hmode. rewrite header_length.
  destruct wv.
  - destruct Hmode as [Hmode|Hmode]; [discriminate|].
    rewrite Hmode in Hrun. revert Hrun. run_script.
    destruct (PyDyn.getitem (VDict d) "variants") as [product_variants|e];
      [|intros [= _ <-]; exists []; now rewrite List.app_nil_r].
    destruct product_variants as [| | | |s|l|d'];
      try (intros [= _ <-]; exists []; now rewrite List.app_nil_r);
      match goal with
      | |- context [for_each ?each ?body st] =>
          destruct (for_each each body st) as [[[]|e] st1] eqn:Hloop;
          apply write_variants_width in Hloop;
          unfold count_product; intros [= _ <-]; exact Hloop
      end.
  - revert Hrun. unfold writerow, count_product. run_script.
    intros [= _ <-]. cbn [csv_rows]. eexists. split; [reflexivity|].
    constructor; [|constructor]. rewrite product_row_length. lia.
Qed.

(** In variant mode, a product without a [variants] entry gets one row,
    which stops after the product columns. *)
Lemma write_product_without_variants (pf vf : list string) (url : string)
  (t dsc : value) (d : dict) (st : state) :
  Py.lookup d "variants" = None ->
  exists st',
    write_product true pf vf url t dsc (VDict d) st = (Ok tt, st')
    /\ csv_rows st'
       = (csv_rows st ++ [product_row pf url t dsc (flatten_dict d "" "_")])%list
    /\ List.length (product_row pf url t dsc (flatten_dict d "" "_"))
         + List.length vf
       = List.length (header true pf vf).
Proof.
  intros Hnone.
  unfold write_product. run_script.
  rewrite (contains_no_key d "variants" Hnone).
  unfold writerow, count_product. run_script.
  eexists. split; [reflexivity|]. cbn [csv_rows].
  split; [reflexivity|]. rewrite header_length, product_row_length. lia.
Qed.

End RowClaims.

(** ** The main loop *)

Section LoopClaims.
Context {R : PyRepr}.
Variable shop : store.
Variable base_url : string.
Variable with_variants : bool.
Variables product_fields variant_fields : list string.

(** C9.  When the detail fetch of an item fails, [get_complete_product_data]
    returns [None]; the loop body then ends without an exception, having
    written no row and counted neither a product nor a variant, and the
    loop goes on with the items that follow. *)
Theorem unresolved_product_skipped (product : value) (url e : string)
  (rest : list value) (st : state) :
  product_url_of base_url product = Ok url ->
  product_json shop url = Failed e ->
  (forall s, fst (get_complete_product_data shop url s) = Ok VNone)
  /\ exists st',
      scrape_product shop base_url with_variants product_fields
        variant_fields product st = (Ok tt, st')
      /\ csv_rows st' = csv_rows st
      /\ csv_created st' = csv_created st
      /\ total_products st' = total_products st
      /\ total_variants st' = total_variants st
      /\ for_each (product :: rest)
           (scrape_product shop base_url with_variants product_fields
              variant_fields) st
         = for_each rest
             (scrape_product shop base_url with_variants product_fields
                variant_fields) st'.
Proof.
  intros Hurl Hjson. split.
  - intros s. unfold get_complete_product_data, send, print. run_script.
    rewrite Hjson. reflexivity.
  - assert (Hrun : exists st',
               scrape_product shop base_url with_variants product_fields
                 variant_fields product st = (Ok tt, st')
               /\ csv_rows st' = csv_rows st
               /\ csv_created st' = csv_created st
               /\ total_products st' = total_products st
               /\ total_variants st' = total_variants st).
    { unfold scrape_product. run_script. rewrite Hurl.
      unfold get_tags_from_product, get_complete_product_data, send, print.
      run_script. rewrite Hjson.
      destruct (product_html shop url) as [tags|e']; cbv beta iota;
        eexists; (split; [reflexivity|]); repeat split; reflexivity. }
    destruct Hrun as (st' & Hrun & Hrows & Hcsv & Hp & Hv).
    exists st'. repeat (split; [assumption|]).
    cbn [for_each]. unfold bind at 1. now rewrite Hrun.
Qed.

(** What [get_page] returns, and what it leaves behind. *)
Lemma get_page_run (page : nat) (st : state) :
  exists st',
    get_page shop page st = (Ok (page_products shop page), st')
    /\ pages_requested st' = (pages_requested st ++ [page])%list
    /\ csv_rows st' = csv_rows st
    /\ csv_created st' = csv_created st.
Proof.
  unfold get_page, page_products, send, print. run_script.
  destruct (products_json shop page); cbv beta iota;
    eexists; (split; [reflexivity|]);
    unfold pages_requested; cbn [requests csv_rows csv_created];
    rewrite flat_map_app; repeat split; reflexivity.
Qed.

Lemma keeps_pages_bind {A B : Type} (m : M A) (k : A -> M B) :
  keeps_pages m -> (forall a, keeps_pages (k a)) -> keeps_pages (bind m k).
Proof.
  intros Hm Hk st r st'. unfold bind.
  destruct (m st) as [[a|e] st1] eqn:E; intros H.
  - rewrite (Hk a _ _ _ H). exact (Hm _ _ _ E).
  - injection H as _ <-. exact (Hm _ _ _ E).
Qed.

Lemma keeps_pages_pure {A : Type} (r : result A) : keeps_pages (lift r).
Proof. intros st r' st' [= _ <-]. reflexivity. Qed.

Lemma keeps_pages_ret {A : Type} (a : A) : keeps_pages (ret a).
Proof. intros st r' st' [= _ <-]. reflexivity. Qed.

Lemma keeps_pages_print (line : string) : keeps_pages (print line).
Proof. intros st r' st' [= _ <-]. reflexivity. Qed.

Lemma keeps_pages_writerow (row : list value) : keeps_pages (writerow row).
Proof. intros st r' st' [= _ <-]. reflexivity. Qed.

Lemma keeps_pages_count_product : keeps_pages count_product.
Proof. intros st r' st' [= _ <-]. reflexivity. Qed.

Lemma keeps_pages_count_variant : keeps_pages count_variant.
Proof. intros st r' st' [= _ <-]. reflexivity. Qed.

Lemma keeps_pages_send (q : request) :
  (forall p, q <> GetPage p) -> keeps_pages (send q).
Proof.
  intros Hq st r' st' [= _ <-]. unfold pages_requested. cbn [requests].
  rewrite flat_map_app. simpl.
  destruct q; [now contradiction (Hq page) | |]; apply List.app_nil_r.
Qed.

Lemma keeps_pages_for_each {A : Type} (l : list A) (body : A -> M unit) :
  (forall a, keeps_pages (body a)) -> keeps_pages (for_each l body).
Proof.
  intros Hbody. induction l as [|a l IH]; simpl.
  - apply keeps_pages_ret.
  - apply keeps_pages_bind; auto.
Qed.

Create HintDb pages.
#[local] Hint Resolve keeps_pages_pure keeps_pages_ret keeps_pages_print
  keeps_pages_writerow keeps_pages_count_product keeps_pages_count_variant
  : pages.

Ltac keeps_pages_steps :=
  repeat (first
            [ apply keeps_pages_bind; [|intros ?]
            | apply keeps_pages_for_each; intros ?
            | apply keeps_pages_send; discriminate
            | solve [auto with pages]
            | match goal with
              | |- keeps_pages (if ?b then _ else _) => destruct b
              | |- keeps_pages (match ?x with _ => _ end) => destruct x
              end ]).

Lemma keeps_pages_scrape_product (product : value) :
  keeps_pages
    (scrape_product shop base_url with_variants product_fields
       variant_fields product).
Proof.
  unfold scrape_product, write_product, write_variant,
    get_tags_from_product, get_complete_product_data.
  keeps_pages_steps.
Qed.

(** One turn of the loop: an exception among the products leaves the
    page requests as they were; otherwise the next page is requested and
    its products are returned. *)
Lemma scrape_page_run (page : nat) (products : value) (st : state) :
  (exists e st',
      scrape_page shop base_url with_variants product_fields variant_fields
        page products st = (Raise e, st')
      /\ pages_requested st' = pages_requested st)
  \/
  (exists st',
      scrape_page shop base_url with_variants product_fields variant_fields
        page products st = (Ok (page_products shop (page + 1)), st')
      /\ pages_requested st' = (pages_requested st ++ [page + 1])%list).
Proof.
  unfold scrape_page. run_script.
  destruct products as [| | | |s|l|d]; try (left; eauto; fail);
    match goal with
    | |- context [for_each ?each ?body st] =>
        destruct (for_each each body st) as [[[]|e] st1] eqn:Hloop;
        apply (keeps_pages_for_each each body keeps_pages_scrape_product)
          in Hloop;
        [ right; destruct (get_page_run (page + 1) st1)
                   as (st' & Hrun & Hpages & _);
          exists st'; rewrite Hrun, Hpages, Hloop; auto
        | left; eauto ]
    end.
Qed.

Lemma scrape_then_fetch_run (page : nat) (st : state) :
  (exists e st',
      scrape_then_fetch shop base_url with_variants product_fields
        variant_fields page st = (Raise e, st')
      /\ pages_requested st' = pages_requested st)
  \/
  (exists st',
      scrape_then_fetch shop base_url with_variants product_fields
        variant_fields page st = (Ok tt, st')
      /\ pages_requested st' = (pages_requested st ++ [page + 1])%list).
Proof.
  unfold scrape_then_fetch. run_script.
  destruct (scrape_page_run page (page_products shop page) st)
    as [(e & st' & Hrun & Hpages)|(st' & Hrun & Hpages)];
    rewrite Hrun; [left | right]; eauto.
Qed.

(** The loop, started on a page that is followed by [n] more pages with
    products and then by one without, goes through exactly these. *)
Lemma scrape_pages_bounded (n : nat) :
  forall fuel page st,
    (forall p, page <= p < page + n ->
               Py.truthy (page_products shop p) = true) ->
    Py.truthy (page_products shop (page + n)) = false ->
    n < fuel ->
    scrape_pages shop base_url with_variants product_fields variant_fields
      fuel page (page_products shop page) st
    = Some (for_each (seq page n)
              (scrape_then_fetch shop base_url with_variants product_fields
                 variant_fields) st).
Proof.
  induction n as [|n IH]; intros fuel page st Hfull Hempty Hfuel;
    destruct fuel as [|fuel]; try lia; cbn [scrape_pages seq for_each].
  - rewrite Nat.add_0_r in Hempty. now rewrite Hempty.
  - rewrite (Hfull page) by lia.
    unfold bind at 1. unfold scrape_then_fetch at 1. run_script.
    destruct (scrape_page_run page (page_products shop page) st)
      as [(e & st' & Hrun & _)|(st' & Hrun & _)]; rewrite Hrun.
    + reflexivity.
    + rewrite Nat.add_1_r. apply IH.
      * intros p Hp. apply Hfull. lia.
      * now replace (S page + n) with (page + S n) by lia.
      * lia.
Qed.

(** The pages requested while [pages] are gone through. *)
Lemma for_each_pages_requested (n : nat) :
  forall page st r st',
    for_each (seq page n)
      (scrape_then_fetch shop base_url with_variants product_fields
         variant_fields) st = (r, st') ->
    exists m,
      m <= n
      /\ pages_requested st' = (pages_requested st ++ seq (page + 1) m)%list
      /\ (r = Ok tt -> m = n).
Proof.
  induction n as [|n IH]; intros page st r st'; cbn [seq for_each].
  - intros [= <- <-]. exists 0. rewrite List.app_nil_r. auto.
  - unfold bind at 1.
    destruct (scrape_then_fetch_run page st)
      as [(e & st1 & Hrun & Hpages)|(st1 & Hrun & Hpages)]; rewrite Hrun.
    + intros [= <- <-]. exists 0. rewrite List.app_nil_r, Hpages.
      repeat split; [lia | discriminate].
    + intros Hrest. apply IH in Hrest.
      destruct Hrest as (m & Hm & Hpages' & Hok).
      exists (S m). rewrite Hpages', Hpages, <- List.app_assoc.
      rewrite (Nat.add_1_r (S page)). cbn [seq app].
      rewrite (Nat.add_1_r page).
      repeat split; [lia | auto].
Qed.


(** *** Runs that no exception ends *)

Lemma write_product_completes (url : string) (t dsc : value) (d : dict)
  (st : state) :
  (forall product_variants,
      Py.lookup d "variants" = Some product_variants ->
      exists vs, product_variants = VList (map VDict vs)) ->
  exists st',
    write_product with_variants product_fields variant_fields url t dsc
      (VDict d) st = (Ok tt, st').
Proof.
  intros Hvariants. unfold write_product. run_script.
  destruct with_variants; [|unfold writerow, count_product; eauto].
  destruct (Py.lookup d "variants") as [product_variants|] eqn:Hlookup.
  - rewrite (contains_key d "variants" _ Hlookup). run_script.
    unfold PyDyn.getitem. rewrite Hlookup.
    destruct (Hvariants _ eq_refl) as [vs ->]. run_script.
    destruct (write_variants product_fields variant_fields url t dsc
                (flatten_dict d "" "_") vs st) as (st1 & Hrun & _).
    rewrite Hrun. unfold count_product. eauto.
  - rewrite (contains_no_key d "variants" Hlookup).
    unfold writerow, count_product. run_script. eauto.
Qed.

Lemma get_tags_run (url : string) (st : state) :
  exists tags st',
    get_tags_from_product shop url st = (Ok tags, st')
    /\ csv_rows st' = csv_rows st
    /\ total_products st' = total_products st
    /\ total_variants st' = total_variants st.
Proof.
  unfold get_tags_from_product, send, print. run_script.
  destruct (product_html shop url); cbv beta iota;
    do 2 eexists; (split; [reflexivity|]); repeat split; reflexivity.
Qed.

Lemma get_complete_product_data_run (url : string) (st : state) :
  exists v st',
    get_complete_product_data shop url st = (Ok v, st')
    /\ (v = VNone \/ product_json shop url = Fetched v)
    /\ csv_rows st' = csv_rows st
    /\ total_products st' = total_products st
    /\ total_variants st' = total_variants st.
Proof.
  unfold get_complete_product_data, send, print. run_script.
  destruct (product_json shop url); cbv beta iota;
    do 2 eexists; (split; [reflexivity|]); repeat split; auto.
Qed.

(** An item whose complete data is there: the loop body comes down to
    [write_product], on a state with the same rows and counters. *)
Lemma scrape_product_resolved (product complete_product : value)
  (url : string) (st : state) :
  product_url_of base_url product = Ok url ->
  product_json shop url = Fetched complete_product ->
  Py.truthy complete_product = true ->
  exists tags st1,
    scrape_product shop base_url with_variants product_fields variant_fields
      product st
    = write_product with_variants product_fields variant_fields url
        (fst tags) (snd tags) complete_product st1
    /\ csv_rows st1 = csv_rows st
    /\ total_products st1 = total_products st
    /\ total_variants st1 = total_variants st.
Proof.
  intros Hurl Hjson Htruthy. unfold scrape_product. rewrite Hurl.
  unfold bind at 1. unfold lift at 1. cbv beta iota.
  unfold bind at 1. unfold print at 1. cbv beta iota.
  unfold bind at 1.
  match goal with
  | |- context [get_tags_from_product shop url ?s] =>
      destruct (get_tags_run url s) as (tags & st2 & Htags & Hr2 & Hp2 & Hv2)
  end.
  rewrite Htags.
  destruct (get_complete_product_data_run url st2)
    as (v & st3 & Hcomplete & Hv & Hr3 & Hp3 & Hv3).
  unfold bind at 1. rewrite Hcomplete.
  assert (v = complete_product) as ->.
  { destruct Hv as [->|Hv]; [|congruence].
    unfold get_complete_product_data, send, print in Hcomplete.
    revert Hcomplete. run_script. rewrite Hjson. congruence. }
  rewrite Htruthy. cbn [negb].
  exists tags, st3. split; [reflexivity|].
  cbn [csv_rows total_products total_variants] in Hr2, Hp2, Hv2.
  repeat split; congruence.
Qed.

Lemma scrape_product_completes (product : value) (st : state) :
  is_summary product ->
  (forall url v, product_json shop url = Fetched v -> is_complete_product v) ->
  exists st',
    scrape_product shop base_url with_variants product_fields variant_fields
      product st = (Ok tt, st').
Proof.
  intros (d & h & -> & Hhandle) Hshop.
  unfold scrape_product, product_url_of, rbind, PyDyn.getitem.
  rewrite Hhandle. cbv beta iota.
  set (url := base_url ++ "/products/" ++ h).
  unfold bind at 1. unfold lift at 1. cbv beta iota.
  unfold bind at 1. unfold print at 1. cbv beta iota.
  unfold bind at 1.
  match goal with
  | |- context [get_tags_from_product shop url ?s] =>
      destruct (get_tags_run url s) as (tags & st2 & Htags & _)
  end.
  rewrite Htags.
  destruct (get_complete_product_data_run url st2)
    as (v & st3 & Hcomplete & Hv & _).
  unfold bind at 1. rewrite Hcomplete.
  destruct Hv as [->|Hjson]; [unfold ret; simpl; eauto|].
  destruct (Py.truthy v) eqn:Htruthy; cbn [negb]; [|unfold ret; eauto].
  destruct (Hshop url v Hjson) as [Hfalsy|(d' & -> & Hvariants)];
    [congruence|].
  apply write_product_completes; exact Hvariants.
Qed.

Lemma for_each_completes {A : Type} (l : list A) (body : A -> M unit) :
  Forall (fun a => forall st, exists st', body a st = (Ok tt, st')) l ->
  forall st, exists st', for_each l body st = (Ok tt, st').
Proof.
  induction 1 as [|a l Ha _ IH]; intros st; cbn [for_each].
  - unfold ret. eauto.
  - unfold bind. destruct (Ha st) as [st1 ->]. apply IH.
Qed.

Lemma scrape_then_fetch_completes (page : nat) (items : list value)
  (st : state) :
  page_products shop page = VList items ->
  Forall is_summary items ->
  (forall url v, product_json shop url = Fetched v -> is_complete_product v) ->
  exists st',
    scrape_then_fetch shop base_url with_variants product_fields
      variant_fields page st = (Ok tt, st').
Proof.
  intros Hpage Hitems Hshop.
  unfold scrape_then_fetch, scrape_page. rewrite Hpage. run_script.
  destruct (for_each_completes items
              (scrape_product shop base_url with_variants product_fields
                 variant_fields)) with (st := st) as [st1 Hloop].
  { eapply Forall_impl; [|exact Hitems].
    intros product Hsummary s. now apply scrape_product_completes. }
  rewrite Hloop.
  destruct (get_page_run (page + 1) st1) as (st' & -> & _). eauto.
Qed.

(** On a well-formed shop no exception ends the loop: it returns, having
    requested the pages up to the first one without products and no
    other. *)
Lemma pagination_completes (n fuel : nat) (st : state) :
  well_formed_shop shop n ->
  (forall p, 1 <= p <= n -> Py.truthy (page_products shop p) = true) ->
  Py.truthy (page_products shop (S n)) = false ->
  n < fuel ->
  exists st',
    paginate shop base_url with_variants product_fields variant_fields fuel st
    = Some (Ok tt, st')
    /\ pages_requested st' = (pages_requested st ++ seq 1 (S n))%list.
Proof.
  intros [Hpages Hshop] Hfull Hempty Hfuel.
  destruct (get_page_run 1 st) as (st1 & Hfirst & Hpages1 & _).
  unfold paginate. rewrite Hfirst.
  rewrite (scrape_pages_bounded n fuel 1 st1); try assumption;
    [|intros p Hp; apply Hfull; lia].
  destruct (for_each_completes (seq 1 n)
              (scrape_then_fetch shop base_url with_variants product_fields
                 variant_fields)) with (st := st1) as [st' Hrun].
  { apply Forall_forall. intros p Hp. apply in_seq in Hp. intros s.
    destruct (Hpages p) as (items & Hpage & Hitems); [lia|].
    now apply (scrape_then_fetch_completes p items). }
  exists st'. split; [now rewrite Hrun|].
  destruct (for_each_pages_requested n 1 st1 (Ok tt) st' Hrun)
    as (m & _ & Hreq & Hm).
  rewrite Hreq, Hpages1, (Hm eq_refl), <- List.app_assoc. reflexivity.
Qed.

End LoopClaims.

(** ** Start of the run *)

Section MainClaims.
Context {R : PyRepr}.

(** C7.  With a base URL given, when the first page fetch fails or gives
    no product, field discovery ends in [exit(1)] right after printing
    the error, and so does the run: no list of fields is returned, the
    CSV file is not created and nothing is written to it, and the only
    request sent is the one for page 1. *)
Theorem empty_first_page_aborts (shop : store) (args : arguments)
  (fuel : nat) (base_url : string) :
  website_url args = Some base_url ->
  base_url <> "" ->
  Py.truthy (page_products shop 1) = false ->
  exists st,
    discover shop base_url (variants args) initial_state
    = (Raise (SystemExit 1), st)
    /\ main shop args fuel = Some (Raise (SystemExit 1), st)
    /\ csv_created st = false
    /\ csv_rows st = []
    /\ last (stdout st) "" = "[-] No products found or error accessing the store"
    /\ requests st = [GetPage 1].
Proof.
  intros Hurl Hbase Hempty.
  assert (Hdiscover : exists st,
             discover shop base_url (variants args) initial_state
             = (Raise (SystemExit 1), st)
             /\ csv_created st = false
             /\ csv_rows st = []
             /\ last (stdout st) ""
                = "[-] No products found or error accessing the store"
             /\ requests st = [GetPage 1]).
  { unfold discover, get_page, send, print. run_script.
    unfold page_products in Hempty.
    destruct (products_json shop 1) as [products|e]; cbv beta iota;
      rewrite Hempty; cbv beta iota;
      eexists; (split; [reflexivity|]); repeat split; reflexivity. }
  destruct Hdiscover as (st & Hrun & Hcsv & Hrows & Hout & Hreq).
  exists st. split; [exact Hrun|]. split; [|auto].
  unfold main. rewrite Hurl.
  rewrite (proj2 (str_truthy_true base_url) Hbase). now rewrite Hrun.
Qed.

End MainClaims.

(** ** The claims on concrete inputs *)

Section Instances.
#[local] Existing Instance repr_plain.

Example flatten_nested_example :
  flatten_dict [("a", VDict [("b", VInt 1); ("c", VInt 2)])] "" "_"
  = [("a_b", VInt 1); ("a_c", VInt 2)].
Proof. reflexivity. Qed.

Example flatten_tags_example :
  flatten_dict [("tags", VList [VStr "x"; VStr "y"])] "" "_"
  = [("tags", VStr "x|y")]
  /\ flatten_dict [("tags", VList [])] "" "_" = [("tags", VStr "")].
Proof. split; reflexivity. Qed.

Example flatten_images_example :
  flatten_dict
    [("images", VList [VDict [("src", VStr "u1")]; VDict [("src", VStr "u2")]])]
    "" "_"
  = [("images_0_src", VStr "u1"); ("images_1_src", VStr "u2")].
Proof. reflexivity. Qed.

(** The end-to-end scenario of the specification, without and with the
    variant rows. *)
Example small_shop_run :
  (exists st,
      main small_shop (shop_example_args false) 2 = Some (Ok tt, st)
      /\ List.length (csv_rows st) = 2
      /\ total_products st = 1)
  /\
  (exists st,
      main small_shop (shop_example_args true) 2 = Some (Ok tt, st)
      /\ List.length (csv_rows st) = 2
      /\ nth 1 (csv_rows st) []
         = [VStr "https://shop.example/products/a"; VStr "A - Shop";
            VStr "The product A"; VInt 1; VStr "A"; VInt 10; VStr "9.99";
            VInt 10; VStr "9.99"]
      /\ total_variants st = 1).
Proof.
  split; eexists; (split; [vm_compute; reflexivity|]);
    repeat split; reflexivity.
Qed.

(** The small shop is well formed, and the loop over it returns after
    having requested pages 1 and 2. *)
Example small_shop_pagination :
  well_formed_shop small_shop 1
  /\ exists st',
      paginate small_shop "https://shop.example" true ["id"] ["price"] 2
        initial_state = Some (Ok tt, st')
      /\ pages_requested st' = [1; 2].
Proof.
  assert (Hwf : well_formed_shop small_shop 1).
  { split.
    - intros p Hp. replace p with 1 by lia. eexists. split; [reflexivity|].
      constructor; [|constructor].
      exists [("handle", VStr "a")], "a". split; reflexivity.
    - intros url v [= <-]. right. eexists. split; [reflexivity|].
      intros product_variants [= <-].
      exists [[("id", VInt 10); ("price", VStr "9.99")]]. reflexivity. }
  split; [exact Hwf|].
  apply (pagination_completes small_shop "https://shop.example" true ["id"]
           ["price"] 1 2 initial_state Hwf).
  - intros p Hp. replace p with 1 by lia. reflexivity.
  - reflexivity.
  - lia.
Qed.

(** C1 (code at the failing input).  With the variant rows asked for, the
    run over a shop whose product [b] has no [variants] entry writes a
    header of six columns, a row of six values for the variant of [a],
    and a row of five values for [b]. *)
Theorem row_shorter_than_header :
  exists st,
    main uneven_shop (shop_example_args true) 2 = Some (Ok tt, st)
    /\ map (@List.length value) (csv_rows st) = [6; 6; 5]
    /\ nth 0 (csv_rows st) []
       = map VStr (header true ["id"; "variants_0_price"] ["price"])
    /\ nth 2 (csv_rows st) []
       = [VStr "https://shop.example/products/b"; VStr "Shop"; VStr "";
          VInt 2; VStr ""].
Proof.
  eexists. split; [vm_compute; reflexivity|]. repeat split; reflexivity.
Qed.

(** A product with two variants gets two rows. *)
Lemma variant_rows_witness :
  Py.lookup product_with_variants "variants"
  = Some (VList (map VDict [[("price", VStr "9.99")];
                            [("price", VStr "12.50")]]))
  /\ exists st' rows,
      write_product true ["id"] ["price"] "u" (VStr "") (VStr "")
        (VDict product_with_variants) initial_state = (Ok tt, st')
      /\ csv_rows st' = rows
      /\ List.length rows = 2
      /\ total_variants st' = 2.
Proof.
  split; [reflexivity|].
  destruct (variant_rows ["id"] ["price"] "u" (VStr "") (VStr "")
              product_with_variants
              [[("price", VStr "9.99")]; [("price", VStr "12.50")]]
              initial_state eq_refl)
    as (st' & rows & Hrun & Hrows & Hlen & _ & _ & _ & Hv & _).
  exists st', rows. repeat split; assumption.
Defined.

(** Two records on which the nested-record rule is not the whole story:
    in the first, the parent key [a_b_c] is an output key, produced by
    the entry under [a_b]; in the second, the leaf [b] below the empty key
    is not named [_b]. *)
Lemma flatten_nested_record_counterexample :
  (NoDup (Py.keys clashing_nested_record)
   /\ In ("a_b_c", VDict [("x", VInt 1)]) clashing_nested_record
   /\ In "a_b_c" (Py.keys (flatten_dict clashing_nested_record "" "_")))
  /\
  (NoDup (Py.keys empty_key_record)
   /\ In ("", VDict [("b", VInt 1)]) empty_key_record
   /\ In (["b"], VInt 1) (leaves [("b", VInt 1)])
   /\ ~ In (compound_key [""; "b"])
          (Py.keys (flatten_dict empty_key_record "" "_"))).
Proof.
  split.
  - split; [|split].
    + repeat constructor; simpl; intuition discriminate.
    + right. now left.
    + simpl. now left.
  - split; [|split; [|split]].
    + repeat constructor; simpl; intuition.
    + now left.
    + now left.
    + simpl. intuition discriminate.
Qed.

(** The record [{a: {b: 1, c: 2}}]: [a_b] bound to 1 and [a_c] bound
    to 2, nothing else, and no key [a]. *)
Lemma flatten_nested_record_witness :
  (NoDup (Py.keys nested_record)
   /\ In ("a", VDict [("b", VInt 1); ("c", VInt 2)]) nested_record
   /\ "a" <> "")
  /\ In "a_b" (Py.keys (flatten_dict nested_record "" "_"))
  /\ In "a_c" (Py.keys (flatten_dict nested_record "" "_"))
  /\ ~ In "a" (Py.keys (flatten_dict nested_record "" "_"))
  /\ Py.lookup (flatten_dict nested_record "" "_") "a_b" = Some (VInt 1)
  /\ Py.lookup (flatten_dict nested_record "" "_") "a_c" = Some (VInt 2)
  /\ (forall key val,
         Py.lookup (flatten_dict nested_record "" "_") key = Some val ->
         (key, val) = ("a_b", VInt 1) \/ (key, val) = ("a_c", VInt 2)).
Proof.
  assert (Hnd : NoDup (Py.keys nested_record)).
  { repeat constructor. simpl. intuition. }
  assert (Hin : In ("a", VDict [("b", VInt 1); ("c", VInt 2)]) nested_record)
    by (now left).
  assert (Hk : "a" <> "") by discriminate.
  assert (Hfree : forall key, ~ collides nested_record "a" key).
  { intros key (k2 & v2 & [H|[]] & Hne & _). congruence. }
  destruct (flatten_nested_record nested_record "a" _ Hnd Hin Hk)
    as (Hleaves & _ & Hself & Hvalue & Hexact).
  split; [auto|]. split; [|split; [|split; [|split; [|split]]]].
  - apply (Hleaves ["b"] (VInt 1)). now left.
  - apply (Hleaves ["c"] (VInt 2)). right. now left.
  - intros H. apply Hself in H. exact (Hfree "a" H).
  - apply (Hvalue ["b"] (VInt 1)); [now left | | apply Hfree].
    intros path' val' [H|[H|[]]] Heq; injection H as <- <-;
      [reflexivity | discriminate Heq].
  - apply (Hvalue ["c"] (VInt 2)); [right; now left | | apply Hfree].
    intros path' val' [H|[H|[]]] Heq; injection H as <- <-;
      [discriminate Heq | reflexivity].
  - intros key val Hlookup.
    destruct (Hexact key val Hlookup) as [(path & Hleaf & ->)|Hclash];
      [|destruct (Hfree key Hclash)].
    destruct Hleaf as [H|[H|[]]]; injection H as <- <-;
      [left | right]; reflexivity.
Defined.

(** The list under [tags_x] is joined, but the pair that the entry
    under [tags] produces for the same key comes later and stays. *)
Lemma flatten_scalar_list_counterexample :
  NoDup (Py.keys clashing_tags_record)
  /\ In ("tags_x", VList [VStr "a"]) clashing_tags_record
  /\ forallb is_scalar [VStr "a"] = true
  /\ Py.lookup (flatten_dict clashing_tags_record "" "_") "tags_x"
     = Some (VInt 1)
  /\ Py.lookup (flatten_dict clashing_tags_record "" "_") "tags_x"
     <> Some (VStr (Py.join "|" (map Py.str [VStr "a"]))).
Proof.
  repeat split.
  - repeat constructor; simpl; intuition discriminate.
  - now left.
  - discriminate.
Qed.

(** The record [{tags: [x, y], id: 7}]: [tags] is bound to [x|y]. *)
Lemma flatten_scalar_list_witness :
  (NoDup (Py.keys tagged_record)
   /\ In ("tags", VList [VStr "x"; VStr "y"]) tagged_record
   /\ forallb is_scalar [VStr "x"; VStr "y"] = true
   /\ ~ collides tagged_record "tags" "tags")
  /\ Py.lookup (flatten_dict tagged_record "" "_") "tags"
     = Some (VStr "x|y").
Proof.
  assert (Hnd : NoDup (Py.keys tagged_record)).
  { repeat constructor; simpl; intuition discriminate. }
  assert (Hin : In ("tags", VList [VStr "x"; VStr "y"]) tagged_record)
    by (now left).
  assert (Hfree : ~ collides tagged_record "tags" "tags").
  { intros (k2 & v2 & [H|[H|[]]] & Hne & Hkey);
      injection H as <- <-; [congruence|].
    simpl in Hkey. intuition discriminate. }
  split; [auto|].
  exact (proj1 (flatten_scalar_list tagged_record "tags" _ Hnd Hin eq_refl
                  Hfree)).
Defined.

(** The record [{images: [{src: u1}, {src: u2}]}]: [images_0_src]
    bound to [u1] and [images_1_src] bound to [u2], and nothing else. *)
Lemma flatten_record_list_witness :
  (NoDup (Py.keys images_record)
   /\ In ("images",
          VList [VDict [("src", VStr "u1")]; VDict [("src", VStr "u2")]])
        images_record
   /\ forallb Py.isinstance_dict
        [VDict [("src", VStr "u1")]; VDict [("src", VStr "u2")]] = true
   /\ nth_error [VDict [("src", VStr "u1")]; VDict [("src", VStr "u2")]] 1
      = Some (VDict [("src", VStr "u2")]))
  /\ In "images_1_src" (Py.keys (flatten_dict images_record "" "_"))
  /\ Py.lookup (flatten_dict images_record "" "_") "images_0_src"
     = Some (VStr "u1")
  /\ Py.lookup (flatten_dict images_record "" "_") "images_1_src"
     = Some (VStr "u2")
  /\ (forall key val,
         Py.lookup (flatten_dict images_record "" "_") key = Some val ->
         (key, val) = ("images_0_src", VStr "u1")
         \/ (key, val) = ("images_1_src", VStr "u2")).
Proof.
  assert (Hnd : NoDup (Py.keys images_record)).
  { repeat constructor. simpl. intuition. }
  assert (Hin : In ("images",
                    VList [VDict [("src", VStr "u1")];
                           VDict [("src", VStr "u2")]]) images_record)
    by (now left).
  assert (Hall : forallb Py.isinstance_dict
                   [VDict [("src", VStr "u1")]; VDict [("src", VStr "u2")]]
                 = true) by reflexivity.
  assert (Hfirst : nth_error [VDict [("src", VStr "u1")];
                              VDict [("src", VStr "u2")]] 0
                   = Some (VDict [("src", VStr "u1")])) by reflexivity.
  assert (Hsecond : nth_error [VDict [("src", VStr "u1")];
                               VDict [("src", VStr "u2")]] 1
                    = Some (VDict [("src", VStr "u2")])) by reflexivity.
  assert (Hfree : forall key, ~ collides images_record "images" key).
  { intros key (k2 & v2 & [H|[]] & Hne & _). congruence. }
  split; [auto|].
  destruct (flatten_record_list images_record "images" _ 0
              [("src", VStr "u1")] Hnd Hin Hall Hfirst)
    as (_ & _ & _ & Hvalue0 & _).
  destruct (flatten_record_list images_record "images" _ 1
              [("src", VStr "u2")] Hnd Hin Hall Hsecond)
    as (_ & Hleaves & _ & Hvalue1 & Hexact).
  split; [|split; [|split]].
  - apply (Hleaves ["src"] (VStr "u2")). now left.
  - apply (Hvalue0 ["src"] (VStr "u1")); [now left | | apply Hfree].
    intros path' val' [H|[]] _. now injection H as <- <-.
  - apply (Hvalue1 ["src"] (VStr "u2")); [now left | | apply Hfree].
    intros path' val' [H|[]] _. now injection H as <- <-.
  - intros key val Hlookup.
    destruct (Hexact key val Hlookup)
      as [(j & m & path & Hnth & Hleaf & ->)|Hclash];
      [|destruct (Hfree key Hclash)].
    destruct j as [|[|j]]; cbn [nth_error] in Hnth.
    + injection Hnth as <-. destruct Hleaf as [H|[]].
      injection H as <- <-. left. reflexivity.
    + injection Hnth as <-. destruct Hleaf as [H|[]].
      injection H as <- <-. right. reflexivity.
    + destruct j; discriminate Hnth.
Defined.



(** The shop that answers nothing: the run ends in [exit(1)]. *)
Lemma empty_first_page_aborts_witness :
  (website_url (shop_example_args true) = Some "https://shop.example"
   /\ "https://shop.example" <> ""
   /\ Py.truthy (page_products silent_shop 1) = false)
  /\ exists st,
      main silent_shop (shop_example_args true) 5
      = Some (Raise (SystemExit 1), st)
      /\ csv_created st = false.
Proof.
  assert (Hbase : "https://shop.example" <> "") by discriminate.
  split; [repeat split; [exact Hbase]|].
  destruct (empty_first_page_aborts silent_shop (shop_example_args true) 5
              "https://shop.example" eq_refl Hbase eq_refl)
    as (st & _ & Hrun & Hcsv & _).
  exists st. split; assumption.
Defined.


(** An item of the shop that answers nothing is skipped. *)
Lemma unresolved_product_skipped_witness :
  (product_url_of "https://shop.example" (VDict [("handle", VStr "a")])
   = Ok "https://shop.example/products/a"
   /\ product_json silent_shop "https://shop.example/products/a"
      = Failed "timed out")
  /\ exists st',
      scrape_product silent_shop "https://shop.example" true ["id"] ["price"]
        (VDict [("handle", VStr "a")]) initial_state = (Ok tt, st')
      /\ csv_rows st' = []
      /\ total_products st' = 0.
Proof.
  split; [split; reflexivity|].
  destruct (unresolved_product_skipped silent_shop "https://shop.example"
              true ["id"] ["price"] (VDict [("handle", VStr "a")])
              "https://shop.example/products/a" "timed out" []
              initial_state eq_refl eq_refl)
    as (_ & st' & Hrun & Hrows & _ & Hp & _).
  exists st'. repeat split; assumption.
Defined.

End Instances.

(** * Further properties of the script *)

(** ** More on flattening *)

Section FlattenMore.
Context {R : PyRepr}.

Lemma append_empty_r (a : string) : a ++ "" = a.
Proof.
  induction a as [|x a IH]; simpl; [reflexivity | now rewrite IH].
Qed.

Lemma dict_set_fresh (d : dict) (k : string) (v : value) :
  ~ In k (Py.keys d) -> Py.dict_set d k v = (d ++ [(k, v)])%list.
Proof.
  induction d as [|[k0 v0] d IH]; simpl; intros Hk; [reflexivity|].
  destruct (String.eqb_spec k k0) as [->|Hne]; [intuition|].
  rewrite IH; intuition.
Qed.

Lemma fold_set_fresh (items : list (string * value)) :
  forall acc,
    NoDup (Py.keys acc ++ Py.keys items) ->
    fold_left (fun d kv => Py.dict_set d (fst kv) (snd kv)) items acc
    = (acc ++ items)%list.
Proof.
  induction items as [|[k v] items IH]; intros acc Hnd; simpl.
  - now rewrite List.app_nil_r.
  - simpl in Hnd. rewrite dict_set_fresh.
    + rewrite IH; [now rewrite <- List.app_assoc|].
      unfold Py.keys. rewrite map_app. simpl. rewrite <- List.app_assoc.
      exact Hnd.
    + apply NoDup_remove_2 in Hnd. intros Hin. apply Hnd.
      apply in_or_app. now left.
Qed.

(** [dict(items)] is [items] when no key comes twice. *)
Lemma dict_of_items_id (items : list (string * value)) :
  NoDup (Py.keys items) -> Py.dict_of_items items = items.
Proof.
  intros Hnd. unfold Py.dict_of_items. now rewrite fold_set_fresh.
Qed.

Lemma lookup_dict_set (d : dict) (k k' : string) (v : value) :
  Py.lookup (Py.dict_set d k v) k'
  = if k' =? k then Some v else Py.lookup d k'.
Proof.
  induction d as [|[k0 v0] d IH]; simpl.
  - reflexivity.
  - destruct (String.eqb_spec k k0) as [->|Hne]; simpl.
    + destruct (String.eqb_spec k' k0); reflexivity.
    + rewrite IH. destruct (String.eqb_spec k' k0) as [->|Hne'];
        [|reflexivity].
      destruct (String.eqb_spec k0 k); [congruence | reflexivity].
Qed.

(** [dict(items)] binds a key to the value of the last pair that has it. *)
Lemma lookup_dict_of_items_last (before after : list (string * value))
  (k : string) (v : value) :
  ~ In k (map fst after) ->
  Py.lookup (Py.dict_of_items (before ++ (k, v) :: after)) k = Some v.
Proof.
  intros Hafter. unfold Py.dict_of_items. rewrite fold_left_app. simpl.
  generalize (fold_left (fun d kv => Py.dict_set d (fst kv) (snd kv))
                before []).
  intros acc.
  assert (Hset : Py.lookup (Py.dict_set acc k v) k = Some v).
  { rewrite lookup_dict_set. now rewrite String.eqb_refl. }
  revert Hset. generalize (Py.dict_set acc k v). clear acc.
  induction after as [|[k2 v2] after IH]; intros acc Hacc; simpl.
  - exact Hacc.
  - apply IH.
    + simpl in Hafter. intuition.
    + rewrite lookup_dict_set. simpl in Hafter.
      destruct (String.eqb_spec k k2) as [->|Hne];
        [exfalso; apply Hafter; now left | exact Hacc].
Qed.

Lemma flat_map_scalars (p sep : string) (d : dict) :
  Forall (fun kv => is_scalar (snd kv) = true) d ->
  flat_map (fun kv => flatten_entry p sep (fst kv) (snd kv)) d
  = map (fun kv => (new_key_of p sep (fst kv), snd kv)) d.
Proof.
  induction 1 as [|[k v] d Hv _ IH]; simpl; [reflexivity|].
  rewrite IH. simpl in Hv. now rewrite (flatten_entry_scalar p sep k v Hv).
Qed.

Lemma yields_no_dict_all (v : value) : yields_no_dict v.
Proof.
  induction v as [| | | | |l IH|d IH] using value_nested_ind;
    try (intros p sep k key val [Heq|[]]; now injection Heq as _ <-).
  - intros p sep k key val. rewrite flatten_entry_list.
    destruct (first_is_dict l);
      [|intros [Heq|[]]; now injection Heq as _ <-].
    generalize 0. induction IH as [|item l Hitem _ IHl]; intros i; simpl.
    + intros [].
    + intros Hin. apply in_app_or in Hin. destruct Hin as [Hin|Hin];
        [|now apply (IHl (S i))].
      destruct item;
        try (destruct Hin as [Heq|[]]; now injection Heq as _ <-).
      exact (Hitem "" sep (index_key (new_key_of p sep k) i) key val Hin).
  - intros p sep k key val. rewrite flatten_entry_dict. intros Hin.
    apply in_flatten_dict in Hin. destruct Hin as (k' & v' & Hd & Hin).
    rewrite Forall_forall in IH. exact (IH (k', v') Hd _ _ _ _ _ Hin).
Qed.

Lemma yields_scalars_all (v : value) : yields_scalars v.
Proof.
  induction v as [| | | | |l IH|d IH] using value_nested_ind;
    try (intros _ p sep k key val [Heq|[]]; now injection Heq as _ <-).
  - intros Hu p sep k key val. rewrite flatten_entry_list.
    destruct (first_is_dict l) eqn:Hfirst;
      [|intros [Heq|[]]; now injection Heq as _ <-].
    simpl in Hu. apply orb_true_iff in Hu. destruct Hu as [Hu|Hu].
    { destruct l as [|x l]; [discriminate|]. simpl in Hu.
      apply andb_true_iff in Hu. destruct Hu as [Hx _].
      destruct x; discriminate. }
    clear Hfirst. revert Hu. generalize 0.
    induction IH as [|item l Hitem _ IHl]; intros i Hu; simpl.
    + intros [].
    + simpl in Hu. apply andb_true_iff in Hu. destruct Hu as [Hx Hu].
      apply andb_true_iff in Hx. destruct Hx as [Hdict Hux].
      intros Hin. apply in_app_or in Hin. destruct Hin as [Hin|Hin];
        [|now apply (IHl (S i))].
      destruct item; try discriminate.
      exact (Hitem Hux "" sep (index_key (new_key_of p sep k) i) key val Hin).
  - intros Hu p sep k key val. rewrite flatten_entry_dict. intros Hin.
    apply in_flatten_dict in Hin. destruct Hin as (k' & v' & Hd & Hin).
    rewrite Forall_forall in IH. simpl in Hu.
    rewrite forallb_forall in Hu.
    exact (IH (k', v') Hd (Hu (k', v') Hd) _ _ _ _ _ Hin).
Qed.

Lemma yields_extensions_dict (d : dict) (q sep key : string) :
  Forall (fun kv => yields_extensions (snd kv)) d ->
  In key (Py.keys (flatten_dict d q sep)) ->
  exists rest, key = q ++ rest.
Proof.
  intros IH Hin. rewrite Forall_forall in IH.
  apply keys_flatten_dict in Hin. destruct Hin as (k' & v' & Hd & Hin).
  destruct (IH (k', v') Hd q sep k' key Hin) as [rest ->].
  unfold new_key_of. destruct (Py.str_truthy q) eqn:Hq.
  - exists (sep ++ k' ++ rest). now rewrite !append_assoc.
  - apply negb_false_iff, String.eqb_eq in Hq. subst q.
    exists (k' ++ rest). reflexivity.
Qed.

Lemma yields_extensions_all (v : value) : yields_extensions v.
Proof.
  induction v as [| | | | |l IH|d IH] using value_nested_ind;
    try (intros p sep k key [Heq|[]]; simpl in Heq; subst key;
         exists ""; now rewrite append_empty_r).
  - intros p sep k key. rewrite flatten_entry_list.
    destruct (first_is_dict l);
      [|intros [Heq|[]]; simpl in Heq; subst key;
        exists ""; now rewrite append_empty_r].
    set (nk := new_key_of p sep k). generalize 0.
    induction IH as [|item l Hitem _ IHl]; intros i; simpl.
    + intros [].
    + rewrite map_app. intros Hin. apply in_app_or in Hin.
      destruct Hin as [Hin|Hin]; [|now apply (IHl (S i))].
      assert (Hidx : forall rest,
                 index_key nk i ++ rest = nk ++ "_" ++ Py.str_nat i ++ rest).
      { intros rest. unfold index_key. now rewrite !append_assoc. }
      destruct item;
        try (destruct Hin as [Heq|[]]; simpl in Heq; subst key;
             eexists; rewrite <- (append_empty_r (index_key nk i));
             apply Hidx).
      destruct (Hitem "" sep (index_key nk i) key Hin) as [rest ->].
      eexists. apply Hidx.
  - intros p sep k key. rewrite flatten_entry_dict.
    now apply yields_extensions_dict.
Qed.

Lemma new_key_of_inj (p sep k k' : string) :
  new_key_of p sep k = new_key_of p sep k' -> k = k'.
Proof.
  unfold new_key_of. destruct (Py.str_truthy p); [|auto].
  intros H. apply append_inv_head in H. now apply append_inv_head in H.
Qed.

Lemma flatten_scalars (d : dict) (p sep : string) :
  NoDup (Py.keys d) ->
  Forall (fun kv => is_scalar (snd kv) = true) d ->
  flatten_dict d p sep
  = map (fun kv => (new_key_of p sep (fst kv), snd kv)) d.
Proof.
  intros Hnd Hscalars. unfold flatten_dict.
  rewrite (flat_map_scalars p sep d Hscalars). apply dict_of_items_id.
  unfold Py.keys in *. rewrite map_map. simpl.
  clear Hscalars. induction d as [|[k v] d IH]; simpl; [constructor|].
  inversion Hnd as [|? ? Hk Hnd']; subst. constructor; [|auto].
  rewrite in_map_iff. intros [[k' v'] [Heq Hin]]. simpl in Heq.
  apply new_key_of_inj in Heq. subst k'. apply Hk.
  apply (in_map fst) in Hin. exact Hin.
Qed.

(** X1.  A record that holds scalars only comes back from [flatten_dict]
    as it is, entry by entry and in the same order; under a parent key,
    each of its keys is prefixed by the parent key and the separator. *)
Theorem flatten_flat_record (d : dict) (p sep : string) :
  NoDup (Py.keys d) ->
  Forall (fun kv => is_scalar (snd kv) = true) d ->
  flatten_dict d "" sep = d
  /\ (p <> "" ->
      flatten_dict d p sep = map (fun kv => (p ++ sep ++ fst kv, snd kv)) d).
Proof.
  intros Hnd Hscalars. split.
  - rewrite (flatten_scalars d "" sep Hnd Hscalars).
    rewrite <- (map_id d) at 2. apply map_ext. now intros [k v].
  - intros Hp. rewrite (flatten_scalars d p sep Hnd Hscalars).
    apply map_ext. intros [k v]. simpl. now rewrite new_key_of_nested.
Qed.

(** X2.  No value of the dictionary that [flatten_dict] returns is itself
    a dictionary, whatever the record, the parent key and the separator. *)
Theorem flatten_values_never_dict (d : dict) (p sep : string) :
  Forall (fun kv => Py.isinstance_dict (snd kv) = false)
    (flatten_dict d p sep).
Proof.
  apply Forall_forall. intros [key val] Hin. simpl.
  apply in_flatten_dict in Hin. destruct Hin as (k & v & _ & Hin).
  exact (yields_no_dict_all v p sep k key val Hin).
Qed.

(** X3.  When every list of a record, at every depth, holds scalars only or
    dictionaries only, every value of the dictionary that [flatten_dict]
    returns is a scalar. *)
Theorem flatten_values_scalar (d : dict) (p sep : string) :
  uniform_lists (VDict d) = true ->
  Forall (fun kv => is_scalar (snd kv) = true) (flatten_dict d p sep).
Proof.
  intros Hu. apply Forall_forall. intros [key val] Hin. simpl.
  apply in_flatten_dict in Hin. destruct Hin as (k & v & Hd & Hin).
  simpl in Hu. rewrite forallb_forall in Hu.
  exact (yields_scalars_all v (Hu (k, v) Hd) p sep k key val Hin).
Qed.

(** X4.  When two entries of a record flatten to the same key, the later
    one wins: a scalar entry under [k] that is followed by scalar entries
    under other keys only is what the output binds [k] to, whatever the
    entries before it flatten to. *)
Theorem later_scalar_entry_wins (before after : dict) (k sep : string)
  (v : value) :
  is_scalar v = true ->
  Forall (fun kv => is_scalar (snd kv) = true /\ fst kv <> k) after ->
  Py.lookup (flatten_dict (before ++ (k, v) :: after)%list "" sep) k = Some v.
Proof.
  intros Hv Hafter. unfold flatten_dict.
  rewrite flat_map_app. cbn [flat_map].
  rewrite (flatten_entry_scalar "" sep k v Hv). cbn [app].
  change (new_key_of "" sep k) with k.
  apply lookup_dict_of_items_last.
  rewrite flat_map_scalars.
  - rewrite map_map. simpl. rewrite in_map_iff.
    intros [[k2 v2] [Heq Hin]]. cbn in Heq.
    rewrite Forall_forall in Hafter. destruct (Hafter _ Hin) as [_ Hne].
    cbn in Hne. exact (Hne Heq).
  - eapply Forall_impl; [|exact Hafter]. now intros kv [H _].
Qed.

(** X5.  Every key of the dictionary that [flatten_dict] returns starts
    with the key of one of the record's own entries, itself prefixed by the
    parent key and the separator when there is a parent key. *)
Theorem output_keys_extend_entry_keys (d : dict) (p sep : string) :
  Forall (fun key =>
            exists k rest,
              In k (Py.keys d) /\ key = new_key_of p sep k ++ rest)
    (Py.keys (flatten_dict d p sep)).
Proof.
  apply Forall_forall. intros key Hin.
  apply keys_flatten_dict in Hin. destruct Hin as (k & v & Hd & Hin).
  destruct (yields_extensions_all v p sep k key Hin) as [rest ->].
  exists k, rest. split; [|reflexivity].
  apply (in_map fst) in Hd. exact Hd.
Qed.

End FlattenMore.

(** ** More on field discovery *)

Section DiscoveryMore.
Context {R : PyRepr}.

Lemma collect_variant_fields_spec (samples : list value) :
  forall all_fields,
    NoDup all_fields ->
    NoDup (collect_variant_fields samples all_fields)
    /\ (forall k,
           In k (collect_variant_fields samples all_fields) <->
           In k all_fields \/
           exists d,
             In (VDict d) samples /\ In k (Py.keys (flatten_dict d "" "_"))).
Proof.
  induction samples as [|variant samples IH]; intros all_fields Hnd; simpl.
  - split; [exact Hnd|]. intros k. split; [auto|].
    intros [H|(d & [] & _)]; exact H.
  - assert (Hskip :
        NoDup (collect_variant_fields samples all_fields)
        /\ (forall k,
               In k (collect_variant_fields samples all_fields) <->
               In k all_fields \/
               exists d,
                 In (VDict d) samples
                 /\ In k (Py.keys (flatten_dict d "" "_")))) by (now apply IH).
    destruct variant as [| | | | | |d];
      try (destruct Hskip as [Hnd' Hin]; split; [exact Hnd'|];
           intros k; rewrite Hin; split;
           [ intros [H|(d' & Hd' & H)]; eauto
           | intros [H|(d' & [Hd'|Hd'] & H)];
             [auto | discriminate | eauto] ]).
    destruct (IH (PyDyn.set_update all_fields
                    (Py.keys (flatten_dict d "" "_"))))
      as [Hnd' Hin]; [now apply NoDup_set_update|].
    split; [exact Hnd'|]. intros k. rewrite Hin, in_set_update. split.
    + intros [[H|H]|(d' & Hd' & H)]; eauto.
    + intros [H|(d' & [Hd'|Hd'] & H)]; eauto.
      injection Hd' as <-. auto.
Qed.

Lemma get_all_variant_fields_sorted (samples : list value) :
  StronglySorted str_lt (get_all_variant_fields samples).
Proof.
  unfold get_all_variant_fields. apply sorted_sorted.
  apply collect_variant_fields_spec. constructor.
Qed.

Lemma get_all_product_fields_sorted (samples : list value) :
  forall columns,
    get_all_product_fields samples = Ok columns ->
    StronglySorted str_lt columns.
Proof.
  unfold get_all_product_fields, rbind.
  assert (Hcollect : forall all_fields fields,
             NoDup all_fields ->
             collect_product_fields samples all_fields = Ok fields ->
             NoDup fields).
  { induction samples as [|product samples IH]; intros all_fields fields Hnd;
      simpl.
    - now intros [= <-].
    - unfold rbind. destruct (flatten_dict_call product); [|discriminate].
      apply IH. now apply NoDup_set_update. }
  intros columns.
  destruct (collect_product_fields samples []) as [fields|e] eqn:Hrun;
    [|discriminate].
  intros [= <-]. apply sorted_sorted.
  exact (Hcollect [] fields (NoDup_nil _) Hrun).
Qed.

(** X6.  [get_all_variant_fields] passes over every sample that is not a
    dictionary and never raises; what it returns holds exactly the keys of
    the flattened dictionaries among the samples, each one once, in
    strictly ascending order. *)
Theorem variant_field_discovery (samples : list value) :
  (forall k,
      In k (get_all_variant_fields samples) <->
      exists d,
        In (VDict d) samples /\ In k (Py.keys (flatten_dict d "" "_")))
  /\ NoDup (get_all_variant_fields samples)
  /\ StronglySorted (fun a b => String.ltb a b = true)
       (get_all_variant_fields samples).
Proof.
  pose proof (get_all_variant_fields_sorted samples) as Hsorted.
  destruct (collect_variant_fields_spec samples [] (NoDup_nil _))
    as [_ Hin].
  split; [|split].
  - intros k. unfold get_all_variant_fields. rewrite in_sorted, Hin.
    split; [intros [[]|H]; exact H | auto].
  - now apply sorted_NoDup.
  - exact Hsorted.
Qed.

End DiscoveryMore.

(** ** More on the run *)

Section RunMore.
Context {R : PyRepr}.

Lemma returns_bind {A B : Type} (m : M A) (k : A -> M B) (Q : B -> Prop) :
  (forall a, returns (k a) Q) -> returns (bind m k) Q.
Proof.
  intros Hk st b st'. unfold bind.
  destruct (m st) as [[a|e] st1]; [apply Hk | discriminate].
Qed.

Lemma returns_raise {A : Type} (e : exn) (Q : A -> Prop) : returns (raise e) Q.
Proof. intros st a st'. discriminate. Qed.

Lemma ledger_refl (w : nat) (st : state) : ledger_extends w st st.
Proof.
  split; [reflexivity|]. exists []. rewrite List.app_nil_r, Nat.add_0_r.
  repeat split. constructor.
Qed.

Lemma ledger_trans (w : nat) (st1 st2 st3 : state) :
  ledger_extends w st1 st2 -> ledger_extends w st2 st3 ->
  ledger_extends w st1 st3.
Proof.
  intros [Hc1 (rows1 & Hr1 & Hw1 & Hp1)] [Hc2 (rows2 & Hr2 & Hw2 & Hp2)].
  split; [congruence|]. exists (rows1 ++ rows2)%list.
  rewrite Hr2, Hr1, Hp2, Hp1, <- List.app_assoc, length_app.
  repeat split; [now apply Forall_app | lia].
Qed.

(** A step that leaves the file and the counters alone. *)
Lemma ledger_same (w : nat) (st st' : state) :
  csv_created st' = csv_created st ->
  csv_rows st' = csv_rows st ->
  total_products st' = total_products st ->
  ledger_extends w st st'.
Proof.
  intros Hc Hr Hp. split; [exact Hc|]. exists [].
  rewrite List.app_nil_r, Nat.add_0_r. repeat split; auto.
Qed.

Lemma appends_bind {A B : Type} (w : nat) (m : M A) (k : A -> M B) :
  appends_product_rows w m -> (forall a, appends_product_rows w (k a)) ->
  appends_product_rows w (bind m k).
Proof.
  intros Hm Hk st r st'. unfold bind.
  destruct (m st) as [[a|e] st1] eqn:E; intros H.
  - eapply ledger_trans; [exact (Hm _ _ _ E) | exact (Hk a _ _ _ H)].
  - injection H as _ <-. exact (Hm _ _ _ E).
Qed.

Lemma appends_for_each {A : Type} (w : nat) (l : list A) (body : A -> M unit) :
  (forall a, appends_product_rows w (body a)) ->
  appends_product_rows w (for_each l body).
Proof.
  intros Hbody. induction l as [|a l IH]; simpl.
  - intros st r st' [= _ <-]. apply ledger_refl.
  - apply appends_bind; auto.
Qed.

Lemma appends_lift {A : Type} (w : nat) (r : result A) :
  appends_product_rows w (lift r).
Proof. intros st r' st' [= _ <-]. apply ledger_refl. Qed.

Lemma appends_print (w : nat) (line : string) :
  appends_product_rows w (print line).
Proof. intros st r' st' [= _ <-]. now apply ledger_same. Qed.

Lemma appends_get_page (w : nat) (shop : store) (page : nat) :
  appends_product_rows w (get_page shop page).
Proof.
  intros st r st'. unfold get_page, send, print. run_script.
  destruct (products_json shop page); intros [= _ <-]; now apply ledger_same.
Qed.

(** Outside variant mode a product gets no row or one row, of three values
    and one per product field, and is counted when it gets one. *)
Lemma appends_scrape_product (shop : store) (base_url : string)
  (pf vf : list string) (product : value) :
  appends_product_rows (3 + List.length pf)
    (scrape_product shop base_url false pf vf product).
Proof.
  intros st r st'.
  unfold scrape_product, write_product, get_tags_from_product,
    get_complete_product_data, send, print, writerow, count_product.
  run_script.
  destruct (product_url_of base_url product) as [url|e0];
    [|intros [= _ <-]; apply ledger_refl].
  destruct (product_html shop url) as [tags|e1]; cbv beta iota;
    (destruct (product_json shop url) as [v|e2]; cbv beta iota;
     [|cbn; intros [= _ <-]; now apply ledger_same]);
    (destruct (Py.truthy v); cbn [negb];
     [|intros [= _ <-]; now apply ledger_same]);
    (destruct v; cbv beta iota;
     try (intros [= _ <-]; now apply ledger_same));
    intros [= _ <-]; (split; [reflexivity|]); cbn [csv_rows total_products];
    eexists; (split; [reflexivity|]);
    (split; [constructor; [apply product_row_length | constructor]
            | reflexivity]).
Qed.

Lemma appends_scrape_page (shop : store) (base_url : string)
  (pf vf : list string) (page : nat) (products : value) :
  appends_product_rows (3 + List.length pf)
    (scrape_page shop base_url false pf vf page products).
Proof.
  unfold scrape_page. apply appends_bind; [apply appends_lift|].
  intros each. apply appends_bind.
  - apply appends_for_each. intros product. apply appends_scrape_product.
  - intros _. apply appends_get_page.
Qed.

Lemma ledger_scrape_pages (shop : store) (base_url : string)
  (pf vf : list string) (fuel : nat) :
  forall page products st r st',
    scrape_pages shop base_url false pf vf fuel page products st
    = Some (r, st') ->
    ledger_extends (3 + List.length pf) st st'.
Proof.
  induction fuel as [|fuel IH]; intros page products st r st';
    cbn [scrape_pages]; [discriminate|].
  destruct (Py.truthy products); [|intros [= _ <-]; apply ledger_refl].
  destruct (scrape_page shop base_url false pf vf page products st)
    as [[products'|e] st1] eqn:Hpage.
  - intros Hrest. eapply ledger_trans.
    + exact (appends_scrape_page shop base_url pf vf page products _ _ _ Hpage).
    + exact (IH _ _ _ _ _ Hrest).
  - intros [= _ <-].
    exact (appends_scrape_page shop base_url pf vf page products _ _ _ Hpage).
Qed.

Lemma ledger_paginate (shop : store) (base_url : string)
  (pf vf : list string) (fuel : nat) (st : state) (r : result unit)
  (st' : state) :
  paginate shop base_url false pf vf fuel st = Some (r, st') ->
  ledger_extends (3 + List.length pf) st st'.
Proof.
  unfold paginate.
  destruct (get_page shop 1 st) as [[products|e] st1] eqn:Hfirst.
  - intros Hrest. eapply ledger_trans.
    + exact (appends_get_page _ shop 1 _ _ _ Hfirst).
    + exact (ledger_scrape_pages shop base_url pf vf fuel _ _ _ _ _ Hrest).
  - intros [= _ <-]. exact (appends_get_page _ shop 1 _ _ _ Hfirst).
Qed.

End RunMore.

(** ** The sampling phase *)

Section SamplingMore.
Context {R : PyRepr}.
Variable shop : store.
Variable base_url : string.
Variable with_variants : bool.

Lemma sends_weaken {A : Type} (n n' : nat) (m : M A) :
  n <= n' -> sends_details_only n m -> sends_details_only n' m.
Proof.
  intros Hle Hm st r st' Hrun.
  destruct (Hm st r st' Hrun) as (Hc & Hr & urls & Hreq & Hlen).
  split; [assumption|]. split; [assumption|].
  exists urls. split; [exact Hreq | lia].
Qed.

Lemma sends_lift {A : Type} (r : result A) : sends_details_only 0 (lift r).
Proof.
  intros st r' st' [= _ <-]. split; [reflexivity|]. split; [reflexivity|].
  exists []. now rewrite List.app_nil_r.
Qed.

Lemma sends_ret {A : Type} (a : A) : sends_details_only 0 (ret a).
Proof.
  intros st r' st' [= _ <-]. split; [reflexivity|]. split; [reflexivity|].
  exists []. now rewrite List.app_nil_r.
Qed.

Lemma sends_bind {A B : Type} (n n' : nat) (m : M A) (k : A -> M B) :
  sends_details_only n m -> (forall a, sends_details_only n' (k a)) ->
  sends_details_only (n + n') (bind m k).
Proof.
  intros Hm Hk st r st'. unfold bind.
  destruct (m st) as [[a|e] st1] eqn:E; intros H.
  - destruct (Hm _ _ _ E) as (Hc1 & Hr1 & urls1 & Hreq1 & Hlen1).
    destruct (Hk a _ _ _ H) as (Hc2 & Hr2 & urls2 & Hreq2 & Hlen2).
    split; [congruence|]. split; [congruence|].
    exists (urls1 ++ urls2)%list.
    rewrite Hreq2, Hreq1, map_app, <- List.app_assoc, length_app.
    split; [reflexivity | lia].
  - injection H as _ <-.
    destruct (Hm _ _ _ E) as (Hc1 & Hr1 & urls1 & Hreq1 & Hlen1).
    split; [assumption|]. split; [assumption|].
    exists urls1. split; [exact Hreq1 | lia].
Qed.

Lemma sends_get_complete_product_data (url : string) :
  sends_details_only 1 (get_complete_product_data shop url).
Proof.
  intros st r st'. unfold get_complete_product_data, send, print. run_script.
  destruct (product_json shop url); intros [= _ <-];
    (split; [reflexivity|]); (split; [reflexivity|]);
    exists [url]; split; auto.
Qed.

Lemma sends_sample_product (samples : list value * list value)
  (product : value) :
  sends_details_only 1 (sample_product shop base_url samples product).
Proof.
  unfold sample_product.
  apply (sends_bind 0 1); [apply sends_lift|]. intros url.
  apply (sends_bind 1 0); [apply sends_get_complete_product_data|].
  intros complete_product.
  destruct (Py.truthy complete_product); [|apply sends_ret].
  apply (sends_bind 0 0); [apply sends_lift|]. intros [|]; [|apply sends_ret].
  apply (sends_bind 0 0); [apply sends_lift|]. intros product_variants.
  destruct (Py.truthy product_variants); [|apply sends_ret].
  apply (sends_bind 0 0); [apply sends_lift|]. intros more. apply sends_ret.
Qed.

Lemma sends_sample_loop (products : list value) :
  forall samples,
    sends_details_only (List.length products)
      (sample_loop shop base_url products samples).
Proof.
  induction products as [|product products IH]; intros samples; simpl.
  - apply sends_ret.
  - apply (sends_bind 1 (List.length products)).
    + apply sends_sample_product.
    + intros samples'. apply IH.
Qed.

Lemma substring_length (n : nat) (s : string) :
  String.length (String.substring 0 n s) <= n.
Proof.
  revert s. induction n as [|n IH]; intros [|c s]; simpl; try lia.
  specialize (IH s). lia.
Qed.

Lemma list_ascii_length (s : string) :
  List.length (list_ascii_of_string s) = String.length s.
Proof. induction s as [|c s IH]; simpl; [reflexivity | now rewrite IH]. Qed.

(** What is gone through when the first three of [products] are. *)
Lemma first_three_length (products first_three : value) (each : list value) :
  PyDyn.slice_to 3 products = Ok first_three ->
  PyDyn.iter first_three = Ok each ->
  List.length each <= 3.
Proof.
  destruct products; cbn [PyDyn.slice_to]; try discriminate;
    intros [= <-]; cbn [PyDyn.iter]; intros [= <-].
  - rewrite length_map, list_ascii_length. apply (substring_length 3).
  - change (List.length (firstn 3 elems) <= 3). apply firstn_le_length.
Qed.

(** Lines 111-121, for the products of the first page. *)
Lemma sends_sampling (sample_products : value) :
  sends_details_only 3
    (first_three <- lift (PyDyn.slice_to 3 sample_products) ;;
     each <- lift (PyDyn.iter first_three) ;;
     samples <- sample_loop shop base_url each ([], []) ;;
     product_fields <- lift (get_all_product_fields (fst samples)) ;;
     ret (product_fields,
          if with_variants then get_all_variant_fields (snd samples) else [])).
Proof.
  intros st r st'. unfold bind at 1. unfold lift at 1.
  destruct (PyDyn.slice_to 3 sample_products) as [first_three|e] eqn:Hslice;
    [|intros [= _ <-]; split; [reflexivity|]; split; [reflexivity|];
      exists []; split; [now rewrite List.app_nil_r | simpl; lia]].
  unfold bind at 1. unfold lift at 1.
  destruct (PyDyn.iter first_three) as [each|e] eqn:Hiter;
    [|intros [= _ <-]; split; [reflexivity|]; split; [reflexivity|];
      exists []; split; [now rewrite List.app_nil_r | simpl; lia]].
  pose proof (first_three_length _ _ _ Hslice Hiter) as Hlen.
  apply (sends_weaken (List.length each + 0) 3); [lia|].
  apply sends_bind; [apply sends_sample_loop|]. intros samples.
  apply (sends_bind 0 0); [apply sends_lift|]. intros pf. apply sends_ret.
Qed.

Lemma get_page_requests (page : nat) (st : state) :
  exists st',
    get_page shop page st = (Ok (page_products shop page), st')
    /\ requests st' = (requests st ++ [GetPage page])%list
    /\ csv_created st' = csv_created st
    /\ csv_rows st' = csv_rows st.
Proof.
  unfold get_page, page_products, send, print. run_script.
  destruct (products_json shop page); cbv beta iota;
    eexists; (split; [reflexivity|]); repeat split; reflexivity.
Qed.

Lemma discover_requests (st : state) :
  csv_created (snd (discover shop base_url with_variants st)) = csv_created st
  /\ csv_rows (snd (discover shop base_url with_variants st)) = csv_rows st
  /\ exists urls,
      requests (snd (discover shop base_url with_variants st))
      = (requests st ++ GetPage 1 :: map GetJson urls)%list
      /\ List.length urls <= 3.
Proof.
  destruct (discover shop base_url with_variants st) as [r st'] eqn:Hrun.
  cbn [snd]. revert Hrun.
  unfold discover. unfold bind at 1. unfold print at 1. cbv beta iota.
  unfold bind at 1.
  match goal with
  | |- context [get_page shop 1 ?s] =>
      destruct (get_page_requests 1 s) as (st1 & Hpage & Hreq1 & Hc1 & Hr1)
  end.
  rewrite Hpage. cbn [requests csv_created csv_rows] in Hreq1, Hc1, Hr1.
  destruct (Py.truthy (page_products shop 1)); cbn [negb].
  - intros Hrun.
    destruct (sends_sampling (page_products shop 1) st1 r st' Hrun)
      as (Hc & Hr & urls & Hreq & Hlen).
    split; [congruence|]. split; [congruence|]. exists urls.
    rewrite Hreq, Hreq1, <- List.app_assoc. split; [reflexivity | exact Hlen].
  - unfold bind, print, raise. intros [= _ <-].
    cbn [requests csv_created csv_rows].
    split; [assumption|]. split; [assumption|].
    exists []. split; [exact Hreq1 | simpl; lia].
Qed.

(** X7.  Field discovery sends the request for page 1 and then at most
    three requests, each for the detail JSON of a product; it requests no
    HTML page, does not create the CSV file and writes no row, however it
    ends. *)
Theorem discovery_samples_three (st : state) :
  exists urls,
    requests (snd (discover shop base_url with_variants st))
    = (requests st ++ GetPage 1 :: map GetJson urls)%list
    /\ List.length urls <= 3
    /\ csv_created (snd (discover shop base_url with_variants st))
       = csv_created st
    /\ csv_rows (snd (discover shop base_url with_variants st)) = csv_rows st.
Proof.
  destruct (discover_requests st) as (Hc & Hr & urls & Hreq & Hlen).
  exists urls. auto.
Qed.

Lemma discover_returns_sorted :
  returns (discover shop base_url with_variants)
    (fun fields =>
       StronglySorted str_lt (fst fields)
       /\ StronglySorted str_lt (snd fields)
       /\ (with_variants = false -> snd fields = [])).
Proof.
  unfold discover. apply returns_bind. intros _.
  apply returns_bind. intros sample_products.
  destruct (negb (Py.truthy sample_products)).
  - apply returns_bind. intros _. apply returns_raise.
  - do 3 (apply returns_bind; intros ?).
    intros st fields st'. unfold bind, lift, ret.
    destruct (get_all_product_fields (fst a1)) as [columns|e] eqn:Hfields;
      [|discriminate].
    intros [= <- _]. cbn [fst snd]. split; [|split].
    + exact (get_all_product_fields_sorted _ _ Hfields).
    + destruct with_variants; [apply get_all_variant_fields_sorted|constructor].
    + now intros ->.
Qed.

(** X8.  When field discovery returns, the product fields it returns are
    in strictly ascending order, hence distinct, and so are the variant
    fields; without the variants flag there is no variant field. *)
Theorem discovered_fields_sorted (st : state) :
  match fst (discover shop base_url with_variants st) with
  | Ok fields =>
      StronglySorted (fun a b => String.ltb a b = true) (fst fields)
      /\ NoDup (fst fields)
      /\ StronglySorted (fun a b => String.ltb a b = true) (snd fields)
      /\ NoDup (snd fields)
      /\ (if with_variants then True else snd fields = [])
  | Raise _ => True
  end.
Proof.
  destruct (discover shop base_url with_variants st) as [[fields|e] st']
    eqn:Hrun; cbn [fst]; [|exact I].
  destruct (discover_returns_sorted st fields st' Hrun) as (Hpf & Hvf & Hno).
  repeat split; try assumption; try (now apply sorted_NoDup).
  destruct with_variants; [exact I | now apply Hno].
Qed.

Lemma Forall_first {A : Type} (P : A -> Prop) (n : nat) (l : list A) :
  Forall P l -> Forall P (firstn n l).
Proof.
  intros H. revert n. induction H as [|x l Hx _ IH]; intros [|n]; simpl;
    constructor; auto.
Qed.

Lemma sample_loop_all_failed (products : list value) :
  Forall is_summary products ->
  (forall url, exists e, product_json shop url = Failed e) ->
  forall samples st,
    exists st', sample_loop shop base_url products samples st = (Ok samples, st').
Proof.
  intros Hproducts Hfail.
  induction Hproducts as [|product products Hsummary _ IH]; intros samples st;
    cbn [sample_loop].
  - unfold ret. eauto.
  - destruct Hsummary as (d & h & -> & Hhandle).
    unfold bind at 1. unfold sample_product, product_url_of, rbind,
      PyDyn.getitem. rewrite Hhandle. cbv beta iota.
    unfold bind at 1. unfold lift at 1. cbv beta iota.
    unfold bind at 1. unfold get_complete_product_data, send, print.
    run_script.
    destruct (Hfail (base_url ++ "/products/" ++ h)) as [e ->].
    cbn [Py.truthy]. cbv beta iota. apply IH.
Qed.

(** X9.  When the first page lists summary records and the detail fetch of
    each of them fails, field discovery still returns, with no product
    field and no variant field: nothing stops the run, whose header is then
    made of the three leading columns only. *)
Theorem failed_samples_give_empty_schema (items : list value) (st : state) :
  page_products shop 1 = VList items ->
  items <> [] ->
  Forall is_summary items ->
  (forall url, exists e, product_json shop url = Failed e) ->
  (exists st',
      discover shop base_url with_variants st = (Ok ([], []), st'))
  /\ header with_variants [] []
     = ["scraped_url"; "meta_title"; "meta_description"].
Proof.
  intros Hpage Hne Hitems Hfail. split; [|now destruct with_variants].
  unfold discover. unfold bind at 1. unfold print at 1. cbv beta iota.
  unfold bind at 1.
  match goal with
  | |- context [get_page shop 1 ?s] =>
      destruct (get_page_requests 1 s) as (st1 & Hrun & _)
  end.
  rewrite Hrun, Hpage. destruct items as [|item items]; [congruence|].
  cbn [Py.truthy negb]. unfold bind at 1. unfold lift at 1.
  cbn [PyDyn.slice_to]. unfold bind at 1. unfold lift at 1.
  cbn [PyDyn.iter]. unfold bind at 1.
  destruct (sample_loop_all_failed (firstn 3 (item :: items)))
    with (samples := (@nil value, @nil value)) (st := st1) as [st2 Hloop];
    [now apply Forall_first | exact Hfail |].
  rewrite Hloop. unfold bind, lift, ret. cbn.
  destruct with_variants; eauto.
Qed.

End SamplingMore.

(** ** Whole runs *)

Section WholeRun.
Context {R : PyRepr}.

Lemma only_prints_print (line : string) : only_prints (print line).
Proof. intros st. eexists. split; [reflexivity|]. repeat split. Qed.

Lemma only_prints_ret : only_prints (ret tt).
Proof. intros st. eexists. split; [reflexivity|]. repeat split. Qed.

Lemma only_prints_bind (m k : M unit) :
  only_prints m -> only_prints k -> only_prints (m ;; k).
Proof.
  intros Hm Hk st. unfold bind.
  destruct (Hm st) as (st1 & -> & Hc1 & Hr1 & Hp1 & Hv1 & Hq1).
  destruct (Hk st1) as (st2 & -> & Hc2 & Hr2 & Hp2 & Hv2 & Hq2).
  exists st2. split; [reflexivity|]. repeat split; congruence.
Qed.

Lemma only_prints_for_each {A : Type} (l : list A) (body : A -> M unit) :
  (forall a, only_prints (body a)) -> only_prints (for_each l body).
Proof.
  intros Hbody. induction l as [|a l IH]; simpl.
  - apply only_prints_ret.
  - apply only_prints_bind; auto.
Qed.

Lemma only_prints_debug_report (wv : bool) (pf vf : list string) :
  only_prints (debug_report wv pf vf).
Proof.
  unfold debug_report.
  apply only_prints_bind; [apply only_prints_print|].
  apply only_prints_bind.
  { apply only_prints_for_each. intros field. apply only_prints_print. }
  apply only_prints_bind; [|apply only_prints_print].
  destruct (wv && Py.truthy (VList (map VStr vf))); [|apply only_prints_ret].
  apply only_prints_bind; [apply only_prints_print|].
  apply only_prints_for_each. intros field. apply only_prints_print.
Qed.

Lemma only_prints_final_report (wv : bool) (pf vf : list string) :
  only_prints (final_report wv pf vf).
Proof.
  intros st. unfold final_report.
  match goal with
  | |- context [?m st = _] => assert (Hm : only_prints m)
  end.
  { apply only_prints_bind; [apply only_prints_print|].
    apply only_prints_bind; [apply only_prints_print|].
    apply only_prints_bind; [destruct wv;
                             [apply only_prints_print | apply only_prints_ret]|].
    apply only_prints_bind; apply only_prints_print. }
  exact (Hm st).
Qed.

(** Lines 135-152: whatever was there, the file is now created, holds the
    header and nothing else, and both counters are at zero. *)
Lemma start_csv_run (wv : bool) (pf vf : list string) (st : state) :
  exists st',
    start_csv wv pf vf st = (Ok tt, st')
    /\ csv_created st' = true
    /\ csv_rows st' = [map VStr (header wv pf vf)]
    /\ total_products st' = 0
    /\ total_variants st' = 0.
Proof.
  unfold start_csv, open_csv, writerow, print, reset_totals. run_script.
  eexists. split; [reflexivity|]. repeat split.
Qed.

(** Without the variants flag, the state in which [export] ends holds the
    header and then one row of the header's width per product counted. *)
Lemma export_ledger (shop : store) (base_url : string) (pf vf : list string)
  (dbg : bool) (fuel : nat) (st : state) (r : result unit) (st' : state) :
  export shop base_url false pf vf dbg fuel st = Some (r, st') ->
  csv_created st' = true
  /\ exists rows,
      csv_rows st' = map VStr (header false pf vf) :: rows
      /\ Forall (fun row => List.length row = List.length (header false pf vf))
           rows
      /\ total_products st' = List.length rows.
Proof.
  unfold export. unfold bind at 1.
  assert (Hdbg : only_prints
                   (if dbg then debug_report false pf vf else ret tt)).
  { destruct dbg; [apply only_prints_debug_report | apply only_prints_ret]. }
  destruct (Hdbg st) as (st0 & -> & _).
  destruct (start_csv_run false pf vf st0) as (st1 & -> & Hc1 & Hr1 & Hp1 & _).
  assert (Hledger : forall st2,
             ledger_extends (3 + List.length pf) st1 st2 ->
             csv_created st2 = true
             /\ exists rows,
                 csv_rows st2 = map VStr (header false pf vf) :: rows
                 /\ Forall (fun row =>
                              List.length row
                              = List.length (header false pf vf)) rows
                 /\ total_products st2 = List.length rows).
  { intros st2 [Hc (rows & Hr & Hw & Hp)]. split; [congruence|].
    exists rows. rewrite Hr, Hr1, Hp, Hp1, header_length, Nat.add_0_r.
    repeat split. exact Hw. }
  destruct (paginate shop base_url false pf vf fuel st1)
    as [[[[]|e] st2]|] eqn:Hrun; [| |discriminate].
  - destruct (only_prints_final_report false pf vf st2)
      as (st3 & -> & Hc3 & Hr3 & Hp3 & _).
    intros [= _ <-].
    destruct (Hledger st2 (ledger_paginate _ _ _ _ _ _ _ _ Hrun))
      as [Hc (rows & Hr & Hw & Hp)].
    split; [congruence|]. exists rows. repeat split; congruence.
  - intros [= _ <-].
    exact (Hledger st2 (ledger_paginate _ _ _ _ _ _ _ _ Hrun)).
Qed.

(** X10.  Without the variants flag, whenever a run ends with the CSV file
    created, be it normally or on an exception, the file holds the header
    and then rows that all have as many values as the header has columns,
    and the product counter is the number of these rows. *)
Theorem rows_match_header_without_variants (shop : store) (args : arguments)
  (fuel : nat) (r : result unit) (st : state) :
  variants args = false ->
  main shop args fuel = Some (r, st) ->
  csv_created st = true ->
  exists product_fields rows,
    csv_rows st = map VStr (header false product_fields []) :: rows
    /\ Forall (fun row =>
                 List.length row
                 = List.length (header false product_fields [])) rows
    /\ total_products st = List.length rows.
Proof.
  intros Hmode. unfold main. rewrite Hmode.
  destruct (website_url args) as [base_url|];
    [|intros [= _ <-]; discriminate].
  destruct (Py.str_truthy base_url); [|intros [= _ <-]; discriminate].
  destruct (discover_requests shop base_url false initial_state)
    as (Hc & _).
  pose proof (discover_returns_sorted shop base_url false initial_state)
    as Hfields.
  destruct (discover shop base_url false initial_state) as [[fields|e] st0];
    [|intros [= _ <-] Hcreated; cbn [snd] in Hc;
      rewrite Hc in Hcreated; discriminate].
  destruct (Hfields fields st0 eq_refl) as (_ & _ & Hvf).
  rewrite (Hvf eq_refl). intros Hrun _.
  destruct (export_ledger _ _ _ _ _ _ _ _ _ Hrun) as [_ Hrows].
  exists (fst fields). exact Hrows.
Qed.

(** X11.  Without a base URL, or with an empty one, the run prints the
    usage line and ends in [exit(0)]: no request is sent and the CSV file
    is not created. *)
Theorem missing_url_exits (shop : store) (args : arguments) (fuel : nat) :
  website_url args = None \/ website_url args = Some "" ->
  exists st,
    main shop args fuel = Some (Raise (SystemExit 0), st)
    /\ stdout st
       = ["usage: shopify_scraper.py [-h] [-t WEBSITE_URL] [-v] [--debug]"]
    /\ requests st = []
    /\ csv_created st = false.
Proof.
  intros [Hurl|Hurl]; unfold main; rewrite Hurl; cbn;
    eexists; (split; [reflexivity|]); repeat split.
Qed.

End WholeRun.

(** ** Single items *)

Section ItemsMore.
Context {R : PyRepr}.
Variable shop : store.
Variable base_url : string.
Variables product_fields variant_fields : list string.

(** X12.  When the HTML page of an item cannot be fetched, the item is not
    lost: outside variant mode its row is written all the same, with an
    empty title and an empty description after the URL, the product is
    counted, and the failure is printed. *)
Theorem failed_tags_leave_row (product : value) (url e : string) (d : dict)
  (st : state) :
  product_url_of base_url product = Ok url ->
  product_html shop url = Failed e ->
  product_json shop url = Fetched (VDict d) ->
  d <> [] ->
  exists st',
    scrape_product shop base_url false product_fields variant_fields product st
    = (Ok tt, st')
    /\ csv_rows st'
       = (csv_rows st
            ++ [[VStr url; VStr ""; VStr ""]
                  ++ map (fun field =>
                            Py.get (flatten_dict d "" "_") field (VStr ""))
                       product_fields])%list
    /\ total_products st' = total_products st + 1
    /\ In ("Error getting tags from " ++ url ++ ": " ++ e) (stdout st').
Proof.
  intros Hurl Hhtml Hjson Hd.
  unfold scrape_product, write_product, get_tags_from_product,
    get_complete_product_data, send, print, writerow, count_product.
  run_script. rewrite Hurl. cbv beta iota. rewrite Hhtml, Hjson.
  cbv beta iota. destruct d as [|entry d]; [congruence|].
  cbn [Py.truthy negb fst snd]. cbv beta iota.
  eexists. split; [reflexivity|].
  cbn [csv_rows total_products stdout]. repeat split.
  apply in_or_app. right. now left.
Qed.

(** X13.  An item whose detail fetch succeeds with a falsy answer, such as
    an empty object or [null], is passed over like an item whose fetch
    failed: the loop body ends normally, no row is written, nothing is
    counted, and no line is printed about the missing data. *)
Theorem falsy_product_skipped (product v : value) (url : string)
  (st : state) :
  product_url_of base_url product = Ok url ->
  product_json shop url = Fetched v ->
  Py.truthy v = false ->
  forall with_variants,
  exists st',
    scrape_product shop base_url with_variants product_fields variant_fields
      product st = (Ok tt, st')
    /\ csv_rows st' = csv_rows st
    /\ total_products st' = total_products st
    /\ total_variants st' = total_variants st
    /\ (forall line,
           In line (stdout st') ->
           In line (stdout st)
           \/ line = " ├ Scraping: " ++ url
           \/ exists e, line = "Error getting tags from " ++ url ++ ": " ++ e).
Proof.
  intros Hurl Hjson Hfalsy with_variants.
  unfold scrape_product, get_tags_from_product, get_complete_product_data,
    send, print.
  run_script. rewrite Hurl. cbv beta iota. rewrite Hjson.
  destruct (product_html shop url) as [tags|e]; cbv beta iota;
    rewrite Hfalsy; cbn [negb]; cbv beta iota;
    eexists; (split; [reflexivity|]);
    cbn [csv_rows total_products total_variants stdout];
    (split; [reflexivity|]); (split; [reflexivity|]);
    (split; [reflexivity|]); intros line Hin;
    repeat (apply in_app_or in Hin; destruct Hin as [Hin|Hin]);
    try (destruct Hin as [<-|[]]); eauto.
Qed.

(** X14.  An item that heads the first page and from which no product
    URL can be built, for want of a [handle] or of a string under it, ends
    the run while the fields are being discovered, on the exception that
    raises: page 1 is the only request that has been sent, the CSV file is
    not created and no row is written. *)
Theorem unusable_item_ends_run (args : arguments) (product : value)
  (rest : list value) (e : exn) (fuel : nat) :
  website_url args = Some base_url ->
  Py.str_truthy base_url = true ->
  page_products shop 1 = VList (product :: rest) ->
  product_url_of base_url product = Raise e ->
  exists st,
    main shop args fuel = Some (Raise e, st)
    /\ requests st = [GetPage 1]
    /\ csv_created st = false
    /\ csv_rows st = [].
Proof.
  intros Hargs Hbase Hpage Hurl.
  assert (Hdiscover : exists st,
             discover shop base_url (variants args) initial_state
             = (Raise e, st)
             /\ requests st = [GetPage 1]
             /\ csv_created st = false
             /\ csv_rows st = []).
  { unfold discover. unfold bind at 1. unfold print at 1. cbv beta iota.
    unfold bind at 1.
    match goal with
    | |- context [get_page shop 1 ?s] =>
        destruct (get_page_requests shop 1 s)
          as (st1 & Hrun & Hreq & Hcsv & Hrows)
    end.
    rewrite Hrun, Hpage. cbn [Py.truthy negb]. unfold bind at 1.
    unfold lift at 1. cbn [PyDyn.slice_to]. unfold bind at 1.
    unfold lift at 1. cbn [PyDyn.iter]. unfold bind at 1.
    cbn [firstn sample_loop]. unfold bind at 1.
    unfold sample_product at 1. unfold bind at 1. unfold lift at 1.
    rewrite Hurl. exists st1. auto. }
  destruct Hdiscover as (st & Hrun & Hreq & Hcsv & Hrows).
  exists st. unfold main. rewrite Hargs, Hbase, Hrun. auto.
Qed.

Lemma for_each_app {A : Type} (l1 l2 : list A) (body : A -> M unit)
  (st : state) :
  for_each (l1 ++ l2) body st = (for_each l1 body ;; for_each l2 body) st.
Proof.
  revert st. induction l1 as [|a l1 IH]; intros st; simpl.
  - reflexivity.
  - unfold bind. destruct (body a st) as [[[]|e] st1]; [apply IH|reflexivity].
Qed.

(** X15.  In variant mode, a variant that is not a dictionary ends the run
    on [AttributeError], after the rows of the variants before it have
    been written and counted; the product itself is not counted and the
    variants after it get no row. *)
Theorem bad_variant_ends_run (url : string) (title description : value)
  (d : dict) (vs : list dict) (bad : value) (rest : list value) (st : state) :
  Py.lookup d "variants" = Some (VList (map VDict vs ++ bad :: rest)) ->
  Py.isinstance_dict bad = false ->
  exists st',
    write_product true product_fields variant_fields url title description
      (VDict d) st = (Raise AttributeError, st')
    /\ csv_rows st'
       = (csv_rows st
            ++ map (fun v =>
                      product_row product_fields url title description
                        (flatten_dict d "" "_")
                        ++ map (fun field =>
                                  Py.get (flatten_dict v "" "_") field
                                    (VStr "")) variant_fields) vs)%list
    /\ total_variants st' = total_variants st + List.length vs
    /\ total_products st' = total_products st.
Proof.
  intros Hvariants Hbad.
  destruct (write_variants product_fields variant_fields url title description
              (flatten_dict d "" "_") vs st)
    as (st1 & Hrun & Hrows & Hv & Hp & _).
  unfold write_product. run_script.
  rewrite (contains_key d "variants" _ Hvariants). run_script.
  unfold PyDyn.getitem. rewrite Hvariants. run_script.
  rewrite for_each_app. unfold bind at 1. rewrite Hrun.
  cbn [for_each]. unfold bind at 1. unfold write_variant at 1. run_script.
  exists st1. split; [|auto].
  destruct bad; try reflexivity; discriminate.
Qed.


(** X17.  Over a well-formed shop whose every page has products, the loop
    never returns: it is still going after any number of turns. *)
Theorem endless_catalog_never_returns (with_variants : bool) (fuel : nat)
  (st : state) :
  (forall n, well_formed_shop shop n) ->
  (forall p, 1 <= p -> Py.truthy (page_products shop p) = true) ->
  paginate shop base_url with_variants product_fields variant_fields fuel st
  = None.
Proof.
  intros Hwf Hfull.
  assert (Hloop : forall fuel' page st1,
             1 <= page ->
             scrape_pages shop base_url with_variants product_fields
               variant_fields fuel' page (page_products shop page) st1
             = None).
  { induction fuel' as [|fuel' IH]; intros page st1 Hpage;
      cbn [scrape_pages]; [reflexivity|].
    rewrite (Hfull page Hpage).
    destruct (Hwf page) as [Hpages Hshop].
    destruct (Hpages page) as (items & Hitems & Hsummaries); [lia|].
    destruct (scrape_then_fetch_completes shop base_url with_variants
                product_fields variant_fields page items st1 Hitems
                Hsummaries Hshop) as [st2 Hrun].
    unfold scrape_then_fetch in Hrun. revert Hrun. run_script.
    destruct (scrape_page_run shop base_url with_variants product_fields
                variant_fields page (page_products shop page) st1)
      as [(e & st' & Hpage_run & _)|(st' & Hpage_run & _)];
      rewrite Hpage_run; [discriminate|].
    intros _. apply IH. lia. }
  unfold paginate.
  destruct (get_page_requests shop 1 st) as (st1 & -> & _).
  now apply Hloop.
Qed.

End ItemsMore.

(** ** Separators, samples that are no records, and the debug flag *)

Section Misc.
Context {R : PyRepr}.

(** X18.  Flattening composes, for any separator: the output for a record
    holds all the keys that the record under one of its keys yields when
    flattened under that key, and all the keys that a dictionary at
    position [i] of a list under [k] yields when flattened under [k_i];
    the position is joined by an underscore whatever the separator is. *)
Theorem flatten_composes (d : dict) (sep : string) :
  (forall k n key,
      In (k, VDict n) d ->
      In key (Py.keys (flatten_dict n k sep)) ->
      In key (Py.keys (flatten_dict d "" sep)))
  /\
  (forall k l i n key,
      In (k, VList l) d ->
      first_is_dict l = true ->
      nth_error l i = Some (VDict n) ->
      In key (Py.keys (flatten_dict n (k ++ "_" ++ Py.str_nat i) sep)) ->
      In key (Py.keys (flatten_dict d "" sep))).
Proof.
  split.
  - intros k n key Hd Hin.
    exact (entry_keys_in_output d "" sep k key (VDict n) Hd Hin).
  - intros k l i n key Hd Hfirst Hnth Hin.
    apply (entry_keys_in_output d "" sep k key (VList l) Hd).
    rewrite flatten_entry_list, Hfirst.
    now apply (enumerate_dict_item k sep l i n Hnth 0).
Qed.

Lemma collect_product_fields_bad (before : list dict) (bad : value)
  (rest : list value) :
  Py.isinstance_dict bad = false ->
  forall all_fields,
    collect_product_fields (map VDict before ++ bad :: rest) all_fields
    = Raise AttributeError.
Proof.
  intros Hbad. induction before as [|d before IH]; intros all_fields; simpl.
  - destruct bad; try reflexivity; discriminate.
  - apply IH.
Qed.

Lemma collect_variant_fields_skip (before : list value) (bad : value)
  (rest : list value) :
  Py.isinstance_dict bad = false ->
  forall all_fields,
    collect_variant_fields (before ++ bad :: rest) all_fields
    = collect_variant_fields (before ++ rest) all_fields.
Proof.
  intros Hbad. induction before as [|v before IH]; intros all_fields; simpl.
  - destruct bad; try reflexivity; discriminate.
  - destruct v; apply IH.
Qed.

(** X19.  The two field analyses treat a sample that is not a dictionary
    differently: [get_all_product_fields] raises [AttributeError] at the
    first such sample, [get_all_variant_fields] returns what it returns
    without it. *)
Theorem non_record_samples (before : list dict) (others : list value)
  (bad : value) (rest : list value) :
  Py.isinstance_dict bad = false ->
  get_all_product_fields (map VDict before ++ bad :: rest)
  = Raise AttributeError
  /\ get_all_variant_fields (others ++ bad :: rest)
     = get_all_variant_fields (others ++ rest).
Proof.
  intros Hbad. split.
  - unfold get_all_product_fields.
    now rewrite (collect_product_fields_bad before bad rest Hbad).
  - unfold get_all_variant_fields.
    now rewrite (collect_variant_fields_skip others bad rest Hbad).
Qed.

Lemma same_but_stdout_refl (s : state) : same_but_stdout s s.
Proof. repeat split. Qed.

Lemma blind_bind {A B : Type} (m : M A) (k : A -> M B) :
  blind_to_stdout m -> (forall a, blind_to_stdout (k a)) ->
  blind_to_stdout (bind m k).
Proof.
  intros Hm Hk s1 s2 Hs. unfold bind.
  destruct (Hm s1 s2 Hs) as [Hr Hs'].
  destruct (m s1) as [[a1|e1] t1], (m s2) as [[a2|e2] t2];
    cbn [fst snd] in *; try discriminate.
  - injection Hr as ->. now apply Hk.
  - injection Hr as ->. split; [reflexivity | assumption].
Qed.

Lemma blind_atom {A : Type} (m : M A) :
  (forall s1 s2,
      same_but_stdout s1 s2 ->
      fst (m s1) = fst (m s2) /\ same_but_stdout (snd (m s1)) (snd (m s2))) ->
  blind_to_stdout m.
Proof. auto. Qed.

Ltac blind_atom_tac :=
  apply blind_atom; intros s1 s2 (Hq & Hc & Hr & Hp & Hv);
  unfold lift, ret, print, send, writerow, count_product, count_variant,
    open_csv, reset_totals;
  split; [reflexivity|]; unfold same_but_stdout;
  cbn [snd requests csv_created csv_rows total_products total_variants];
  repeat split; congruence.

Lemma blind_lift {A : Type} (r : result A) : blind_to_stdout (lift r).
Proof. blind_atom_tac. Qed.

Lemma blind_ret {A : Type} (a : A) : blind_to_stdout (ret a).
Proof. blind_atom_tac. Qed.

Lemma blind_print (line : string) : blind_to_stdout (print line).
Proof. blind_atom_tac. Qed.

Lemma blind_send (q : request) : blind_to_stdout (send q).
Proof. blind_atom_tac. Qed.

Lemma blind_writerow (row : list value) : blind_to_stdout (writerow row).
Proof. blind_atom_tac. Qed.

Lemma blind_count_product : blind_to_stdout count_product.
Proof. blind_atom_tac. Qed.

Lemma blind_count_variant : blind_to_stdout count_variant.
Proof. blind_atom_tac. Qed.

Lemma blind_open_csv : blind_to_stdout open_csv.
Proof. blind_atom_tac. Qed.

Lemma blind_reset_totals : blind_to_stdout reset_totals.
Proof. blind_atom_tac. Qed.

Lemma blind_for_each {A : Type} (l : list A) (body : A -> M unit) :
  (forall a, blind_to_stdout (body a)) -> blind_to_stdout (for_each l body).
Proof.
  intros Hbody. induction l as [|a l IH]; simpl.
  - apply blind_ret.
  - apply blind_bind; auto.
Qed.

Create HintDb blind.
#[local] Hint Resolve blind_lift blind_ret blind_print blind_send
  blind_writerow blind_count_product blind_count_variant blind_open_csv
  blind_reset_totals : blind.

Ltac blind_steps :=
  repeat (first
            [ apply blind_bind; [|intros ?]
            | apply blind_for_each; intros ?
            | solve [auto with blind]
            | match goal with
              | |- blind_to_stdout (if ?b then _ else _) => destruct b
              | |- blind_to_stdout (match ?x with _ => _ end) => destruct x
              end ]).

Lemma blind_get_page (shop : store) (page : nat) :
  blind_to_stdout (get_page shop page).
Proof. unfold get_page. blind_steps. Qed.

Lemma blind_scrape_page (shop : store) (base_url : string) (wv : bool)
  (pf vf : list string) (page : nat) (products : value) :
  blind_to_stdout (scrape_page shop base_url wv pf vf page products).
Proof.
  unfold scrape_page, scrape_product, write_product, write_variant,
    get_tags_from_product, get_complete_product_data, get_page.
  blind_steps.
Qed.

Lemma blind_start_csv (wv : bool) (pf vf : list string) :
  blind_to_stdout (start_csv wv pf vf).
Proof. unfold start_csv. blind_steps. Qed.

Lemma blind_final_report (wv : bool) (pf vf : list string) :
  blind_to_stdout (final_report wv pf vf).
Proof.
  intros s1 s2 (Hq & Hc & Hr & Hp & Hv).
  unfold final_report, bind, print, ret.
  destruct wv; cbn [fst snd]; (split; [reflexivity|]);
    unfold same_but_stdout;
    cbn [requests csv_created csv_rows total_products total_variants];
    repeat split; assumption.
Qed.

Lemma same_outcome_scrape_pages (shop : store) (base_url : string)
  (wv : bool) (pf vf : list string) (fuel : nat) :
  forall page products s1 s2,
    same_but_stdout s1 s2 ->
    same_outcome
      (scrape_pages shop base_url wv pf vf fuel page products s1)
      (scrape_pages shop base_url wv pf vf fuel page products s2).
Proof.
  induction fuel as [|fuel IH]; intros page products s1 s2 Hs;
    cbn [scrape_pages]; [exact I|].
  destruct (Py.truthy products); [|split; [reflexivity | exact Hs]].
  destruct (blind_scrape_page shop base_url wv pf vf page products s1 s2 Hs)
    as [Hr Hs'].
  destruct (scrape_page shop base_url wv pf vf page products s1)
    as [[a1|e1] t1],
    (scrape_page shop base_url wv pf vf page products s2) as [[a2|e2] t2];
    cbn [fst snd] in *; try discriminate.
  - injection Hr as ->. now apply IH.
  - injection Hr as ->. split; [reflexivity | exact Hs'].
Qed.

Lemma same_outcome_export (shop : store) (base_url : string) (wv : bool)
  (pf vf : list string) (fuel : nat) (st : state) :
  same_outcome
    (export shop base_url wv pf vf true fuel st)
    (export shop base_url wv pf vf false fuel st).
Proof.
  unfold export. unfold bind at 1. unfold bind at 1. cbv iota.
  destruct (only_prints_debug_report wv pf vf st)
    as (st0 & -> & Hc & Hr & Hp & Hv & Hq).
  unfold ret at 1.
  assert (Hs : same_but_stdout st0 st) by (repeat split; assumption).
  destruct (blind_start_csv wv pf vf st0 st Hs) as [Hr1 Hs1].
  destruct (start_csv wv pf vf st0) as [[[]|e1] t1],
    (start_csv wv pf vf st) as [[[]|e2] t2];
    cbn [fst snd] in *; try discriminate;
    [|injection Hr1 as ->; split; [reflexivity | exact Hs1]].
  unfold paginate.
  destruct (blind_get_page shop 1 t1 t2 Hs1) as [Hr2 Hs2].
  destruct (get_page shop 1 t1) as [[p1|e1] u1],
    (get_page shop 1 t2) as [[p2|e2] u2];
    cbn [fst snd] in *; try discriminate;
    [|injection Hr2 as ->; split; [reflexivity | exact Hs2]].
  injection Hr2 as ->.
  pose proof (same_outcome_scrape_pages shop base_url wv pf vf fuel 1 p2
                u1 u2 Hs2) as Hloop.
  destruct (scrape_pages shop base_url wv pf vf fuel 1 p2 u1)
    as [[[[]|e1] w1]|],
    (scrape_pages shop base_url wv pf vf fuel 1 p2 u2) as [[[[]|e2] w2]|];
    cbn [same_outcome] in *; try (destruct Hloop; discriminate);
    try contradiction; try exact Hloop.
  destruct Hloop as [_ Hs3].
  destruct (blind_final_report wv pf vf w1 w2 Hs3) as [Hr4 Hs4].
  destruct (final_report wv pf vf w1) as [r1 x1],
    (final_report wv pf vf w2) as [r2 x2]. cbn [fst snd] in *.
  split; assumption.
Qed.

(** X20.  The debug flag is diagnostic only: with and without it a run
    ends in the same way, sends the same requests, writes the same rows
    and counts the same, or is in both cases still going; only what is
    printed differs. *)
Theorem debug_flag_only_prints (shop : store) (url : option string)
  (wv : bool) (fuel : nat) :
  same_outcome
    (main shop {| website_url := url; variants := wv; debug := true |} fuel)
    (main shop {| website_url := url; variants := wv; debug := false |} fuel).
Proof.
  unfold main. cbn [website_url variants debug].
  destruct url as [base_url|];
    [|split; [reflexivity | apply same_but_stdout_refl]].
  destruct (Py.str_truthy base_url);
    [|split; [reflexivity | apply same_but_stdout_refl]].
  destruct (discover shop base_url wv initial_state) as [[fields|e] st];
    [|split; [reflexivity | apply same_but_stdout_refl]].
  apply same_outcome_export.
Qed.

End Misc.

(** ** The further properties on concrete inputs *)

Section MoreInstances.
#[local] Existing Instance repr_plain.

(** A list can survive flattening: the second element of a list that
    starts with a dictionary is kept as it is, list or not. *)
Example flatten_keeps_inner_list :
  flatten_dict [("a", VList [VDict [("x", VInt 1)]; VList [VInt 2]])] "" "_"
  = [("a_0_x", VInt 1); ("a_1", VList [VInt 2])].
Proof. reflexivity. Qed.

(** A record of three scalars is its own flattening. *)
Lemma flatten_flat_record_witness :
  (NoDup (Py.keys flat_record)
   /\ Forall (fun kv => is_scalar (snd kv) = true) flat_record)
  /\ flatten_dict flat_record "" "_" = flat_record.
Proof.
  assert (Hnd : NoDup (Py.keys flat_record)).
  { repeat constructor; simpl; intuition discriminate. }
  assert (Hscalars : Forall (fun kv => is_scalar (snd kv) = true) flat_record).
  { repeat constructor. }
  split; [auto|].
  exact (proj1 (flatten_flat_record flat_record "p" "_" Hnd Hscalars)).
Defined.

(** The record of images has uniform lists, and flattens to scalars. *)
Lemma flatten_values_scalar_witness :
  uniform_lists (VDict images_record) = true
  /\ Forall (fun kv => is_scalar (snd kv) = true)
       (flatten_dict images_record "" "_").
Proof.
  assert (Huniform : uniform_lists (VDict images_record) = true)
    by reflexivity.
  split; [exact Huniform|].
  exact (flatten_values_scalar images_record "" "_" Huniform).
Defined.

(** The nested record under [a] yields [a_b], and so does the entry
    [a_b] that follows it: the output has the value of the latter. *)
Lemma later_scalar_entry_wins_witness :
  (is_scalar (VInt 2) = true
   /\ Forall (fun kv => is_scalar (snd kv) = true /\ fst kv <> "a_b")
        [("c", VNone)])
  /\ Py.lookup (flatten_dict overridden_record "" "_") "a_b" = Some (VInt 2).
Proof.
  assert (Hafter : Forall (fun kv => is_scalar (snd kv) = true
                                     /\ fst kv <> "a_b") [("c", VNone)]).
  { constructor; [split; [reflexivity | discriminate] | constructor]. }
  assert (Hscalar : is_scalar (VInt 2) = true) by reflexivity.
  split; [auto|].
  exact (later_scalar_entry_wins [("a", VDict [("b", VInt 1)])]
           [("c", VNone)] "a_b" "_" (VInt 2) Hscalar Hafter).
Defined.

(** The shop whose detail endpoint fails: discovery returns no field. *)
Lemma failed_samples_give_empty_schema_witness :
  (page_products listing_only_shop 1
   = VList [VDict [("handle", VStr "a")]; VDict [("handle", VStr "b")]]
   /\ [VDict [("handle", VStr "a")]; VDict [("handle", VStr "b")]] <> []
   /\ Forall is_summary
        [VDict [("handle", VStr "a")]; VDict [("handle", VStr "b")]]
   /\ (forall url, exists e, product_json listing_only_shop url = Failed e))
  /\ exists st',
      discover listing_only_shop "https://shop.example" true initial_state
      = (Ok ([], []), st').
Proof.
  assert (Hne : [VDict [("handle", VStr "a")]; VDict [("handle", VStr "b")]]
                <> []) by discriminate.
  assert (Hitems : Forall is_summary
                     [VDict [("handle", VStr "a")];
                      VDict [("handle", VStr "b")]]).
  { constructor; [|constructor; [|constructor]];
      eexists; eexists; split; reflexivity. }
  assert (Hfail : forall url,
             exists e, product_json listing_only_shop url = Failed e).
  { intros url. exists "404". reflexivity. }
  assert (Hpage : page_products listing_only_shop 1
                  = VList [VDict [("handle", VStr "a")];
                           VDict [("handle", VStr "b")]]) by reflexivity.
  split; [repeat split; assumption|].
  pose proof (failed_samples_give_empty_schema listing_only_shop
                "https://shop.example" true _ initial_state Hpage Hne
                Hitems Hfail) as Hschema.
  exact (proj1 Hschema).
Defined.

(** The small shop, without the variants flag: one row under the header. *)
Lemma rows_match_header_without_variants_witness :
  exists r st,
    (variants (shop_example_args false) = false
     /\ main small_shop (shop_example_args false) 2 = Some (r, st)
     /\ csv_created st = true)
    /\ exists product_fields rows,
        csv_rows st = map VStr (header false product_fields []) :: rows
        /\ total_products st = List.length rows.
Proof.
  eexists. eexists.
  assert (Hflag : variants (shop_example_args false) = false) by reflexivity.
  match goal with
  | |- (_ /\ ?run /\ _) /\ _ =>
      assert (Hrun : run) by (vm_compute; reflexivity)
  end.
  match goal with
  | |- (_ /\ _ /\ ?created) /\ _ =>
      assert (Hcsv : created) by reflexivity
  end.
  split; [repeat split; assumption|].
  destruct (rows_match_header_without_variants small_shop
              (shop_example_args false) 2 _ _ Hflag Hrun Hcsv)
    as (pf & rows & Hrows & _ & Hcount).
  exists pf, rows. split; assumption.
Defined.

(** No [-t] option: the usage line and [exit(0)]. *)
Lemma missing_url_exits_witness :
  (website_url {| website_url := None; variants := true; debug := true |}
   = None
   \/ website_url {| website_url := None; variants := true; debug := true |}
      = Some "")
  /\ exists st,
      main small_shop
        {| website_url := None; variants := true; debug := true |} 3
      = Some (Raise (SystemExit 0), st)
      /\ requests st = [].
Proof.
  split; [now left|].
  destruct (missing_url_exits small_shop
              {| website_url := None; variants := true; debug := true |} 3
              (or_introl eq_refl)) as (st & Hrun & _ & Hreq & _).
  exists st. split; assumption.
Defined.

(** The shop without HTML pages: the row of [a] starts with its URL and
    two empty strings. *)
Lemma failed_tags_leave_row_witness :
  (product_url_of "https://shop.example" (VDict [("handle", VStr "a")])
   = Ok "https://shop.example/products/a"
   /\ product_html headless_shop "https://shop.example/products/a"
      = Failed "500"
   /\ product_json headless_shop "https://shop.example/products/a"
      = Fetched (VDict [("id", VInt 1); ("title", VStr "A")])
   /\ [("id", VInt 1); ("title", VStr "A")] <> [])
  /\ exists st',
      scrape_product headless_shop "https://shop.example" false ["id"] []
        (VDict [("handle", VStr "a")]) initial_state = (Ok tt, st')
      /\ csv_rows st'
         = [[VStr "https://shop.example/products/a"; VStr ""; VStr "";
             VInt 1]].
Proof.
  assert (Hne : [("id", VInt 1); ("title", VStr "A")] <> []) by discriminate.
  assert (Hurl : product_url_of "https://shop.example"
                   (VDict [("handle", VStr "a")])
                 = Ok "https://shop.example/products/a") by reflexivity.
  assert (Hhtml : product_html headless_shop
                    "https://shop.example/products/a" = Failed "500")
    by reflexivity.
  assert (Hjson : product_json headless_shop
                    "https://shop.example/products/a"
                  = Fetched (VDict [("id", VInt 1); ("title", VStr "A")]))
    by reflexivity.
  split; [repeat split; assumption|].
  destruct (failed_tags_leave_row headless_shop "https://shop.example" ["id"]
              [] (VDict [("handle", VStr "a")])
              "https://shop.example/products/a" "500"
              [("id", VInt 1); ("title", VStr "A")] initial_state
              Hurl Hhtml Hjson Hne) as (st' & Hrun & Hrows & _).
  exists st'. split; [exact Hrun | exact Hrows].
Defined.

(** The shop that answers with an empty object: the item is passed over. *)
Lemma falsy_product_skipped_witness :
  (product_url_of "https://shop.example" (VDict [("handle", VStr "a")])
   = Ok "https://shop.example/products/a"
   /\ product_json hollow_shop "https://shop.example/products/a"
      = Fetched (VDict [])
   /\ Py.truthy (VDict []) = false)
  /\ exists st',
      scrape_product hollow_shop "https://shop.example" true ["id"] ["price"]
        (VDict [("handle", VStr "a")]) initial_state = (Ok tt, st')
      /\ csv_rows st' = []
      /\ total_products st' = 0.
Proof.
  assert (Hurl : product_url_of "https://shop.example"
                   (VDict [("handle", VStr "a")])
                 = Ok "https://shop.example/products/a") by reflexivity.
  assert (Hjson : product_json hollow_shop "https://shop.example/products/a"
                  = Fetched (VDict [])) by reflexivity.
  assert (Hfalsy : Py.truthy (VDict []) = false) by reflexivity.
  split; [repeat split; assumption|].
  destruct (falsy_product_skipped hollow_shop "https://shop.example" ["id"]
              ["price"] (VDict [("handle", VStr "a")]) (VDict [])
              "https://shop.example/products/a" initial_state
              Hurl Hjson Hfalsy true)
    as (st' & Hrun & Hrows & Hp & _).
  exists st'. repeat split; assumption.
Defined.

(** The shop whose item has no handle: [KeyError] ends the run before
    the CSV file is created. *)
Lemma unusable_item_ends_run_witness :
  (website_url (shop_example_args false) = Some "https://shop.example"
   /\ Py.str_truthy "https://shop.example" = true
   /\ page_products nameless_shop 1 = VList [VDict [("id", VInt 3)]]
   /\ product_url_of "https://shop.example" (VDict [("id", VInt 3)])
      = Raise (KeyError "handle"))
  /\ exists st,
      main nameless_shop (shop_example_args false) 1
      = Some (Raise (KeyError "handle"), st)
      /\ requests st = [GetPage 1]
      /\ csv_created st = false.
Proof.
  assert (Hargs : website_url (shop_example_args false)
                  = Some "https://shop.example") by reflexivity.
  assert (Hbase : Py.str_truthy "https://shop.example" = true)
    by reflexivity.
  assert (Hpage : page_products nameless_shop 1
                  = VList [VDict [("id", VInt 3)]]) by reflexivity.
  assert (Hurl : product_url_of "https://shop.example"
                   (VDict [("id", VInt 3)]) = Raise (KeyError "handle"))
    by reflexivity.
  split; [repeat split; assumption|].
  destruct (unusable_item_ends_run nameless_shop "https://shop.example"
              (shop_example_args false) (VDict [("id", VInt 3)]) []
              (KeyError "handle") 1 Hargs Hbase Hpage Hurl)
    as (st & Hrun & Hreq & Hcsv & _).
  exists st. repeat split; assumption.
Defined.

(** A product whose second variant is a number: one row, then
    [AttributeError]. *)
Lemma bad_variant_ends_run_witness :
  (Py.lookup product_with_bad_variant "variants"
   = Some (VList (map VDict [[("price", VStr "9.99")]]
                    ++ VInt 5 :: [VDict [("price", VStr "1")]]))
   /\ Py.isinstance_dict (VInt 5) = false)
  /\ exists st',
      write_product true ["id"] ["price"] "u" (VStr "") (VStr "")
        (VDict product_with_bad_variant) initial_state
      = (Raise AttributeError, st')
      /\ List.length (csv_rows st') = 1
      /\ total_products st' = 0.
Proof.
  assert (Hvariants : Py.lookup product_with_bad_variant "variants"
                      = Some (VList (map VDict [[("price", VStr "9.99")]]
                                       ++ VInt 5
                                          :: [VDict [("price", VStr "1")]])))
    by reflexivity.
  assert (Hbad : Py.isinstance_dict (VInt 5) = false) by reflexivity.
  split; [split; assumption|].
  destruct (bad_variant_ends_run ["id"] ["price"] "u" (VStr "") (VStr "")
              product_with_bad_variant [[("price", VStr "9.99")]] (VInt 5)
              [VDict [("price", VStr "1")]] initial_state Hvariants Hbad)
    as (st' & Hrun & Hrows & _ & Hp).
  exists st'. split; [exact Hrun|]. split; [now rewrite Hrows | exact Hp].
Defined.


(** The shop whose every page lists a product: the loop is still going
    after seven turns. *)
Lemma endless_catalog_never_returns_witness :
  ((forall n, well_formed_shop endless_shop n)
   /\ (forall p, 1 <= p -> Py.truthy (page_products endless_shop p) = true))
  /\ paginate endless_shop "https://shop.example" false ["id"] [] 7
       initial_state = None.
Proof.
  assert (Hwf : forall n, well_formed_shop endless_shop n).
  { intros n. split.
    - intros p _. eexists. split; [reflexivity|].
      constructor; [|constructor]. eexists. eexists. split; reflexivity.
    - intros url v [= <-]. right. eexists. split; [reflexivity|].
      intros product_variants. discriminate. }
  assert (Hfull : forall p, 1 <= p ->
                            Py.truthy (page_products endless_shop p) = true).
  { intros p _. reflexivity. }
  split; [auto|].
  exact (endless_catalog_never_returns endless_shop "https://shop.example"
           ["id"] [] false 7 initial_state Hwf Hfull).
Defined.

(** With a dot as separator: [a.b], and [images_1.src]. *)
Lemma flatten_composes_witness :
  (In ("a", VDict [("b", VInt 1)]) dotted_record
   /\ In ("images",
          VList [VDict [("src", VStr "u1")]; VDict [("src", VStr "u2")]])
        dotted_record)
  /\ In "a.b" (Py.keys (flatten_dict dotted_record "" "."))
  /\ In "images_1.src" (Py.keys (flatten_dict dotted_record "" ".")).
Proof.
  assert (H1 : In ("a", VDict [("b", VInt 1)]) dotted_record) by (now left).
  assert (H2 : In ("images",
                   VList [VDict [("src", VStr "u1")];
                          VDict [("src", VStr "u2")]]) dotted_record)
    by (right; now left).
  split; [auto|].
  destruct (flatten_composes dotted_record ".") as [Hnested Hlist].
  split.
  - apply (Hnested "a" [("b", VInt 1)] "a.b" H1). now left.
  - assert (Hfirst : first_is_dict [VDict [("src", VStr "u1")];
                                    VDict [("src", VStr "u2")]] = true)
      by reflexivity.
    assert (Hnth : nth_error [VDict [("src", VStr "u1")];
                              VDict [("src", VStr "u2")]] 1
                   = Some (VDict [("src", VStr "u2")])) by reflexivity.
    apply (Hlist "images" _ 1 [("src", VStr "u2")] "images_1.src" H2
             Hfirst Hnth).
    now left.
Defined.

(** A number among the samples. *)
Lemma non_record_samples_witness :
  Py.isinstance_dict (VInt 5) = false
  /\ get_all_product_fields [VDict [("a", VInt 1)]; VInt 5]
     = Raise AttributeError
  /\ get_all_variant_fields [VDict [("a", VInt 1)]; VInt 5] = ["a"].
Proof.
  assert (Hbad : Py.isinstance_dict (VInt 5) = false) by reflexivity.
  split; [exact Hbad|].
  destruct (non_record_samples [[("a", VInt 1)]] [VDict [("a", VInt 1)]]
              (VInt 5) [] Hbad) as [Hproduct Hvariant].
  split; [exact Hproduct|].
  etransitivity; [exact Hvariant | reflexivity].
Defined.

End MoreInstances.
